(* ===== verification/_CoqProject ===== *)
-Q . S2P
Prelude.v
PyText.v
Regex.v
RegexParse.v
RegexFuel.v
RegexIgnoreCase.v
RegexCapture.v
Registry.v
Classifier.v
Rules.v
FileInfo.v
Report.v
Tools.v
ArmMain.v
AuxvDecode.v
AuxvMachine.v
HwcapTables.v
HwcapExpand.v
AuxvPrint.v
