(* ===== verification/Prelude.v ===== *)
(** * anicet: a verification development of the capability inspectors

    The repository ships two Python tools under [src/tools/]:

    - [arm64.inspect.py] disassembles an ARM64 binary with llvm-objdump
      and classifies every instruction line against a table of regular
      expressions ([INSPECT_ARRAY]), one per instruction-set extension,
      producing per-extension counts, percentages and the
      detected/undetected partition, assembled with metadata parsed from
      the output of [file] into an ordered report ([BinaryInspector.inspect]).
    - [auxv.print.py] decodes a Linux auxiliary vector (a raw byte buffer
      of (tag, value) machine-word pairs), renders it as a table and expands
      the AT_HWCAP / AT_HWCAP2 bitmasks into sorted capability names with
      per-architecture bit tables ([parse_auxv], [bits_to_names],
      [decode_hwcap], [main]).

    The two paths are independent: they share no state and meet only in
    their common shape (a static table drives a pure classification).

    ** Layout of the library (one file per component, dependency order)

    - [Prelude]   (this file) the exception/result type of the Python code
                  ([py_exc], [result]) with its monadic notation in
                  [anicet_scope], Python's [range] and slicing on lists
                  ([py_range], [py_slice]), [OrderedDict] assignment
                  ([od_set]), the development's tactics, the hint
                  databases [anicet] and [anicet_rw], and the shared list
                  lemmas.
    - [PyText]    the [str] operations the tools call: [split("\n")]
                  ([split_on], [lines]), [strip()], [sep.join] and
                  ["%d"], [in], [endswith] and [split(sep, 1)[1]], with
                  the whitespace class of [strip] and [\s]; [repr] and
                  [str] of strings, lists and integers (the texts of
                  exceptions); [sorted] on strings ([py_sorted]).
    - [Regex]     the semantics of Python's [re.search] on the subset of
                  regular expressions the tools use: the syntax ([regex]),
                  its language as an inductive predicate ([lang]), an
                  executable Brzozowski-derivative matcher
                  ([match_prefix], [search_from], [pattern_search]) and the
                  theorem that the matcher decides the language
                  ([pattern_search_correct]).  The class [Matcher] is the
                  interface the classifier is written and proved against.
    - [RegexParse] the compiler of pattern text into [pattern] (the part of
                  [re.compile] the patterns exercise), a recursive descent
                  with fuel, and the [Matcher] instance [regex_matcher].
    - [RegexFuel] the fuel of the compiler is enough for every pattern
                  ([parse_fuel_enough]), by a decreasing measure.
    - [RegexIgnoreCase] [re.search] with [re.IGNORECASE] as [sre_compile]
                  compiles it: literals and class members lowered
                  ([fold_ic], [fold_item]), the lowered character tested
                  ([search_ic]); [str.lower] on Latin-1 ([lower]).
    - [RegexCapture] [m.group(1)] of [re.match] and [re.search]: a
                  backtracking matcher ([bt]) in sre's priority order
                  (leftmost start, left alternative first, greedy
                  repetition; [a?] is [a|] and so greedy), proved to agree with [lang]
                  ([bt_some_iff], [bt_sound]) and with [search_from].
    - [Registry]  [INSPECT_ARRAY] verbatim (arm64.inspect.py, lines
                  30-87): its keys are distinct and every pattern compiles.
    - [Classifier] [BinaryInspector.count_instructions] and
                  [find_sample_instructions] (lines 193-211) and the
                  classification part of [inspect] (lines 316-339):
                  total, per-extension counts and percentages,
                  detected/undetected, as the loop [ext_loop] threading the
                  accumulator record [ext_acc] through [ext_step].
    - [Rules]     what three rules of the table count, against an
                  independent scanner ([ws_then]): the lines a rule counts
                  ([rule_lines]) and the count the report gives an
                  extension ([registry_count]).
    - [FileInfo]  [parse_file_info] (lines 246-304): the fields of the
                  report read from the output of [file] with [RegexCapture].
    - [Report]    the [OrderedDict] of [inspect] (lines 306-362) and the
                  print loop of [main] with its debug filter (402-426).
    - [Tools]     the world outside the process as a record of
                  operations ([system]: [Path.exists], [shutil.which],
                  [glob.glob], [expanduser], [stat], [subprocess.run]),
                  [subprocess.run] with [check] and its exceptions and
                  their texts ([subprocess_run], [called_process_error_str]),
                  [find_llvm_objdump] (lines 90-124) and the methods of
                  [BinaryInspector] that run a tool (lines 128-244).
    - [ArmMain]   [BinaryInspector.inspect] with its external reads
                  ([inspect_binary]) and [main] of arm64.inspect.py (lines
                  365-433): the pipeline find_llvm_objdump, inspector,
                  inspect, the print loop with the [ValueError] of a format
                  on a [str], the two exception handlers and the exit
                  status.
    - [AuxvDecode] [parse_auxv] (auxv.print.py, lines 193-240): word size
                  resolution ([ul_size], [select_fmt]), the loop over
                  [range(0, len(data), step)] with [struct.unpack] in the
                  native byte order, against the abstract contract
                  [auxv_spec] (whole chunks decoded up to the first zero
                  tag), and the encoder the kernel's layout defines.
    - [AuxvMachine] the same loop as a transition system: one iteration
                  ([loop_next], executable, and [loop_step], a relation
                  with one rule per exit of the body) on the states
                  [Loop i entries], [Done entries], [Failed exc].
    - [HwcapTables] the dict literals [AT_NAMES], [AARCH64_HWCAP],
                  [AARCH64_HWCAP2], [X86_HWCAP] (lines 28-149) in insertion
                  order, and the tag name lookup of [main].
    - [HwcapExpand] [bits_to_names], [sorted] and [decode_hwcap] (lines
                  170-190).
    - [AuxvPrint] [main] of auxv.print.py (lines 243-356): both modes,
                  [read_string_from_maps] and the string cache against a
                  memory oracle (section variables), the aligned table,
                  the [--decode-hwcap] block.

    ** What the theorems show

    - Classifier: the detected and undetected lists partition the
      registry's names; detected is exactly the extensions with a match,
      in table order; percentages lie in [0, 100]; a stream without
      instructions detects nothing; the number of samples is
      min(limit, matches) for a positive limit, and one for [limit=0];
      the instruction-line regex is characterised exactly.
    - Rules: for any disassembly, the [sb] count is the number of
      instruction lines where whitespace is followed by [sb] (so [sbfx],
      [sbc] and [sbfiz] count), the [lrcpc] count the lines where it is
      followed by [ldapr] or [stlr] (so the ARMv8.0 [stlr] counts); every
      instruction line whose address begins with [fadd] is counted as
      ASIMD, whatever its instruction.
    - Regex: the derivative matcher is correct for [lang] (both
      directions), so every statement about [re.search] in the classifier
      is a statement about languages.  RegexFuel: [parse_fuel] is enough
      fuel for every pattern, not only the table's, so the model's fuel
      never rejects a pattern Python accepts.  RegexIgnoreCase: for
      a pattern without negated classes, the case-insensitive search
      succeeds iff the plain search succeeds on the line up to case; a
      negated class is negated after lowering, so [[^a]] does not match
      ["A"]; the search is [Proper] for equality up to case.
    - Tools: [get_symbols] with [re_search_ic] returns the stripped
      lines of [nm] that match up to case, and [[]] for a pattern that
      does not compile.  With no [--llvm-objdump] and none on PATH the
      NDK locations whose glob is empty are skipped and the greatest
      match of the first one with matches is chosen, in code-point order,
      so a single-digit release (r2 to r9) wins over any r10 to r19 next
      to it; with no match at all the search raises [FileNotFoundError];
      an explicit path that does not exist is an error; [get_file_size] keeps the number in
      [1, 1024) and exact; [get_embedded_strings] returns at most ten
      stripped lines.
    - ArmMain: [main] refines [Report.inspect] followed by the debug
      filter when the tools succeed (the composition of all components);
      printing a report never raises; a missing binary gives the error
      text and exit status 1; when llvm-objdump fails, the report claims
      zero instructions and [main] exits 0; when [file] fails, its error
      text is parsed into default fields.
    - AuxvDecode: [parse_auxv] refines [auxv_spec]; decoding an encoded
      vector gives back its pairs (round trip); a truncated trailing pair
      is dropped; an unsupported word size raises [RuntimeError]; an
      unknown architecture hint falls back to the native size; every
      returned pair has a non-zero tag and fits the word.
    - AuxvMachine: every run of the loop, from any state, eventually
      halts (liveness, with an [eventually] over all runs), in the state
      the recursive [auxv_loop] gives, and from the start of
      [parse_auxv] with the contract's pairs; the relation is
      deterministic; in every reachable state the index is [step] times
      the number of entries and no entry is AT_NULL (rule induction);
      [length data + 1] iterations are enough.
    - HwcapExpand: the names of a slot are sorted and are exactly the
      names whose bit is set; unmapped bits change nothing; on x86 the raw
      AT_HWCAP2 is printed in hexadecimal.
    - RegexCapture, FileInfo: the group search succeeds iff the plain
      search does; [parse_file_info] never raises; [binary_format] and
      [build_id_sha1] have the shapes their patterns allow; for any path
      with a colon after a colon-free directory part, [split(":", 1)]
      cuts inside the path and [binary_format] is ["unknown"], whatever
      [file] says.
    - Report: the keys of the report, in order and distinct; its summary
      values; at debug level 0 [main] hides [total_instructions] with the
      per-extension entries; from level 1 it prints everything.
    - AuxvPrint: one aligned line per entry; unknown tags are printed
      under ["AT_<n>"]; file mode never reads memory; unreadable memory
      degrades to hexadecimal; and for any vector, [--decode-hwcap]
      never reads the entry tagged 16, which linux/auxvec.h names
      AT_HWCAP: it expands tag 17, the kernel's AT_CLKTCK, because
      [AT_NAMES] numbers AT_PLATFORM, AT_HWCAP and AT_CLKTCK 16, 17 and
      15 (a concrete kernel vector shows the clock tick 100 decoded as
      EVTSTRM, SHA1, SHA2).

    ** Recursion, fuel and bounds

    Every loop of the tools is structural in the model: the loops over
    lines, over the table and over the indices of [range] are [Fixpoint]s
    on lists.  The contract [chunks] of [AuxvDecode] is defined with
    Equations by well-founded recursion on the length of the buffer.  The
    pattern compiler has fuel [parse_fuel s = 3 * length s + 3]: each
    character opens at most three nested calls: [RegexFuel] proves that
    with this fuel or more the parse of every pattern is the same, by
    induction on the fuel with the measure three units per character (an
    alternation and a sequence never lengthen the text, an atom shortens
    it).  [get_file_size]'s [while] loop is a [Fixpoint] on the list of
    units, which it cannot run past.  [AuxvMachine.run_loop] is given
    [length data + 1] iterations, enough because each one that does not
    halt advances the index by [step >= 1].  Machine words are [N] bounded by [256 ^ word]
    ([parse_auxv_bounds]); percentages are exact rationals.

    ** What is not modelled

    - The operating system is a record of functions ([Tools.system]):
      what [Path.exists], [shutil.which], [glob.glob], [stat] and
      [subprocess.run] return is a parameter, as are [os.getpid] and
      [platform.machine] in [AuxvPrint].  The model is the code around
      these calls: arguments, exceptions, their handling and texts.
    - argparse (parsing, [--help], usage errors with exit status 2) is a
      library; both [main]s start from the parsed namespace
      ([ArmMain.arm_args], [AuxvPrint.args]).
    - Python floats are exact rationals ([Q]); IEEE rounding and the
      digits printed by [:.2f] and [:.1f] are not modelled, only which
      format a line uses and that it raises on a [str].  The text of a
      traceback is not modelled.  [bytes.decode(errors="replace")] is a
      parameter of [AuxvPrint].
    - Characters are Latin-1 code points ([ascii]), which covers the text
      the tools read; the case variants [re.IGNORECASE] adds outside
      Latin-1 ([U+017F] for [s], the Kelvin sign for [k]) cannot occur.
      The regex syntax the sources never use (lazy quantifiers,
      look-around, back-references, other flags) is rejected by
      [compile].

    ** Plan

    The order-independence of the per-line category sums in the spec's
    formulation is the remaining extension. *)

From Stdlib Require Import String Ascii List Bool Arith Lia NArith.
From Stdlib Require Permutation.
From Stdlib Require QArith.
Import ListNotations.

(** ** Exceptions raised by the modelled code, and results *)

Inductive py_exc : Type :=
| RuntimeError (msg : string)   (** [raise RuntimeError(...)] *)
| StructError                   (** [struct.error] from [struct.unpack] *)
| ReError (pattern : string)    (** [re.error]: a pattern that does not compile *)
| OSError (path : string)       (** [open] of a path that cannot be read *)
| FileNotFoundError (msg : string)
    (** [FileNotFoundError], with the text [str(e)] gives *)
| PermissionError (msg : string)
    (** [PermissionError] from [subprocess.run] on a file it cannot execute *)
| CalledProcessError (cmd : list string) (returncode : Z)
    (** [subprocess.CalledProcessError] of [check=True] *)
| ValueError (msg : string).    (** e.g. a format spec the value does not support *)

Inductive result (A : Type) : Type :=
| Ok (a : A)
| Raise (e : py_exc).
Arguments Ok {A} a.
Arguments Raise {A} e.

Definition bind {A B} (r : result A) (k : A -> result B) : result B :=
  match r with Ok a => k a | Raise e => Raise e end.

Declare Scope anicet_scope.
Delimit Scope anicet_scope with anicet.
Notation "x <- c1 ;; c2" := (bind c1 (fun x => c2))
  (at level 61, c1 at next level, right associativity) : anicet_scope.
Notation "'throw' e" := (Raise e) (at level 10) : anicet_scope.
Open Scope anicet_scope.

(** [try: c except: h(e)]: the handler runs on a raised exception only. *)
Definition try_except {A} (c : result A) (h : py_exc -> result A) : result A :=
  match c with Ok a => Ok a | Raise e => h e end.

Lemma try_except_ok {A} (a : A) h : try_except (Ok a) h = Ok a.
Proof. reflexivity. Qed.

Lemma try_except_raise {A} e (h : py_exc -> result A) : try_except (Raise e) h = h e.
Proof. reflexivity. Qed.

Lemma bind_Ok {A B} (r : result A) (k : A -> result B) b :
  bind r k = Ok b <-> exists a, r = Ok a /\ k a = Ok b.
Proof.
  destruct r as [a|e]; simpl; split.
  - eauto.
  - intros (a' & Ha & Hk). congruence.
  - discriminate.
  - intros (a' & Ha & _). discriminate.
Qed.

(** ** Python's [range(start, stop, step)] for a positive step *)

Definition py_range (start stop step : nat) : list nat :=
  map (fun k => start + k * step)
      (seq 0 ((stop - start + step - 1) / step)).

(** [data[i:j]] on a list: Python clamps both bounds to the length. *)
Definition py_slice {A} (l : list A) (i j : nat) : list A :=
  firstn (j - i) (skipn i l).

(** ** Tactics of the development *)

Ltac inv H := inversion H; subst; clear H.

(** Case on every boolean test of the goal, keeping the equation. *)
Ltac case_if :=
  match goal with
  | |- context [if ?b then _ else _] =>
      let E := fresh "E" in destruct b eqn:E
  end.

Create HintDb anicet.
Create Rewrite HintDb anicet_rw.

(** ** Shared list lemmas *)

Lemma py_range_unfold start stop step :
  0 < step -> start < stop ->
  py_range start stop step = start :: py_range (start + step) stop step.
Proof.
  intros Hs Hlt. unfold py_range.
  replace ((stop - start + step - 1) / step)
    with (S ((stop - (start + step) + step - 1) / step)).
  - simpl. f_equal; [lia|]. rewrite <- seq_shift, map_map.
    apply map_ext; intros; lia.
  - destruct (Nat.le_gt_cases stop (start + step)) as [Hle|Hgt].
    + replace (stop - (start + step) + step - 1) with (step - 1) by lia.
      rewrite (Nat.div_small (step - 1)) by lia.
      apply (Nat.div_unique _ _ 1 (stop - start - 1)); lia.
    + replace (stop - start + step - 1)
        with ((stop - (start + step) + step - 1) + 1 * step) by lia.
      rewrite Nat.div_add by lia. lia.
Qed.

Lemma py_range_empty start stop step :
  stop <= start -> py_range start stop step = [].
Proof.
  intros H. unfold py_range.
  destruct step as [|s]; [reflexivity|].
  replace (stop - start + S s - 1) with s by lia.
  rewrite Nat.div_small by lia. reflexivity.
Qed.

Lemma py_range_shift start stop step d :
  py_range (start + d) (stop + d) step = map (fun i => i + d) (py_range start stop step).
Proof.
  unfold py_range. rewrite map_map.
  replace (stop + d - (start + d)) with (stop - start) by lia.
  apply map_ext; intros; lia.
Qed.

Lemma py_slice_skipn {A} (l : list A) i j d :
  py_slice l (i + d) (j + d) = py_slice (skipn d l) i j.
Proof.
  unfold py_slice. rewrite skipn_skipn.
  replace (j + d - (i + d)) with (j - i) by lia. reflexivity.
Qed.

Lemma length_py_slice {A} (l : list A) i j :
  length (py_slice l i j) = Nat.min (j - i) (length l - i).
Proof. unfold py_slice. rewrite length_firstn, length_skipn. reflexivity. Qed.

#[export] Hint Rewrite @length_py_slice @length_firstn @length_skipn
  @length_app @length_map : anicet_rw.
#[export] Hint Resolve py_range_unfold py_range_empty : anicet.
#[export] Hint Rewrite @try_except_ok @try_except_raise : anicet_rw.

(** ** Distinct keys, decided by a boolean test *)

Fixpoint nodupb {A} (eqb : A -> A -> bool) (l : list A) : bool :=
  match l with
  | [] => true
  | x :: l' => negb (existsb (eqb x) l') && nodupb eqb l'
  end.

Lemma nodupb_NoDup {A} (eqb : A -> A -> bool) :
  (forall x y, eqb x y = true <-> x = y) ->
  forall l, nodupb eqb l = true -> NoDup l.
Proof.
  intros Heq l. induction l as [|x l IH]; simpl; intros H; constructor.
  - apply andb_prop in H as [H _]. intros Hin.
    assert (existsb (eqb x) l = true) as Hex.
    { apply existsb_exists. exists x. split; [exact Hin|apply Heq; reflexivity]. }
    rewrite Hex in H. discriminate.
  - apply IH. apply andb_prop in H. tauto.
Qed.

(** ** Values of the report dictionaries, and [OrderedDict] assignment *)

(** A value of an [OrderedDict] of the tools: an [int], a [float]
    (modelled as an exact rational) or a [str]. *)
Inductive pyval : Type :=
| PInt (n : nat)
| PFloat (q : QArith_base.Q)
| PStr (s : string).

(** [d[k] = v] on an [OrderedDict] (an association list in insertion
    order): an existing key keeps its position and takes the new value,
    a new key goes last. *)
Fixpoint od_set {V} (k : string) (v : V) (d : list (string * V)) : list (string * V) :=
  match d with
  | [] => [(k, v)]
  | (k', v') :: d' => if String.eqb k k' then (k, v) :: d' else (k', v') :: od_set k v d'
  end.

Lemma od_set_fresh {V} k (v : V) d :
  ~ In k (map fst d) -> od_set k v d = d ++ [(k, v)].
Proof.
  induction d as [|[k' v'] d IH]; simpl; intros Hk; [reflexivity|].
  destruct (String.eqb_spec k k') as [->|Hne]; [tauto|].
  rewrite IH; tauto.
Qed.

Lemma od_set_keys {V} k (v : V) d :
  map fst (od_set k v d) = if existsb (String.eqb k) (map fst d) then map fst d
                           else map fst d ++ [k].
Proof.
  induction d as [|[k' v'] d IH]; simpl; [reflexivity|].
  destruct (String.eqb_spec k k') as [->|Hne]; simpl; [reflexivity|].
  rewrite IH. destruct (existsb _ _); reflexivity.
Qed.

(** Assignment keeps the keys of an [OrderedDict] distinct. *)
Lemma od_set_NoDup {V} k (v : V) d :
  NoDup (map fst d) -> NoDup (map fst (od_set k v d)).
Proof.
  intros Hd. rewrite od_set_keys.
  destruct (existsb (String.eqb k) (map fst d)) eqn:E; [exact Hd|].
  apply NoDup_app; [exact Hd|constructor; [intros []|constructor]|].
  intros x Hx [->|[]].
  assert (existsb (String.eqb x) (map fst d) = true) as Hex.
  { apply existsb_exists. exists x. split; [exact Hx|apply String.eqb_refl]. }
  congruence.
Qed.

(** ** Filters *)

Lemma filter_incl_length {A} (f g : A -> bool) (l : list A) :
  (forall x, In x l -> f x = true -> g x = true) ->
  length (filter f l) <= length (filter g l).
Proof.
  induction l as [|x l IH]; simpl; intros H; [lia|].
  destruct (f x) eqn:Ef.
  - rewrite (H x (or_introl eq_refl) Ef). simpl.
    apply le_n_S, IH. intros y Hy. apply H. now right.
  - destruct (g x); simpl; [apply le_S|]; apply IH; intros y Hy; apply H; now right.
Qed.

(** A list is a permutation of the elements a test keeps followed by
    those it rejects. *)
Lemma filter_split_Permutation {A} (f : A -> bool) (l : list A) :
  Permutation.Permutation (filter f l ++ filter (fun x => negb (f x)) l) l.
Proof.
  induction l as [|x l IH]; simpl; [constructor|].
  destruct (f x); simpl.
  - now apply Permutation.perm_skip.
  - symmetry. apply Permutation.Permutation_cons_app. now symmetry.
Qed.

Lemma NoDup_app_disjoint {A} (l1 l2 : list A) x :
  NoDup (l1 ++ l2) -> In x l1 -> ~ In x l2.
Proof.
  induction l1 as [|y l1 IH]; simpl; intros Hnd Hx; [destruct Hx|].
  inversion Hnd as [|? ? Hy Hnd']; subst.
  destruct Hx as [<-|Hx]; [|now apply IH].
  intros Hin. apply Hy. apply in_or_app. now right.
Qed.

Lemma NoDup_mid_not_in {A} (l1 l2 : list A) x : NoDup (l1 ++ x :: l2) -> ~ In x l1.
Proof. intros H Hin. apply (NoDup_remove_2 _ _ _ H). apply in_or_app. now left. Qed.

Lemma Forall_firstn {A} (P : A -> Prop) n l : Forall P l -> Forall P (firstn n l).
Proof.
  revert l. induction n as [|n IH]; intros [|x l] H; simpl; try constructor.
  - now inv H.
  - apply IH. now inv H.
Qed.

Lemma Ok_inj {A} (a b : A) : Ok a = Ok b -> a = b.
Proof. intros H. now injection H. Qed.

Lemma firstn_app_length {A} (l1 l2 : list A) : firstn (length l1) (l1 ++ l2) = l1.
Proof. induction l1 as [|x l1 IH]; simpl; [reflexivity|now rewrite IH]. Qed.

Lemma skipn_app_length {A} (l1 l2 : list A) : skipn (length l1) (l1 ++ l2) = l2.
Proof. induction l1 as [|x l1 IH]; simpl; [reflexivity|exact IH]. Qed.

Lemma firstn_app_eq {A} n (l1 l2 : list A) : length l1 = n -> firstn n (l1 ++ l2) = l1.
Proof. intros <-. apply firstn_app_length. Qed.

Lemma skipn_app_eq {A} n (l1 l2 : list A) : length l1 = n -> skipn n (l1 ++ l2) = l2.
Proof. intros <-. apply skipn_app_length. Qed.

Lemma od_set_NoDup_witness :
  NoDup (map fst (od_set "asimd_instructions" (PInt 1) [("sve_instructions"%string, PInt 0)])).
Proof.
  apply od_set_NoDup. simpl. constructor; [intros []|constructor].
Defined.
