(* ===== verification/PyText.v ===== *)
(** * PyText: the Python [str] operations the tools call

    A Python [str] is a Rocq [string] (code points 0-255, see the header of
    [Prelude]).  This file holds [str.split] on a one-character separator
    ([disasm.split("\n")], arm64.inspect.py lines 196 and 205), [str.strip()]
    (line 208), [sep.join] (lines 338-339) and the whitespace predicate
    that both [strip] and the regex class [\s] use, with the round trip of
    [split] and [join]; and [in], [str.endswith] and [split(sep, 1)[1]]
    ([parse_file_info] and [main] of arm64.inspect.py). *)

From Stdlib Require Import String Ascii List Bool Arith Lia DecimalString ZArith Sorted Permutation.
From S2P Require Import Prelude.
Import ListNotations.

Local Open Scope string_scope.

(** A string as a list of code points, the form the regex engine reads. *)
Definition text := list ascii.

(** [str.isspace] on one code point (also Python's [\s]): in the Latin-1
    range, 9-13, 28-32 (the separators and the space), 133 and 160. *)
Definition is_space (c : ascii) : bool :=
  let n := nat_of_ascii c in
  (Nat.leb 9 n && Nat.leb n 13) || (Nat.leb 28 n && Nat.leb n 32)
  || Nat.eqb n 133 || Nat.eqb n 160.

(** [str.isdecimal] on one code point (Python's [\d]). *)
Definition is_digit (c : ascii) : bool :=
  let n := nat_of_ascii c in Nat.leb 48 n && Nat.leb n 57.

(** A lower-case hexadecimal digit, [[0-9a-f]]. *)
Definition is_hex_lower (c : ascii) : bool :=
  let n := nat_of_ascii c in
  (Nat.leb 48 n && Nat.leb n 57) || (Nat.leb 97 n && Nat.leb n 102).

(** ** [s.split(sep)] for a one-character separator *)

(** Python returns the pieces between separators, an empty piece for
    each empty field; [""].split(sep) is [[""]]. *)
Fixpoint split_on (sep : ascii) (s : string) : list string :=
  match s with
  | EmptyString => [EmptyString]
  | String c rest =>
      let pieces := split_on sep rest in
      if Ascii.eqb c sep then EmptyString :: pieces
      else match pieces with
           | w :: ws => String c w :: ws
           | [] => [String c EmptyString]
           end
  end.

(** The lines of a disassembly, [disasm.split("\n")]. *)
Definition lines (s : string) : list string := split_on "010"%char s.

(** ** [s.strip()] *)

Fixpoint lstrip (s : string) : string :=
  match s with
  | EmptyString => EmptyString
  | String c rest => if is_space c then lstrip rest else s
  end.

Definition rstrip (s : string) : string :=
  string_of_list_ascii (rev (list_ascii_of_string (lstrip
    (string_of_list_ascii (rev (list_ascii_of_string s)))))).

Definition strip (s : string) : string := rstrip (lstrip s).

(** ** [sep.join(l)] is [String.concat sep l] *)

Definition join (sep : string) (l : list string) : string := String.concat sep l.

(** ** Lemmas *)

Lemma split_on_not_nil sep s : split_on sep s <> [].
Proof.
  induction s as [|c s IH]; simpl; [discriminate|].
  destruct (Ascii.eqb c sep); [discriminate|].
  destruct (split_on sep s); [contradiction|discriminate].
Qed.

(** No piece of a split contains the separator. *)
Lemma split_on_no_sep sep s w :
  In w (split_on sep s) -> forall c, In c (list_ascii_of_string w) -> c <> sep.
Proof.
  revert w. induction s as [|d s IH]; simpl; intros w Hw c Hc.
  - destruct Hw as [<-|[]]. destruct Hc.
  - destruct (Ascii.eqb_spec d sep) as [Hd|Hd].
    + destruct Hw as [<-|Hw]; [destruct Hc|exact (IH w Hw c Hc)].
    + pose proof (split_on_not_nil sep s) as Hnn.
      destruct (split_on sep s) as [|w0 ws] eqn:E; [contradiction|].
      destruct Hw as [<-|Hw].
      * simpl in Hc. destruct Hc as [<-|Hc]; [exact Hd|].
        apply (IH w0); simpl; auto.
      * apply (IH w); simpl; auto.
Qed.

Lemma concat_cons_char sep c w ws :
  String.concat sep (String c w :: ws) = String c (String.concat sep (w :: ws)).
Proof. destruct ws; reflexivity. Qed.

(** Round trip: joining the pieces of [s.split(sep)] with [sep]
    gives back [s]. *)
Theorem join_split sep s :
  join (String sep EmptyString) (split_on sep s) = s.
Proof.
  unfold join. induction s as [|c s IH]; cbn [split_on]; [reflexivity|].
  pose proof (split_on_not_nil sep s) as Hnn.
  destruct (split_on sep s) as [|w ws]; [contradiction|].
  destruct (Ascii.eqb_spec c sep) as [->|Hc].
  - change (String.concat (String sep "") ("" :: w :: ws))
      with (String sep (String.concat (String sep "") (w :: ws))).
    now rewrite IH.
  - now rewrite concat_cons_char, IH.
Qed.

(** ** ["%d" % n] *)

Definition str_of_nat (n : nat) : string :=
  DecimalString.NilEmpty.string_of_uint (Nat.to_uint n).

(** ** [needle in s], [s.endswith(suffix)] and [s.split(sep, 1)[1]] *)

Fixpoint prefixb (p w : list ascii) : bool :=
  match p, w with
  | [], _ => true
  | c :: p', d :: w' => Ascii.eqb c d && prefixb p' w'
  | _ :: _, [] => false
  end.

Fixpoint contains_l (p w : list ascii) : bool :=
  prefixb p w || match w with [] => false | _ :: w' => contains_l p w' end.

(** [needle in s] on [str]. *)
Definition contains (needle s : string) : bool :=
  contains_l (list_ascii_of_string needle) (list_ascii_of_string s).

(** [s.endswith(suffix)]. *)
Definition endswith (s suffix : string) : bool :=
  prefixb (rev (list_ascii_of_string suffix)) (rev (list_ascii_of_string s)).

(** [s.split(sep, 1)[1]] when [sep in s]: what follows the first [sep]. *)
Fixpoint after_first (sep : ascii) (s : string) : string :=
  match s with
  | EmptyString => EmptyString
  | String c rest => if Ascii.eqb c sep then rest else after_first sep rest
  end.

Lemma prefixb_correct p w : prefixb p w = true <-> exists x, w = (p ++ x)%list.
Proof.
  revert w. induction p as [|c p IH]; intros [|d w]; simpl.
  - split; eauto.
  - split; eauto.
  - split; [discriminate|intros (x & H); discriminate].
  - rewrite andb_true_iff, IH. split.
    + intros [Hc (x & ->)]. apply Ascii.eqb_eq in Hc. subst. eauto.
    + intros (x & H). inv H. split; [apply Ascii.eqb_refl|eauto].
Qed.

Lemma contains_l_correct p w : contains_l p w = true <-> exists a b, w = (a ++ p ++ b)%list.
Proof.
  induction w as [|d w IH]; cbn [contains_l]; rewrite orb_true_iff, prefixb_correct.
  - split; [intros [(x & H)|H]; [exists [], x; exact H|discriminate]|].
    intros (a & b & H). left. exists b. destruct a; [exact H|discriminate].
  - rewrite IH. split.
    + intros [(x & H)|(a & b & ->)]; [exists [], x; exact H|exists (d :: a), b; reflexivity].
    + intros ([|e a] & b & H); [left; eauto|right; inv H; eauto].
Qed.

(** [needle in s] iff [s] has [needle] as a substring. *)
Lemma contains_correct needle s :
  contains needle s = true <->
  exists a b, list_ascii_of_string s = (a ++ list_ascii_of_string needle ++ b)%list.
Proof. apply contains_l_correct. Qed.

(** [s.endswith(suffix)] iff [s] ends with [suffix]. *)
Lemma endswith_correct s suffix :
  endswith s suffix = true <->
  exists a, list_ascii_of_string s = (a ++ list_ascii_of_string suffix)%list.
Proof.
  unfold endswith. rewrite prefixb_correct. split.
  - intros (x & H). exists (rev x).
    rewrite <- (rev_involutive (list_ascii_of_string s)), H, rev_app_distr, rev_involutive.
    reflexivity.
  - intros (a & ->). exists (rev a). now rewrite rev_app_distr.
Qed.

(** ** [repr] of a [str] and [str] of a list of [str] *)

Definition chr (n : nat) : string := String (ascii_of_nat n) EmptyString.

(** Two lower-case hexadecimal digits, [format(n, "02x")] for [n < 256]. *)
Definition hex2 (n : nat) : string :=
  let d k := if Nat.ltb k 10 then chr (48 + k) else chr (87 + k) in
  d (n / 16) ++ d (n mod 16).

(** [str.isprintable] on a Latin-1 code point: no control character, no
    separator other than the space, not the soft hyphen. *)
Definition is_printable (c : ascii) : bool :=
  let n := nat_of_ascii c in
  (Nat.leb 32 n && Nat.ltb n 127) || (Nat.ltb 160 n && negb (Nat.eqb n 173)).

(** One character inside the quotes [quote] of [repr]. *)
Definition repr_char (quote c : ascii) : string :=
  let n := nat_of_ascii c in
  if Ascii.eqb c quote || Nat.eqb n 92 then String "\"%char (String c EmptyString)
  else if Nat.eqb n 9 then "\t"
  else if Nat.eqb n 10 then "\n"
  else if Nat.eqb n 13 then "\r"
  else if is_printable c then String c EmptyString
  else "\x" ++ hex2 n.

(** [repr(s)]: single quotes, unless [s] holds a single quote and no
    double quote. *)
Definition py_repr (s : string) : string :=
  let q := if contains "'" s && negb (contains (chr 34) s) then ascii_of_nat 34 else "'"%char in
  String q (String.concat "" (map (repr_char q) (list_ascii_of_string s)) ++ String q EmptyString).

(** [str(l)] for a list of [str]. *)
Definition py_str_list (l : list string) : string :=
  "[" ++ join ", " (map py_repr l) ++ "]".

(** ["%d" % z] for an integer of any sign. *)
Definition str_of_Z (z : Z) : string :=
  match z with
  | Zneg p => "-" ++ str_of_nat (Pos.to_nat p)
  | Zpos p => str_of_nat (Pos.to_nat p)
  | Z0 => "0"
  end.

(** ** [sorted] on a list of [str]

    [py_sorted] is an insertion sort; [py_sorted_sorted] and
    [py_sorted_perm] show it returns the sorted permutation, which is
    what Python's [sorted] returns on strings. *)

Definition str_le (x y : string) : Prop := String.leb x y = true.

Fixpoint insert_str (x : string) (l : list string) : list string :=
  match l with
  | [] => [x]
  | y :: l' => if String.leb x y then x :: l else y :: insert_str x l'
  end.

Definition py_sorted (l : list string) : list string := fold_right insert_str [] l.

Lemma insert_str_perm x l : Permutation (insert_str x l) (x :: l).
Proof.
  induction l as [|y l IH]; simpl; [reflexivity|].
  destruct (String.leb x y); [reflexivity|].
  rewrite IH. apply perm_swap.
Qed.

Lemma py_sorted_perm l : Permutation (py_sorted l) l.
Proof.
  induction l as [|x l IH]; simpl; [reflexivity|].
  rewrite insert_str_perm. now apply perm_skip.
Qed.

Lemma leb_false_flip x y : String.leb x y = false -> String.leb y x = true.
Proof.
  intros H. destruct (String.leb_total x y) as [H'|H']; [congruence|exact H'].
Qed.

Lemma insert_str_sorted x l : Sorted str_le l -> Sorted str_le (insert_str x l).
Proof.
  induction 1 as [|y l Hs IH Hhd]; simpl; [repeat constructor|].
  destruct (String.leb x y) eqn:E; [now repeat constructor|].
  constructor; [exact IH|].
  destruct l as [|z l]; simpl; [constructor; now apply leb_false_flip|].
  destruct (String.leb x z); constructor; [now apply leb_false_flip|now inv Hhd].
Qed.

Lemma py_sorted_sorted l : Sorted str_le (py_sorted l).
Proof. induction l; simpl; [constructor|now apply insert_str_sorted]. Qed.


(** String order is transitive (code-point lexicographic order). *)
Lemma string_compare_le_trans a : forall b c,
  String.compare a b <> Gt -> String.compare b c <> Gt -> String.compare a c <> Gt.
Proof.
  induction a as [|x a IH]; intros [|y b] [|z c] H1 H2; simpl in *; try congruence.
  unfold Ascii.compare in *.
  destruct (N.compare_spec (N_of_ascii x) (N_of_ascii y)) as [Exy|Lxy|Gxy];
  destruct (N.compare_spec (N_of_ascii y) (N_of_ascii z)) as [Eyz|Lyz|Gyz];
  destruct (N.compare_spec (N_of_ascii x) (N_of_ascii z)) as [Exz|Lxz|Gxz];
    try congruence; try lia.
  eauto.
Qed.

Lemma str_le_trans x y z : str_le x y -> str_le y z -> str_le x z.
Proof.
  unfold str_le, String.leb. intros H1 H2.
  destruct (String.compare x z) eqn:E; try reflexivity.
  exfalso. apply (string_compare_le_trans x y z); [| |exact E];
    intros E'; rewrite E' in *; discriminate.
Qed.

Lemma str_le_refl s : str_le s s.
Proof.
  induction s as [|c s IH]; unfold str_le, String.leb in *; simpl; [reflexivity|].
  unfold Ascii.compare. now rewrite N.compare_refl.
Qed.

Lemma last_in {A} (l : list A) d : l <> [] -> In (last l d) l.
Proof.
  induction l as [|x l IH]; intros Hne; [contradiction|].
  destruct l as [|y l]; [now left|]. right. apply IH. discriminate.
Qed.

(** The last element of [sorted(l)] is a greatest element of [l]:
    [sorted(l, reverse=True)[0]] for strings. *)
Lemma py_sorted_last_max l d :
  l <> [] -> In (last (py_sorted l) d) l /\ Forall (fun m => str_le m (last (py_sorted l) d)) l.
Proof.
  intros Hne. pose proof (py_sorted_perm l) as Hp. pose proof (py_sorted_sorted l) as Hs.
  assert (Hne' : py_sorted l <> []) by (intros E; rewrite E in Hp;
    apply Permutation_nil in Hp; contradiction).
  split.
  - apply (Permutation_in _ Hp). destruct (py_sorted l) as [|x l'] eqn:E; [contradiction|].
    apply last_in. discriminate.
  - apply Forall_forall. intros m Hm. apply (Permutation_in _ (Permutation_sym Hp)) in Hm.
    clear Hp. revert m Hm Hne'.
    induction Hs as [|x l' Hs IH Hhd]; intros m Hm Hne'; [contradiction|].
    destruct l' as [|y l''].
    + destruct Hm as [<-|[]]. apply str_le_refl.
    + change (last (x :: y :: l'') d) with (last (y :: l'') d).
      destruct Hm as [<-|Hm]; [|apply (IH m); [exact Hm|discriminate]].
      inv Hhd. match goal with H : str_le x y |- _ => apply (str_le_trans x y _ H) end.
      apply (IH y); [left; reflexivity|discriminate].
Qed.
