(* ===== verification/Regex.v ===== *)
(** * Regex: the semantics of Python's [re.search] on the tools' patterns

    Both [count_instructions] and [find_sample_instructions]
    (arm64.inspect.py, lines 193-211) call [re.search(pattern, line)]:
    true iff some substring of [line] is in the language of [pattern]
    (a leading [^] restricts the substring to a prefix).  Python's engine
    backtracks, but for patterns without back-references or look-around,
    the truth value of [re.search] depends only on the language, so this
    file gives the language as an inductive predicate ([lang]) and decides
    it with Brzozowski derivatives ([deriv], [match_prefix], [search_from]).
    The main theorems are [deriv_correct], [match_prefix_correct] and
    [search_from_correct]; [Matcher] is the interface the classifier uses. *)

From Stdlib Require Import String Ascii List Bool Arith Lia.
From S2P Require Import Prelude PyText.
Import ListNotations.

(** ** Syntax *)

(** An item of a character class [[...]]. *)
Inductive cls_item : Type :=
| CChar (c : ascii)              (** a literal character *)
| CRange (lo hi : ascii)         (** [a-f] *)
| CSpace                         (** [\s] *)
| CDigit.                        (** [\d] *)

Inductive regex : Type :=
| REmpty                                  (** matches nothing *)
| REps                                    (** the empty string *)
| RChar (c : ascii)                       (** a literal *)
| RSet (negated : bool) (items : list cls_item)  (** [[...]], [[^...]], [\s], [\d] *)
| RAny                                    (** [.]: any character but a newline *)
| RAlt (r s : regex)                      (** [r|s] *)
| RCat (r s : regex)                      (** [rs] *)
| RStar (r : regex).                      (** [r*] *)

(** [r+] is [rr*], as in Python's [sre_parse] (MAX_REPEAT 1..MAXREPEAT). *)
Definition RPlus (r : regex) : regex := RCat r (RStar r).

(** ** Character predicates *)

Definition item_matches (c : ascii) (it : cls_item) : bool :=
  match it with
  | CChar d => Ascii.eqb c d
  | CRange lo hi => (nat_of_ascii lo <=? nat_of_ascii c) && (nat_of_ascii c <=? nat_of_ascii hi)
  | CSpace => is_space c
  | CDigit => is_digit c
  end.

Definition set_matches (negated : bool) (items : list cls_item) (c : ascii) : bool :=
  xorb negated (existsb (item_matches c) items).

(** [.] without [re.DOTALL]. *)
Definition any_matches (c : ascii) : bool := negb (Ascii.eqb c "010"%char).

(** ** Language *)

Inductive lang : regex -> text -> Prop :=
| lang_eps : lang REps []
| lang_char c : lang (RChar c) [c]
| lang_set neg items c : set_matches neg items c = true -> lang (RSet neg items) [c]
| lang_any c : any_matches c = true -> lang RAny [c]
| lang_alt_l r s w : lang r w -> lang (RAlt r s) w
| lang_alt_r r s w : lang s w -> lang (RAlt r s) w
| lang_cat r s u v : lang r u -> lang s v -> lang (RCat r s) (u ++ v)
| lang_star_nil r : lang (RStar r) []
| lang_star_app r u v : lang r u -> lang (RStar r) v -> lang (RStar r) (u ++ v).

#[export] Hint Constructors lang : anicet.

(** ** Smart constructors that prune the empty language *)

Definition is_empty (r : regex) : bool := match r with REmpty => true | _ => false end.
Definition is_eps (r : regex) : bool := match r with REps => true | _ => false end.

Definition alt (r s : regex) : regex :=
  if is_empty r then s else if is_empty s then r else RAlt r s.

Definition cat (r s : regex) : regex :=
  if is_empty r || is_empty s then REmpty
  else if is_eps r then s else if is_eps s then r else RCat r s.

(** ** Derivatives *)

Fixpoint nullable (r : regex) : bool :=
  match r with
  | REmpty | RChar _ | RSet _ _ | RAny => false
  | REps | RStar _ => true
  | RAlt r s => nullable r || nullable s
  | RCat r s => nullable r && nullable s
  end.

Fixpoint deriv (c : ascii) (r : regex) : regex :=
  match r with
  | REmpty | REps => REmpty
  | RChar d => if Ascii.eqb c d then REps else REmpty
  | RSet neg items => if set_matches neg items c then REps else REmpty
  | RAny => if any_matches c then REps else REmpty
  | RAlt r s => alt (deriv c r) (deriv c s)
  | RCat r s =>
      if nullable r then alt (cat (deriv c r) s) (deriv c s)
      else cat (deriv c r) s
  | RStar r => cat (deriv c r) (RStar r)
  end.

(** Is some prefix of [w] in the language of [r]?  (Python's [re.match].)
    A derivative that has become [REmpty] stops the scan. *)
Fixpoint match_prefix (r : regex) (w : text) : bool :=
  if is_empty r then false
  else nullable r || match w with
                     | [] => false
                     | c :: w' => match_prefix (deriv c r) w'
                     end.

(** Is some substring of [w] in the language of [r]?  (Python's
    [re.search] for a pattern without [^]: every start position, the
    end of the string included, is tried.) *)
Fixpoint search_from (r : regex) (w : text) : bool :=
  match_prefix r w || match w with
                      | [] => false
                      | _ :: w' => search_from r w'
                      end.

(** A compiled pattern: its body, and whether it starts with [^]. *)
Record pattern : Type := Pattern { anchored : bool; body : regex }.

Definition pattern_search (p : pattern) (w : text) : bool :=
  if anchored p then match_prefix (body p) w else search_from (body p) w.

(** ** The interface the classifier is written against *)

(** [re.compile] and [re.search] as the classifier uses them: a pattern
    source either compiles ([Some]) or raises [re.error] ([None]). *)
Class Matcher (P : Type) : Type := {
  re_compile : string -> option P;
  re_search : P -> string -> bool
}.

(** ** Correctness of the matcher *)

Lemma is_empty_true r : is_empty r = true -> r = REmpty.
Proof. destruct r; simpl; congruence. Qed.

Lemma is_eps_true r : is_eps r = true -> r = REps.
Proof. destruct r; simpl; congruence. Qed.

Lemma lang_empty w : ~ lang REmpty w.
Proof. intros H. inv H. Qed.

Lemma lang_eps_iff w : lang REps w <-> w = [].
Proof. split; intros H; [inv H; reflexivity | subst; constructor]. Qed.

Lemma alt_lang r s w : lang (alt r s) w <-> lang r w \/ lang s w.
Proof.
  unfold alt.
  destruct (is_empty r) eqn:Er; [apply is_empty_true in Er; subst|].
  { split; [auto|intros [H|H]; [now apply lang_empty in H|exact H]]. }
  destruct (is_empty s) eqn:Es; [apply is_empty_true in Es; subst|].
  { split; [auto|intros [H|H]; [exact H|now apply lang_empty in H]]. }
  split; [intros H; inv H; auto|intros [H|H]; auto with anicet].
Qed.

Lemma lang_cat_iff r s w :
  lang (RCat r s) w <-> exists u v, w = u ++ v /\ lang r u /\ lang s v.
Proof.
  split.
  - intros H. inv H. eauto.
  - intros (u & v & -> & Hu & Hv). auto with anicet.
Qed.

Lemma cat_lang r s w :
  lang (cat r s) w <-> exists u v, w = u ++ v /\ lang r u /\ lang s v.
Proof.
  rewrite <- lang_cat_iff. unfold cat.
  destruct (is_empty r) eqn:Er; [apply is_empty_true in Er; subst|].
  { simpl. split; intros H; [now apply lang_empty in H|].
    apply lang_cat_iff in H as (u & v & _ & Hu & _). now apply lang_empty in Hu. }
  destruct (is_empty s) eqn:Es; [apply is_empty_true in Es; subst|].
  { simpl. split; intros H; [now apply lang_empty in H|].
    apply lang_cat_iff in H as (u & v & _ & _ & Hv). now apply lang_empty in Hv. }
  simpl.
  destruct (is_eps r) eqn:Er'; [apply is_eps_true in Er'; subst|].
  { rewrite lang_cat_iff. split.
    - intros H. exists [], w. auto with anicet.
    - intros (u & v & -> & Hu & Hv). apply lang_eps_iff in Hu. now subst. }
  destruct (is_eps s) eqn:Es'; [apply is_eps_true in Es'; subst|].
  { rewrite lang_cat_iff. split.
    - intros H. exists w, []. rewrite app_nil_r. auto with anicet.
    - intros (u & v & -> & Hu & Hv). apply lang_eps_iff in Hv. subst.
      now rewrite app_nil_r. }
  reflexivity.
Qed.

Lemma nullable_correct r : nullable r = true <-> lang r [].
Proof.
  induction r; simpl; split; intros H; try discriminate; auto with anicet;
    try solve [inv H].
  - apply orb_true_iff in H as [H|H]; [apply lang_alt_l|apply lang_alt_r];
      tauto.
  - apply orb_true_iff. inv H; [left|right]; tauto.
  - apply andb_true_iff in H as [H1 H2].
    apply (lang_cat _ _ [] []); tauto.
  - apply lang_cat_iff in H as (u & v & Huv & Hu & Hv).
    symmetry in Huv. apply app_eq_nil in Huv as [-> ->].
    apply andb_true_iff. tauto.
Qed.

(** A non-empty word of [r*] starts with a non-empty word of [r]. *)
Lemma star_cons_inv r c w :
  lang (RStar r) (c :: w) ->
  exists u v, w = u ++ v /\ lang r (c :: u) /\ lang (RStar r) v.
Proof.
  intros H. remember (RStar r) as rs eqn:Ers. remember (c :: w) as cw eqn:Ecw.
  revert c w Ecw. induction H; intros c' w' Ecw; try discriminate.
  inv Ers. destruct u as [|a u].
  - simpl in Ecw. subst. eauto.
  - inv Ecw. eauto.
Qed.

Theorem deriv_correct c r w : lang (deriv c r) w <-> lang r (c :: w).
Proof.
  revert w. induction r; intros w; simpl.
  - split; intros H; inv H.
  - split; intros H; inv H.
  - destruct (Ascii.eqb_spec c c0); subst.
    + rewrite lang_eps_iff. split; intros H; [subst; constructor|now inv H].
    + split; intros H; [now apply lang_empty in H|inv H; congruence].
  - destruct (set_matches negated items c) eqn:E.
    + rewrite lang_eps_iff. split; intros H; [subst; now constructor|now inv H].
    + split; intros H; [now apply lang_empty in H|inv H; congruence].
  - destruct (any_matches c) eqn:E.
    + rewrite lang_eps_iff. split; intros H; [subst; now constructor|now inv H].
    + split; intros H; [now apply lang_empty in H|inv H; congruence].
  - rewrite alt_lang, IHr1, IHr2.
    split; [intros [H|H]; auto with anicet|intros H; inv H; auto].
  - rewrite lang_cat_iff.
    assert (Hcat : lang (cat (deriv c r1) r2) w <->
                   exists u v, w = u ++ v /\ lang r1 (c :: u) /\ lang r2 v).
    { rewrite cat_lang. split; intros (u & v & E & Hu & Hv); exists u, v;
        rewrite ?IHr1 in *; tauto. }
    destruct (nullable r1) eqn:Hn.
    + rewrite alt_lang, Hcat, IHr2. split.
      * intros [(u & v & -> & Hu & Hv)|H].
        -- exists (c :: u), v. auto.
        -- exists [], (c :: w). apply nullable_correct in Hn. auto.
      * intros ([|a u] & v & E & Hu & Hv); simpl in E.
        -- subst. auto.
        -- inv E. left. eauto.
    + rewrite Hcat. split.
      * intros (u & v & -> & Hu & Hv). exists (c :: u), v. auto.
      * intros ([|a u] & v & E & Hu & Hv); simpl in E.
        -- apply nullable_correct in Hu. congruence.
        -- inv E. eauto.
  - rewrite cat_lang. split.
    + intros (u & v & -> & Hu & Hv). apply IHr in Hu.
      apply (lang_star_app _ (c :: u) v); assumption.
    + intros H. apply star_cons_inv in H as (u & v & -> & Hu & Hv).
      exists u, v. rewrite IHr. auto.
Qed.

Theorem match_prefix_correct r w :
  match_prefix r w = true <-> exists u v, w = u ++ v /\ lang r u.
Proof.
  revert r. induction w as [|c w IH]; intros r; simpl.
  - destruct (is_empty r) eqn:E.
    + apply is_empty_true in E. subst. split; [discriminate|].
      intros (u & v & _ & H). now apply lang_empty in H.
    + rewrite orb_false_r, nullable_correct. split.
      * intros H. exists [], []. auto.
      * intros (u & v & Huv & H). symmetry in Huv.
        apply app_eq_nil in Huv as [-> ->]. exact H.
  - destruct (is_empty r) eqn:E.
    + apply is_empty_true in E. subst. split; [discriminate|].
      intros (u & v & _ & H). now apply lang_empty in H.
    + rewrite orb_true_iff, nullable_correct, IH. split.
      * intros [H|(u & v & -> & Hu)].
        -- exists [], (c :: w). auto.
        -- exists (c :: u), v. apply deriv_correct in Hu. auto.
      * intros ([|a u] & v & Huv & Hu); [left; exact Hu|].
        inv Huv. right. exists u, v. rewrite deriv_correct. auto.
Qed.

Theorem search_from_correct r w :
  search_from r w = true <-> exists u v x, w = u ++ v ++ x /\ lang r v.
Proof.
  induction w as [|c w IH]; cbn [search_from].
  - rewrite orb_false_r, match_prefix_correct. split.
    + intros (v & x & E & H). exists [], v, x. auto.
    + intros (u & v & x & E & H). symmetry in E.
      apply app_eq_nil in E as [-> E]. exists v, x. auto.
  - rewrite orb_true_iff, match_prefix_correct, IH. split.
    + intros [(v & x & E & H)|(u & v & x & -> & H)].
      * exists [], v, x. auto.
      * exists (c :: u), v, x. auto.
    + intros ([|a u] & v & x & E & H).
      * left. exists v, x. auto.
      * right. inv E. eauto.
Qed.

(** What [pattern_search] decides, stated on the language alone. *)
Definition searches (p : pattern) (w : text) : Prop :=
  if anchored p then exists v x, w = v ++ x /\ lang (body p) v
  else exists u v x, w = u ++ v ++ x /\ lang (body p) v.

(** C5: the matcher decides [re.search]: [pattern_search p w] holds iff
    some substring of [w] (a prefix, for an anchored pattern) is a word of
    the pattern's language. *)
Theorem pattern_search_correct p w : pattern_search p w = true <-> searches p w.
Proof.
  unfold pattern_search, searches. destruct (anchored p).
  - apply match_prefix_correct.
  - apply search_from_correct.
Qed.

(** ** Languages of the pattern shapes the tools use *)

Lemma lang_char_iff c w : lang (RChar c) w <-> w = [c].
Proof. split; intros H; [now inv H|subst; constructor]. Qed.

Lemma lang_set_iff neg items w :
  lang (RSet neg items) w <-> exists c, w = [c] /\ set_matches neg items c = true.
Proof.
  split; [intros H; inv H; eauto|intros (c & -> & Hc); now constructor].
Qed.

Lemma lang_any_iff w : lang RAny w <-> exists c, w = [c] /\ any_matches c = true.
Proof. split; [intros H; inv H; eauto|intros (c & -> & Hc); now constructor]. Qed.

(** [[...]*]: every character is in the class. *)
Lemma lang_star_set neg items w :
  lang (RStar (RSet neg items)) w <-> Forall (fun c => set_matches neg items c = true) w.
Proof.
  split.
  - intros H. remember (RStar (RSet neg items)) as r eqn:Er.
    induction H; inv Er; [constructor|].
    apply lang_set_iff in H as (c & -> & Hc). constructor; auto.
  - induction 1 as [|c w Hc _ IH]; [constructor|].
    apply (lang_star_app _ [c] w); [now constructor|exact IH].
Qed.

(** [[...]+]: a non-empty run of characters of the class. *)
Lemma lang_plus_set neg items w :
  lang (RPlus (RSet neg items)) w <->
  w <> [] /\ Forall (fun c => set_matches neg items c = true) w.
Proof.
  unfold RPlus. rewrite lang_cat_iff. split.
  - intros (u & v & -> & Hu & Hv). apply lang_set_iff in Hu as (c & -> & Hc).
    apply lang_star_set in Hv. split; [discriminate|constructor; auto].
  - intros [Hne Hall]. destruct w as [|c w]; [contradiction|].
    inv Hall. exists [c], w. split; [reflexivity|].
    split; [now constructor|now apply lang_star_set].
Qed.

(** A search for [.] succeeds exactly on the strings with a character
    other than a newline. *)
Lemma search_any w :
  search_from (RCat RAny REps) w = true <-> exists c, In c w /\ any_matches c = true.
Proof.
  rewrite search_from_correct. split.
  - intros (u & v & x & -> & H). apply lang_cat_iff in H as (v1 & v2 & -> & H1 & H2).
    apply lang_any_iff in H1 as (c & -> & Hc). exists c. split; [|exact Hc].
    apply in_or_app. right. now left.
  - intros (c & Hin & Hc). apply in_split in Hin as (u & x & ->).
    exists u, [c], x. split; [reflexivity|].
    apply (lang_cat _ _ [c] []); [now constructor|constructor].
Qed.
