(* ===== verification/RegexParse.v ===== *)
(** * RegexParse: compiling pattern source text into [Regex.pattern]

    [re.search(pattern, line)] first compiles the pattern string
    (Python's [sre_parse]).  This file parses the part of that syntax the
    tools' patterns use: literals, [.], groups [( )], alternation [|],
    the quantifiers [*], [+], [?], character classes with ranges and
    negation, the escapes [\s], [\d] and escaped punctuation, and a
    leading [^] anchor.  The parser is a recursive descent over mutually
    recursive functions with fuel ([p_alt], [p_seq], [p_atom]); a result
    [None] stands for [re.error] or a construct outside this subset. *)

From Stdlib Require Import String Ascii List Bool Arith Lia.
From S2P Require Import Prelude PyText Regex.
Import ListNotations.

Local Open Scope char_scope.

(** Characters that cannot stand for themselves in atom position. *)
Definition special (c : ascii) : bool :=
  existsb (Ascii.eqb c) ["("; ")"; "["; "*"; "+"; "?"; "|"; "^"; "$"; "."; "\"; "{"].

(** Escaped punctuation is the literal character (sre_parse's ESCAPES
    table apart, which the patterns do not use). *)
Definition escapable (c : ascii) : bool :=
  existsb (Ascii.eqb c)
    ["."; "("; ")"; "["; "]"; "{"; "}"; "*"; "+"; "?"; "|"; "^"; "$"; "\"; "-"; "/"; ":"; ","].

(** [\s], [\d] and [\<punctuation>] as class items. *)
Definition escape_item (c : ascii) : option cls_item :=
  if Ascii.eqb c "s" then Some CSpace
  else if Ascii.eqb c "d" then Some CDigit
  else if escapable c then Some (CChar c)
  else None.

(** The items of a class, up to and including the closing [\]]. *)
Fixpoint p_items (s : text) : option (list cls_item * text) :=
  match s with
  | [] => None
  | c :: rest =>
      if Ascii.eqb c "]" then Some ([], rest)
      else if Ascii.eqb c "\" then
        match rest with
        | e :: rest' =>
            match escape_item e, p_items rest' with
            | Some it, Some (its, r) => Some (it :: its, r)
            | _, _ => None
            end
        | [] => None
        end
      else
        match rest with
        | m :: d :: rest' =>
            if Ascii.eqb m "-" && negb (Ascii.eqb d "]") then
              if Nat.leb (nat_of_ascii c) (nat_of_ascii d) then
                match p_items rest' with
                | Some (its, r) => Some (CRange c d :: its, r)
                | None => None
                end
              else None        (** "bad character range" *)
            else
              match p_items rest with
              | Some (its, r) => Some (CChar c :: its, r)
              | None => None
              end
        | _ =>
            match p_items rest with
            | Some (its, r) => Some (CChar c :: its, r)
            | None => None
            end
        end
  end.

(** A class [[...]] after its opening bracket. *)
Definition p_class (s : text) : option (regex * text) :=
  match s with
  | c :: rest =>
      if Ascii.eqb c "^" then
        match p_items rest with Some (its, r) => Some (RSet true its, r) | None => None end
      else
        match p_items s with Some (its, r) => Some (RSet false its, r) | None => None end
  | [] => None
  end.

(** An escape in atom position. *)
Definition p_escape (c : ascii) : option regex :=
  if Ascii.eqb c "s" then Some (RSet false [CSpace])
  else if Ascii.eqb c "d" then Some (RSet false [CDigit])
  else if escapable c then Some (RChar c)
  else None.

(** A quantifier after an atom, if any.  All three are greedy, as in
    [sre_parse]: [a?] is [MAX_REPEAT 0..1], which tries [a] before the
    empty string, so it is the alternation with [a] on the left. *)
Definition p_quant (a : regex) (s : text) : regex * text :=
  match s with
  | c :: rest =>
      if Ascii.eqb c "*" then (RStar a, rest)
      else if Ascii.eqb c "+" then (RPlus a, rest)
      else if Ascii.eqb c "?" then (RAlt a REps, rest)
      else (a, s)
  | [] => (a, s)
  end.

Fixpoint p_alt (fuel : nat) (s : text) : option (regex * text) :=
  match fuel with
  | O => None
  | S f =>
      match p_seq f s with
      | Some (r, c :: rest) =>
          if Ascii.eqb c "|" then
            match p_alt f rest with
            | Some (r2, rest2) => Some (RAlt r r2, rest2)
            | None => None
            end
          else Some (r, c :: rest)
      | o => o
      end
  end
with p_seq (fuel : nat) (s : text) : option (regex * text) :=
  match fuel with
  | O => None
  | S f =>
      match s with
      | [] => Some (REps, [])
      | c :: _ =>
          if Ascii.eqb c "|" || Ascii.eqb c ")" then Some (REps, s)
          else
            match p_atom f s with
            | Some (a, rest) =>
                let (a', rest') := p_quant a rest in
                match p_seq f rest' with
                | Some (r, rest'') => Some (RCat a' r, rest'')
                | None => None
                end
            | None => None
            end
      end
  end
with p_atom (fuel : nat) (s : text) : option (regex * text) :=
  match fuel with
  | O => None
  | S f =>
      match s with
      | [] => None
      | c :: rest =>
          if Ascii.eqb c "(" then
            match p_alt f rest with
            | Some (r, d :: rest') => if Ascii.eqb d ")" then Some (r, rest') else None
            | _ => None
            end
          else if Ascii.eqb c "[" then p_class rest
          else if Ascii.eqb c "\" then
            match rest with
            | e :: rest' => match p_escape e with Some r => Some (r, rest') | None => None end
            | [] => None
            end
          else if Ascii.eqb c "." then Some (RAny, rest)
          else if special c then None
          else Some (RChar c, rest)
      end
  end.

(** The fuel: every call of [p_seq] past the first consumes a character,
    and each character opens at most three nested calls. *)
Definition parse_fuel (s : text) : nat := 3 * length s + 3.

(** Compile a whole pattern: an optional leading [^], then an alternation
    that must consume all the input. *)
Definition compile (s : text) : option pattern :=
  let '(anch, s') :=
    match s with
    | c :: rest => if Ascii.eqb c "^" then (true, rest) else (false, s)
    | [] => (false, s)
    end in
  match p_alt (parse_fuel s') s' with
  | Some (r, []) => Some (Pattern anch r)
  | _ => None
  end.

(** The regex engine of the development implements the classifier's
    interface. *)
#[export] Instance regex_matcher : Matcher pattern := {
  re_compile s := compile (list_ascii_of_string s);
  re_search p line := pattern_search p (list_ascii_of_string line)
}.
