(* ===== verification/RegexFuel.v ===== *)
(** * RegexFuel: the fuel of the pattern compiler is enough

    [RegexParse] parses a pattern with the mutually recursive [p_alt],
    [p_seq] and [p_atom], which take a fuel argument so that Rocq accepts
    their recursion; [compile] gives them [parse_fuel s = 3 * length s + 3].
    A parse that ran out of fuel would answer [None], the value that
    stands for [re.error], so a bound too small would reject patterns
    Python accepts.  This file shows that the bound is enough: every call
    either consumes input or descends at most two levels ([p_alt] to
    [p_seq] to [p_atom]) before a call on a shorter text, so with at least
    [3 * length s + 3] units the result never depends on the fuel.

    The proof follows the variant argument of terminating loops: a
    decreasing measure (three units per character) bounds the depth of
    the recursion. *)

From Stdlib Require Import String Ascii List Bool Arith Lia.
From S2P Require Import Prelude PyText Regex RegexParse.
Import ListNotations.

(** ** What is left after a parse *)

(** The items of a class consume at least the closing bracket. *)
Lemma p_items_rest s its rest : p_items s = Some (its, rest) -> length rest < length s.
Proof.
  remember (length s) as n eqn:En. revert s En its rest.
  induction n as [n IH] using lt_wf_ind. intros s En its rest H.
  destruct s as [|c s]; cbn [p_items] in H; [discriminate|].
  destruct (Ascii.eqb c "]"); [inv H; simpl; lia|].
  destruct (Ascii.eqb c "\"%char).
  - destruct s as [|e s']; [discriminate|].
    destruct (escape_item e); [|discriminate].
    destruct (p_items s') as [[its' r]|] eqn:E; [|discriminate]. inv H.
    apply (IH (length s')) in E; simpl in *; [lia|lia|reflexivity].
  - assert (Hdef : forall its' r, p_items s = Some (its', r) -> length r < S (length s)).
    { intros its' r E. apply (IH (length s)) in E; [lia|simpl in *; lia|reflexivity]. }
    destruct s as [|m [|d s']].
    + destruct (p_items []) as [[its' r]|] eqn:E; [|discriminate]. inv H.
      specialize (Hdef _ _ eq_refl). simpl in *. lia.
    + destruct (p_items [m]) as [[its' r]|] eqn:E; [|discriminate]. inv H.
      specialize (Hdef _ _ eq_refl). simpl in *. lia.
    + destruct (Ascii.eqb m "-" && negb (Ascii.eqb d "]")).
      * destruct (Nat.leb _ _); [|discriminate].
        destruct (p_items s') as [[its' r]|] eqn:E; [|discriminate]. inv H.
        apply (IH (length s')) in E; simpl in *; [lia|lia|reflexivity].
      * destruct (p_items (m :: d :: s')) as [[its' r]|] eqn:E; [|discriminate]. inv H.
        specialize (Hdef _ _ eq_refl). simpl in *. lia.
Qed.

Lemma p_class_rest s r rest : p_class s = Some (r, rest) -> length rest < length s.
Proof.
  unfold p_class. destruct s as [|c s]; [discriminate|].
  destruct (Ascii.eqb c "^").
  - destruct (p_items s) as [[its r']|] eqn:E; [|discriminate]. intros H. inv H.
    apply p_items_rest in E. simpl. lia.
  - destruct (p_items (c :: s)) as [[its r']|] eqn:E; [|discriminate]. intros H. inv H.
    now apply p_items_rest in E.
Qed.

Lemma p_quant_rest a s : length (snd (p_quant a s)) <= length s.
Proof.
  destruct s as [|c s]; simpl; [lia|].
  destruct (Ascii.eqb c "*"); [simpl; lia|].
  destruct (Ascii.eqb c "+"); [simpl; lia|].
  destruct (Ascii.eqb c "?"); simpl; lia.
Qed.

(** An alternation or a sequence never grows the text; an atom consumes
    at least one character. *)
Lemma p_rest f :
  (forall s r rest, p_alt f s = Some (r, rest) -> length rest <= length s) /\
  (forall s r rest, p_seq f s = Some (r, rest) -> length rest <= length s) /\
  (forall s r rest, p_atom f s = Some (r, rest) -> length rest < length s).
Proof.
  induction f as [|f (IHa & IHs & IHt)]; [repeat split; discriminate|].
  repeat split.
  - intros s r rest H. cbn [p_alt] in H.
    destruct (p_seq f s) as [[r1 [|c rest1]]|] eqn:E; try discriminate.
    + inv H. apply IHs in E. exact E.
    + apply IHs in E. destruct (Ascii.eqb c "|").
      * destruct (p_alt f rest1) as [[r2 rest2]|] eqn:E2; [|discriminate]. inv H.
        apply IHa in E2. simpl in E. lia.
      * inv H. exact E.
  - intros s r rest H. cbn [p_seq] in H. destruct s as [|c s']; [inv H; simpl; lia|].
    destruct (Ascii.eqb c "|" || Ascii.eqb c ")"); [inv H; lia|].
    destruct (p_atom f (c :: s')) as [[a rest1]|] eqn:E; [|discriminate].
    apply IHt in E. pose proof (p_quant_rest a rest1) as Hq.
    destruct (p_quant a rest1) as [a' rest2]. simpl in Hq.
    destruct (p_seq f rest2) as [[r2 rest3]|] eqn:E2; [|discriminate]. inv H.
    apply IHs in E2. lia.
  - intros s r rest H. cbn [p_atom] in H. destruct s as [|c s']; [discriminate|].
    destruct (Ascii.eqb c "(").
    + destruct (p_alt f s') as [[r1 [|d rest1]]|] eqn:E; try discriminate.
      destruct (Ascii.eqb d ")"); [|discriminate]. inv H.
      apply IHa in E. simpl in *. lia.
    + destruct (Ascii.eqb c "[").
      * apply p_class_rest in H. simpl. lia.
      * destruct (Ascii.eqb c "\"%char).
        -- destruct s' as [|e s'']; [discriminate|].
           destruct (p_escape e); [|discriminate]. inv H. simpl. lia.
        -- destruct (Ascii.eqb c "."); [inv H; simpl; lia|].
           destruct (special c); [discriminate|]. inv H. simpl. lia.
Qed.

(** ** Enough fuel *)

(** With three units per character (plus the levels of the current call),
    more fuel changes nothing. *)
Lemma p_fuel f :
  (forall s, 3 * length s + 3 <= f -> forall g, f <= g -> p_alt g s = p_alt f s) /\
  (forall s, 3 * length s + 2 <= f -> forall g, f <= g -> p_seq g s = p_seq f s) /\
  (forall s, 3 * length s + 1 <= f -> forall g, f <= g -> p_atom g s = p_atom f s).
Proof.
  induction f as [|f (IHa & IHs & IHt)]; [repeat split; intros; lia|].
  destruct (p_rest f) as (Ra & Rs & Rt).
  repeat split; intros s Hs [|g] Hg; try lia.
  - cbn [p_alt]. rewrite (IHs s ltac:(lia) g ltac:(lia)).
    destruct (p_seq f s) as [[r1 [|c rest1]]|] eqn:E; try reflexivity.
    destruct (Ascii.eqb c "|"); [|reflexivity].
    apply Rs in E. simpl in E.
    now rewrite (IHa rest1 ltac:(lia) g ltac:(lia)).
  - cbn [p_seq]. destruct s as [|c s']; [reflexivity|].
    destruct (Ascii.eqb c "|" || Ascii.eqb c ")"); [reflexivity|].
    rewrite (IHt (c :: s') ltac:(lia) g ltac:(lia)).
    destruct (p_atom f (c :: s')) as [[a rest1]|] eqn:E; [|reflexivity].
    apply Rt in E. pose proof (p_quant_rest a rest1) as Hq.
    destruct (p_quant a rest1) as [a' rest2]. simpl in Hq.
    now rewrite (IHs rest2 ltac:(lia) g ltac:(lia)).
  - cbn [p_atom]. destruct s as [|c s']; [reflexivity|].
    destruct (Ascii.eqb c "("); [|reflexivity]. simpl in Hs.
    now rewrite (IHa s' ltac:(lia) g ltac:(lia)).
Qed.

(** The compiler's fuel is enough: with [parse_fuel s] or any more, the
    parse of [s] is the same, so no pattern is rejected for lack of fuel. *)
Theorem parse_fuel_enough s n :
  parse_fuel s <= n -> p_alt n s = p_alt (parse_fuel s) s.
Proof.
  intros Hn. apply (proj1 (p_fuel (parse_fuel s))); unfold parse_fuel in *; lia.
Qed.

(** ** Witnesses *)

Lemma parse_fuel_enough_witness :
  p_alt 100 (list_ascii_of_string "\s(fadd|fmul)") =
  p_alt (parse_fuel (list_ascii_of_string "\s(fadd|fmul)")) (list_ascii_of_string "\s(fadd|fmul)").
Proof. apply parse_fuel_enough. apply Nat.leb_le. reflexivity. Defined.
