(* ===== verification/RegexIgnoreCase.v ===== *)
(** * RegexIgnoreCase: [re.search] with [re.IGNORECASE]

    [get_symbols] and [get_embedded_strings] (arm64.inspect.py, lines 174
    and 237) call [re.search(pattern, line, re.IGNORECASE)].  For a [str]
    pattern, [sre_compile] compiles a literal [c] into a test of
    [lower(ch) == lower(c)] ([LITERAL_UNI_IGNORE]) and a class into the set
    of the lowered members, a range [lo-hi] into
    [map(lower, range(lo, hi + 1))] ([_optimize_charset] with
    [fixup = lower]), which is tested on [lower(ch)] ([IN_UNI_IGNORE]),
    negation included; [.], [\s] and [\d] are unchanged.  So the search is
    the plain search of the folded pattern [fold_ic] on the lowered text.

    [lower] is [str.lower] on the Latin-1 code points the development's
    characters range over: [A-Z], [U+00C0-U+00D6] and [U+00D8-U+00DE]
    move up by 32, every other character is its own lower case.  The extra
    case variants [sre] adds ([U+017F] for [s], the Kelvin sign for [k],
    ...) lie outside Latin-1 and cannot occur in the text.

    The theorems: for a pattern without negated classes, the
    case-insensitive search succeeds iff the plain search succeeds on some
    string equal to the line up to case ([search_ic_case_variant]); a
    negated class breaks that reading ([[^a]] does not match ["A"]); the
    search only depends on the line up to case, a [Proper] instance for
    the equivalence [case_equiv]. *)

From Stdlib Require Import String Ascii List Bool Arith Lia.
From Stdlib Require Import RelationClasses Morphisms.
From S2P Require Import Prelude PyText Regex RegexParse.
Import ListNotations.

(** ** [str.lower] on Latin-1 *)

Definition lower (c : ascii) : ascii :=
  let n := nat_of_ascii c in
  if ((65 <=? n) && (n <=? 90)) || ((192 <=? n) && (n <=? 222) && negb (n =? 215))
  then ascii_of_nat (n + 32) else c.

(** [range(lo, hi + 1)] as characters. *)
Definition char_range (lo hi : ascii) : list ascii :=
  map ascii_of_nat (seq (nat_of_ascii lo) (S (nat_of_ascii hi) - nat_of_ascii lo)).

(** ** The folded pattern *)

(** One item of a class under [fixup = lower]. *)
Definition fold_item (it : cls_item) : list cls_item :=
  match it with
  | CChar d => [CChar (lower d)]
  | CRange lo hi => map (fun k => CChar (lower k)) (char_range lo hi)
  | CSpace => [CSpace]
  | CDigit => [CDigit]
  end.

Fixpoint fold_ic (r : regex) : regex :=
  match r with
  | RChar c => RChar (lower c)
  | RSet neg items => RSet neg (flat_map fold_item items)
  | RAlt r s => RAlt (fold_ic r) (fold_ic s)
  | RCat r s => RCat (fold_ic r) (fold_ic s)
  | RStar r => RStar (fold_ic r)
  | REmpty => REmpty
  | REps => REps
  | RAny => RAny
  end.

(** A compiled pattern, searched with [re.IGNORECASE]. *)
Definition search_ic (p : pattern) (w : text) : bool :=
  pattern_search (Pattern (anchored p) (fold_ic (body p))) (map lower w).

(** [re.search(pattern, line, re.IGNORECASE)], raising [re.error] for a
    pattern that does not compile. *)
Definition re_search_ic (pat line : string) : result bool :=
  match compile (list_ascii_of_string pat) with
  | Some p => Ok (search_ic p (list_ascii_of_string line))
  | None => Raise (ReError pat)
  end.

(** Patterns without a negated class. *)
Fixpoint no_neg (r : regex) : bool :=
  match r with
  | RSet neg _ => negb neg
  | RAlt r s | RCat r s => no_neg r && no_neg s
  | RStar r => no_neg r
  | _ => true
  end.

(** Equal up to case. *)
Definition case_equiv (w1 w2 : text) : Prop := map lower w1 = map lower w2.

(** The compiled form of a pattern source, for the examples. *)
Definition ic_pattern (s : string) : pattern :=
  match compile (list_ascii_of_string s) with Some p => p | None => Pattern false REmpty end.

(** ** Facts about single characters, checked on all 256 *)

Definition all_ascii : list ascii := map ascii_of_nat (seq 0 256).

Lemma in_all_ascii c : In c all_ascii.
Proof.
  unfold all_ascii. rewrite <- (ascii_nat_embedding c). apply in_map, in_seq.
  pose proof (nat_ascii_bounded c). lia.
Qed.

Lemma forall_ascii (P : ascii -> bool) : forallb P all_ascii = true -> forall c, P c = true.
Proof. intros H c. rewrite forallb_forall in H. apply H, in_all_ascii. Qed.

Lemma forall_ascii_imp (P Q : ascii -> bool) :
  forallb (fun c => implb (P c) (Q c)) all_ascii = true -> forall c, P c = true -> Q c = true.
Proof. intros H c Hp. pose proof (forall_ascii _ H c) as Hc. cbv beta in Hc. now rewrite Hp in Hc. Qed.

Lemma lower_idem c : lower (lower c) = lower c.
Proof.
  apply Ascii.eqb_eq. revert c.
  apply (forall_ascii (fun c => Ascii.eqb (lower (lower c)) (lower c))). vm_compute. reflexivity.
Qed.

Lemma any_matches_lower c : any_matches (lower c) = any_matches c.
Proof.
  apply Bool.eqb_prop. revert c.
  apply (forall_ascii (fun c => Bool.eqb (any_matches (lower c)) (any_matches c))).
  vm_compute. reflexivity.
Qed.

(** The characters [\s] and [\d] match have no other case. *)
Lemma space_uncased c : is_space c = true -> lower c = c.
Proof.
  intros H. apply Ascii.eqb_eq. revert c H. apply forall_ascii_imp. vm_compute. reflexivity.
Qed.

Lemma digit_uncased c : is_digit c = true -> lower c = c.
Proof.
  intros H. apply Ascii.eqb_eq. revert c H. apply forall_ascii_imp. vm_compute. reflexivity.
Qed.

Lemma in_char_range lo hi k :
  In k (char_range lo hi) <-> nat_of_ascii lo <= nat_of_ascii k <= nat_of_ascii hi.
Proof.
  unfold char_range. rewrite in_map_iff. split.
  - intros (n & <- & Hn). apply in_seq in Hn. pose proof (nat_ascii_bounded hi).
    rewrite nat_ascii_embedding by lia. lia.
  - intros H. exists (nat_of_ascii k). rewrite ascii_nat_embedding, in_seq. split; [reflexivity|lia].
Qed.

(** ** Classes under [fixup = lower] *)

(** A lowered character is in the folded item iff some character of the
    item has that lower case. *)
Lemma fold_item_spec d it :
  existsb (item_matches (lower d)) (fold_item it) = true <->
  exists k, lower k = lower d /\ item_matches k it = true.
Proof.
  destruct it as [e|lo hi| |]; cbn [fold_item existsb item_matches]; rewrite ?orb_false_r.
  - rewrite Ascii.eqb_eq. split; [intros ->; exists e; now rewrite Ascii.eqb_refl|].
    intros (k & Hk & He). apply Ascii.eqb_eq in He. congruence.
  - rewrite existsb_exists. split.
    + intros (x & Hx & Hm). apply in_map_iff in Hx as (k & <- & Hk).
      apply in_char_range in Hk. cbn [item_matches] in Hm. apply Ascii.eqb_eq in Hm.
      exists k. split; [congruence|]. apply andb_true_iff. rewrite !Nat.leb_le. exact Hk.
    + intros (k & Hk & Hm). apply andb_true_iff in Hm as [H1 H2]. apply Nat.leb_le in H1, H2.
      exists (CChar (lower k)). split; [apply (in_map (fun k => CChar (lower k))), in_char_range; lia|].
      cbn [item_matches]. apply Ascii.eqb_eq. congruence.
  - split; [intros H; exists (lower d); now rewrite lower_idem|].
    intros (k & Hk & Hs). rewrite <- Hk, (space_uncased _ Hs). exact Hs.
  - split; [intros H; exists (lower d); now rewrite lower_idem|].
    intros (k & Hk & Hs). rewrite <- Hk, (digit_uncased _ Hs). exact Hs.
Qed.

Lemma fold_set_spec d items :
  existsb (item_matches (lower d)) (flat_map fold_item items) = true <->
  exists k, lower k = lower d /\ existsb (item_matches k) items = true.
Proof.
  induction items as [|it items IH]; cbn [flat_map existsb].
  - split; [discriminate|intros (k & _ & H); discriminate].
  - rewrite existsb_app, orb_true_iff, fold_item_spec, IH. split.
    + intros [(k & Hk & Hm)|(k & Hk & Hm)]; exists k; rewrite Hm; [|rewrite orb_true_r]; auto.
    + intros (k & Hk & Hm). apply orb_true_iff in Hm as [Hm|Hm]; [left|right]; eauto.
Qed.

(** ** The folded language *)

(** Invert [fold_ic r] against a constructor of [regex]. *)
Ltac inv_fold r Hr := destruct r; cbn [fold_ic no_neg] in *; try discriminate Hr; inv Hr.

(** Every word of a pattern without negated classes, lowered, is a word
    of the folded pattern. *)
Lemma lang_fold_ic_intro r w : lang r w -> no_neg r = true -> lang (fold_ic r) (map lower w).
Proof.
  induction 1 as [|c|neg items c Hc|c Hc|r s w _ IH|r s w _ IH|r s u v _ IHu _ IHv
                 |r|r u v _ IHu _ IHv]; cbn [fold_ic no_neg]; intros Hn;
    rewrite ?map_app; try apply andb_true_iff in Hn as [H1 H2]; auto with anicet.
  - destruct neg; [discriminate|]. constructor. unfold set_matches in *.
    cbn [xorb] in *. apply fold_set_spec. eauto.
  - constructor. now rewrite any_matches_lower.
Qed.

Lemma lang_fold_ic_elim rf v :
  lang rf v -> forall r w, rf = fold_ic r -> v = map lower w -> no_neg r = true ->
  exists w', lang r w' /\ map lower w' = map lower w.
Proof.
  induction 1 as [|c|neg items c Hc|c Hc|r0 s0 v _ IH|r0 s0 v _ IH|r0 s0 u v _ IHu _ IHv
                 |r0|r0 u v _ IHu _ IHv]; intros r w Hr Hw Hn.
  - inv_fold r Hr; exists []; destruct w; try discriminate; auto with anicet.
  - inv_fold r Hr. destruct w as [|d [|]]; try discriminate. inv Hw.
    exists [c0]. simpl. rewrite H0. auto with anicet.
  - inv_fold r Hr. destruct w as [|d [|]]; try discriminate. inv Hw.
    destruct negated; [discriminate|]. unfold set_matches in Hc. cbn [xorb] in Hc.
    apply fold_set_spec in Hc as (k & Hk & Hm). exists [k]. simpl. rewrite Hk.
    split; [constructor; exact Hm|reflexivity].
  - inv_fold r Hr. destruct w as [|d [|]]; try discriminate. inv Hw.
    rewrite any_matches_lower in Hc. eauto with anicet.
  - inv_fold r Hr. apply andb_true_iff in Hn as [H1 H2].
    destruct (IH r1 w eq_refl eq_refl H1) as (w' & ? & ?). eauto with anicet.
  - inv_fold r Hr. apply andb_true_iff in Hn as [H1 H2].
    destruct (IH r2 w eq_refl eq_refl H2) as (w' & ? & ?). eauto with anicet.
  - inv_fold r Hr. apply andb_true_iff in Hn as [H1 H2].
    symmetry in Hw. apply map_eq_app in Hw as (w1 & w2 & -> & E1 & E2).
    destruct (IHu r1 w1 eq_refl (eq_sym E1) H1) as (w1' & ? & ?).
    destruct (IHv r2 w2 eq_refl (eq_sym E2) H2) as (w2' & ? & ?).
    exists (w1' ++ w2'). rewrite !map_app. split; [constructor|congruence]; auto.
  - inv_fold r Hr. destruct w; [|discriminate]. exists []. auto with anicet.
  - inv_fold r Hr. symmetry in Hw. apply map_eq_app in Hw as (w1 & w2 & -> & E1 & E2).
    destruct (IHu r w1 eq_refl (eq_sym E1) Hn) as (w1' & ? & ?).
    destruct (IHv (RStar r) w2 eq_refl (eq_sym E2) Hn) as (w2' & ? & ?).
    exists (w1' ++ w2'). rewrite !map_app. split; [constructor|congruence]; auto.
Qed.

(** The folded pattern's words among the lowered strings are the lowered
    words of the pattern. *)
Lemma lang_fold_ic r w :
  no_neg r = true ->
  lang (fold_ic r) (map lower w) <-> exists w', lang r w' /\ map lower w' = map lower w.
Proof.
  intros Hn. split; [intros H; eapply lang_fold_ic_elim; eauto|].
  intros (w' & Hw' & E). rewrite <- E. now apply lang_fold_ic_intro.
Qed.

(** ** The search *)

#[export] Instance case_equiv_Equivalence : Equivalence case_equiv.
Proof. unfold case_equiv. split; repeat intro; congruence. Qed.

(** The case-insensitive search only sees the line up to case. *)
#[export] Instance search_ic_proper p : Proper (case_equiv ==> eq) (search_ic p).
Proof. intros w1 w2 E. unfold search_ic. now rewrite E. Qed.

Lemma map_lower_split3 w u v x :
  map lower w = u ++ v ++ x ->
  exists w1 w2 w3, w = w1 ++ w2 ++ w3 /\ map lower w1 = u /\ map lower w2 = v /\ map lower w3 = x.
Proof.
  intros H. apply map_eq_app in H as (w1 & w23 & -> & E1 & H).
  apply map_eq_app in H as (w2 & w3 & -> & E2 & E3). eauto 7.
Qed.

(** C15: for a pattern without negated classes, [re.search] with
    [re.IGNORECASE] succeeds on a line iff the plain [re.search] succeeds
    on a string equal to the line up to case. *)
Theorem search_ic_case_variant p w :
  no_neg (body p) = true ->
  search_ic p w = true <-> exists w', case_equiv w' w /\ pattern_search p w' = true.
Proof.
  intros Hn. unfold search_ic, case_equiv. rewrite pattern_search_correct.
  setoid_rewrite pattern_search_correct. unfold searches; cbn [anchored body].
  destruct (anchored p); split.
  - intros (v & x & Hw & Hv). apply map_eq_app in Hw as (w1 & w2 & -> & <- & <-).
    apply lang_fold_ic in Hv as (w1' & Hl & E); [|exact Hn].
    exists (w1' ++ w2). rewrite !map_app, E. split; [reflexivity|]. eauto.
  - intros (w' & E & v & x & -> & Hv). exists (map lower v), (map lower x).
    rewrite <- E, map_app. split; [reflexivity|]. apply lang_fold_ic; eauto.
  - intros (u & v & x & Hw & Hv). apply map_lower_split3 in Hw as (w1 & w2 & w3 & -> & <- & <- & <-).
    apply lang_fold_ic in Hv as (w2' & Hl & E); [|exact Hn].
    exists (w1 ++ w2' ++ w3). rewrite !map_app, E. split; [reflexivity|]. eauto.
  - intros (w' & E & u & v & x & -> & Hv). exists (map lower u), (map lower v), (map lower x).
    rewrite <- E, !map_app. split; [reflexivity|]. apply lang_fold_ic; eauto.
Qed.

(** ** Concrete searches *)

(** A negated class is negated after lowering: [[^a]] with
    [re.IGNORECASE] does not match ["A"], which the plain [[^a]] matches;
    so [search_ic_case_variant] needs its hypothesis. *)
Theorem search_ic_negated_class :
  exists p, compile (list_ascii_of_string "[^a]") = Some p /\
    search_ic p (list_ascii_of_string "A") = false /\
    pattern_search p (list_ascii_of_string "A") = true.
Proof. eexists. split; [vm_compute; reflexivity|]. split; vm_compute; reflexivity. Qed.

(** A range is lowered member by member: [[Z-a]] holds [Z], [[], ..., [`],
    [a], which lower to [z], [[], ..., [a], so ["A"] matches and ["{"]
    does not; under [[^Z-a]], ["z"] does not match. *)
Theorem re_search_ic_range_lowered :
  re_search_ic "[Z-a]" "A" = Ok true /\ re_search_ic "[Z-a]" "{" = Ok false /\
  re_search_ic "[^Z-a]" "z" = Ok false /\ re_search_ic "NEON" "neon_memcpy" = Ok true /\
  re_search_ic "(sha" "x" = Raise (ReError "(sha").
Proof. repeat split; vm_compute; reflexivity. Qed.

(** ** Witnesses *)

Lemma search_ic_case_variant_witness :
  exists w', case_equiv w' (list_ascii_of_string "NEON_memcpy") /\
    pattern_search (ic_pattern "neon") w' = true.
Proof.
  apply (search_ic_case_variant (ic_pattern "neon")); vm_compute; reflexivity.
Defined.
