(* ===== verification/RegexCapture.v ===== *)
(** * RegexCapture: [re.match] / [re.search] with one capturing group

    [parse_file_info] (arm64.inspect.py, lines 246-304) reads fields out
    of the output of [file] with [m.group(1)], so it depends on which
    substring Python's engine picks, not only on whether one exists.
    Python's [sre] is a backtracking matcher: the leftmost start position
    wins; at a start, alternatives are tried left to right and a greedy
    repetition tries one more iteration before stopping.  [bt] is that
    matcher in continuation-passing style on the [regex] syntax of
    [Regex]; a repetition only iterates on a non-empty match (sre stops
    a repetition whose body matched the empty string; the tools' stars
    are over character classes, which never match it).

    [bt_some_iff] shows that [bt] succeeds exactly when the language
    allows a split accepted by the continuation, and [bt_sound] that every
    answer it gives comes from such a split; so [cp_search] succeeds iff
    [search_from] does on the pattern without its parentheses
    ([cp_search_some_iff]), and the captured text is in the language of
    the group ([cp_search_sound]). *)

From Stdlib Require Import String Ascii List Bool Arith Lia.
From S2P Require Import Prelude PyText Regex RegexParse.
Import ListNotations.

(** ** The backtracking matcher *)

(** A greedy repetition: [m] matches one iteration and calls its
    continuation on the rest; an iteration must consume input. *)
Fixpoint star_loop {A} (m : (text -> option A) -> text -> option A)
    (k : text -> option A) (n : nat) (w : text) : option A :=
  match n with
  | O => k w
  | S n' =>
      match m (fun w' => if length w' <? length w then star_loop m k n' w' else None) w with
      | Some x => Some x
      | None => k w
      end
  end.

(** Match [r] at the start of [w], then run the continuation [k] on the
    rest; the first success in sre's priority order is returned. *)
Fixpoint bt {A} (r : regex) (k : text -> option A) (w : text) : option A :=
  match r with
  | REmpty => None
  | REps => k w
  | RChar c => match w with d :: w' => if Ascii.eqb c d then k w' else None | [] => None end
  | RSet neg items =>
      match w with d :: w' => if set_matches neg items d then k w' else None | [] => None end
  | RAny => match w with d :: w' => if any_matches d then k w' else None | [] => None end
  | RAlt r1 r2 => match bt r1 k w with Some x => Some x | None => bt r2 k w end
  | RCat r1 r2 => bt r1 (bt r2 k) w
  | RStar r1 => star_loop (bt r1) k (S (length w)) w
  end.

(** ** Patterns with one group *)

(** [pre(group)post], each part compiled by [RegexParse.compile]. *)
Record cpattern : Type := CPattern { cp_pre : regex; cp_group : regex; cp_post : regex }.

(** The text of group 1 of a match starting at [w], if any. *)
Definition cp_at (p : cpattern) (w : text) : option text :=
  bt (cp_pre p)
     (fun w1 => bt (cp_group p)
                   (fun w2 => bt (cp_post p)
                                 (fun _ => Some (firstn (length w1 - length w2) w1)) w2) w1) w.

(** [re.search]: the leftmost start position with a match. *)
Fixpoint cp_search (p : cpattern) (w : text) : option text :=
  match cp_at p w with
  | Some g => Some g
  | None => match w with [] => None | _ :: w' => cp_search p w' end
  end.

(** One part of the pattern, compiled; a part is never anchored. *)
Definition compile_part (s : string) : option regex :=
  match compile (list_ascii_of_string s) with
  | Some (Pattern false r) => Some r
  | _ => None
  end.

Definition compile_cpattern (pre grp post : string) : option cpattern :=
  match compile_part pre, compile_part grp, compile_part post with
  | Some a, Some b, Some c => Some (CPattern a b c)
  | _, _, _ => None
  end.

(** [m = re.match(pre + "(" + grp + ")" + post, s)] (when [anchored]) or
    [re.search(...)], then [m.group(1) if m else None]; a pattern that does
    not compile raises [re.error]. *)
Definition re_group1 (anchored : bool) (pre grp post : string) (s : string)
  : result (option string) :=
  match compile_cpattern pre grp post with
  | Some p =>
      let w := list_ascii_of_string s in
      Ok (option_map string_of_list_ascii (if anchored then cp_at p w else cp_search p w))
  | None => Raise (ReError (pre ++ "(" ++ grp ++ ")" ++ post))
  end.

(** ** Lemmas *)

(** A non-empty word of a star starts with a non-empty iteration. *)
Lemma star_nonempty r w :
  lang (RStar r) w -> w <> [] ->
  exists u v, u <> [] /\ w = u ++ v /\ lang r u /\ lang (RStar r) v.
Proof.
  intros H. remember (RStar r) as s eqn:Es. revert Es.
  induction H; intros Es Hne; try discriminate; inv Es; [contradiction|].
  destruct u as [|c u].
  - simpl in *. auto.
  - exists (c :: u), v. split; [discriminate|auto].
Qed.

Lemma some_not_none {A} (o : option A) : (exists x, o = Some x) <-> o <> None.
Proof. destruct o; split; intros H; eauto; [discriminate|now destruct H|contradiction]. Qed.

(** The part of [bt_some_iff] about the repetition, for any fuel that
    exceeds the length of the input. *)
Lemma star_loop_some {A} (m : (text -> option A) -> text -> option A) r k :
  (forall k w, m k w <> None <->
     exists u v, w = u ++ v /\ lang r u /\ k v <> None) ->
  forall n w, length w < n ->
  star_loop m k n w <> None <->
  exists u v, w = u ++ v /\ lang (RStar r) u /\ k v <> None.
Proof.
  intros Hm. induction n as [|n IH]; intros w Hn; [lia|]. cbn [star_loop].
  destruct (m _ w) as [x|] eqn:E.
  - split; [intros _|discriminate].
    assert (Hs : m (fun w' => if length w' <? length w then star_loop m k n w' else None) w <> None)
      by congruence.
    apply Hm in Hs as (u & v & -> & Hu & Hv).
    destruct (Nat.ltb_spec (length v) (length (u ++ v))) as [Hl|]; [|contradiction].
    apply IH in Hv as (u2 & v2 & -> & Hu2 & Hk); [|lia].
    exists (u ++ u2), v2. rewrite app_assoc. auto with anicet.
  - split.
    + intros Hk. exists [], w. auto with anicet.
    + intros ([|c u] & v & Ew & Hu & Hk); [now subst|].
      exfalso. apply star_nonempty in Hu as (u1 & u2 & Hne & Eu & Hu1 & Hu2);
        [|discriminate].
      subst w. rewrite Eu in *. clear c u Eu.
      assert (Hlt : length (u2 ++ v) < length ((u1 ++ u2) ++ v)).
      { destruct u1; [contradiction|rewrite !length_app; simpl; lia]. }
      assert (Hs : m (fun w' => if length w' <? length ((u1 ++ u2) ++ v)
                                then star_loop m k n w' else None) ((u1 ++ u2) ++ v)
                   <> None).
      { apply Hm. exists u1, (u2 ++ v). rewrite <- app_assoc.
        split; [reflexivity|split; [exact Hu1|]].
        rewrite <- app_assoc in Hlt, Hn. cbv beta.
        rewrite (proj2 (Nat.ltb_lt _ _) Hlt).
        apply IH; [lia|exists u2, v; auto]. }
      congruence.
Qed.

(** The soundness half for the repetition. *)
Lemma star_loop_sound {A} (m : (text -> option A) -> text -> option A) r k :
  (forall k w x, m k w = Some x -> exists u v, w = u ++ v /\ lang r u /\ k v = Some x) ->
  forall n w x, star_loop m k n w = Some x ->
  exists u v, w = u ++ v /\ lang (RStar r) u /\ k v = Some x.
Proof.
  intros Hm. induction n as [|n IH]; intros w x H; cbn [star_loop] in H.
  - exists [], w. auto with anicet.
  - destruct (m _ w) as [y|] eqn:E.
    + inv H. apply Hm in E as (u & v & -> & Hu & Hv).
      destruct (length v <? length (u ++ v)); [|discriminate].
      apply IH in Hv as (u2 & v2 & -> & Hu2 & Hk).
      exists (u ++ u2), v2. rewrite app_assoc. auto with anicet.
    + exists [], w. auto with anicet.
Qed.

Lemma lang_alt_iff r s w : lang (RAlt r s) w <-> lang r w \/ lang s w.
Proof. split; [intros H; inv H; auto|intros [H|H]; auto with anicet]. Qed.

(** One character tested by [f], then the continuation. *)
Lemma one_char_some {A} (f : ascii -> bool) (k : text -> option A) w :
  match w with d :: w' => if f d then k w' else None | [] => None end <> None <->
  exists c v, w = c :: v /\ f c = true /\ k v <> None.
Proof.
  destruct w as [|d w]; [split; [congruence|intros (? & ? & ? & _); discriminate]|].
  destruct (f d) eqn:E; split.
  - eauto.
  - intros (c & v & Ew & _ & Hk). now inv Ew.
  - congruence.
  - intros (c & v & Ew & Hc & _). inv Ew. congruence.
Qed.

Lemma one_char_sound {A} (f : ascii -> bool) (k : text -> option A) w x :
  match w with d :: w' => if f d then k w' else None | [] => None end = Some x ->
  exists c v, w = c :: v /\ f c = true /\ k v = Some x.
Proof. destruct w as [|d w]; [discriminate|]. destruct (f d) eqn:E; [eauto|discriminate]. Qed.

(** The single-character regexes as a test on the character. *)
Definition char_test (r : regex) : option (ascii -> bool) :=
  match r with
  | RChar c => Some (Ascii.eqb c)
  | RSet neg items => Some (set_matches neg items)
  | RAny => Some any_matches
  | _ => None
  end.

Lemma char_test_lang r f u :
  char_test r = Some f -> lang r u <-> exists c, u = [c] /\ f c = true.
Proof.
  destruct r; simpl; intros H; inv H.
  - rewrite lang_char_iff. split; [intros ->; exists c; auto using Ascii.eqb_refl|].
    intros (d & -> & Hd). apply Ascii.eqb_eq in Hd. now subst.
  - apply lang_set_iff.
  - apply lang_any_iff.
Qed.

Lemma char_test_bt {A} r f (k : text -> option A) w :
  char_test r = Some f ->
  bt r k w = match w with d :: w' => if f d then k w' else None | [] => None end.
Proof. destruct r; simpl; intros H; inv H; reflexivity. Qed.

Lemma char_case_some {A} r f (k : text -> option A) w :
  char_test r = Some f ->
  bt r k w <> None <-> exists u v, w = u ++ v /\ lang r u /\ k v <> None.
Proof.
  intros H. rewrite (char_test_bt _ _ _ _ H), one_char_some. split.
  - intros (c & v & -> & Hc & Hk). exists [c], v.
    split; [reflexivity|split; [apply (char_test_lang _ _ _ H); eauto|exact Hk]].
  - intros (u & v & -> & Hu & Hk). apply (char_test_lang _ _ _ H) in Hu as (c & -> & Hc).
    exists c, v. auto.
Qed.

Lemma char_case_sound {A} r f (k : text -> option A) w x :
  char_test r = Some f -> bt r k w = Some x ->
  exists u v, w = u ++ v /\ lang r u /\ k v = Some x.
Proof.
  intros H Hb. rewrite (char_test_bt _ _ _ _ H) in Hb.
  apply one_char_sound in Hb as (c & v & -> & Hc & Hk). exists [c], v.
  split; [reflexivity|split; [apply (char_test_lang _ _ _ H); eauto|exact Hk]].
Qed.

(** ** The matcher and the language *)

(** [bt] succeeds exactly when [w] splits into a word of [r] and a rest
    the continuation accepts: backtracking explores every split. *)
Theorem bt_some_iff {A} r (k : text -> option A) w :
  bt r k w <> None <-> exists u v, w = u ++ v /\ lang r u /\ k v <> None.
Proof.
  revert k w.
  induction r as [| |c|neg items| |r1 IH1 r2 IH2|r1 IH1 r2 IH2|r1 IH1]; intros k w;
    try (eapply char_case_some; reflexivity).
  - simpl. split; [congruence|intros (u & v & _ & Hu & _); now apply lang_empty in Hu].
  - simpl. split; [intros H; exists [], w; auto with anicet|].
    intros (u & v & -> & Hu & Hk). apply lang_eps_iff in Hu. now subst.
  - simpl. destruct (bt r1 k w) as [x|] eqn:E.
    + split; [intros _|congruence].
      assert (H1 : bt r1 k w <> None) by congruence.
      apply IH1 in H1 as (u & v & -> & Hu & Hk). exists u, v. auto with anicet.
    + rewrite IH2. split; intros (u & v & -> & Hu & Hk).
      * exists u, v. auto with anicet.
      * apply lang_alt_iff in Hu as [Hu|Hu]; [|eauto].
        exfalso. assert (H1 : bt r1 k (u ++ v) <> None) by (apply IH1; eauto).
        congruence.
  - simpl. rewrite IH1. split.
    + intros (u1 & v1 & -> & Hu1 & Hv1). apply IH2 in Hv1 as (u2 & v & -> & Hu2 & Hk).
      exists (u1 ++ u2), v. rewrite app_assoc. auto with anicet.
    + intros (u & v & -> & Hu & Hk). apply lang_cat_iff in Hu as (u1 & u2 & -> & Hu1 & Hu2).
      exists u1, (u2 ++ v). rewrite app_assoc.
      split; [reflexivity|split; [exact Hu1|apply IH2; eauto]].
  - cbn [bt]. apply (star_loop_some (bt r1) r1 k IH1). lia.
Qed.

(** Every answer of [bt] comes from a split of [w] into a word of [r]
    and a rest on which the continuation gives that answer. *)
Theorem bt_sound {A} r (k : text -> option A) w x :
  bt r k w = Some x -> exists u v, w = u ++ v /\ lang r u /\ k v = Some x.
Proof.
  revert k w x.
  induction r as [| |c|neg items| |r1 IH1 r2 IH2|r1 IH1 r2 IH2|r1 IH1]; intros k w x H;
    try (eapply char_case_sound; [reflexivity|exact H]).
  - discriminate.
  - exists [], w. auto with anicet.
  - simpl in H. destruct (bt r1 k w) as [y|] eqn:E.
    + inv H. apply IH1 in E as (u & v & -> & Hu & Hk). exists u, v. auto with anicet.
    + apply IH2 in H as (u & v & -> & Hu & Hk). exists u, v. auto with anicet.
  - simpl in H. apply IH1 in H as (u1 & v1 & -> & Hu1 & Hv1).
    apply IH2 in Hv1 as (u2 & v & -> & Hu2 & Hk).
    exists (u1 ++ u2), v. rewrite app_assoc. auto with anicet.
  - exact (star_loop_sound (bt r1) r1 k IH1 _ _ _ H).
Qed.

(** ** What the group search finds *)

(** The pattern with its parentheses removed. *)
Definition cp_regex (p : cpattern) : regex := RCat (cp_pre p) (RCat (cp_group p) (cp_post p)).

Lemma lang_cp_regex p u :
  lang (cp_regex p) u <->
  exists a g c, u = a ++ g ++ c /\ lang (cp_pre p) a /\ lang (cp_group p) g /\ lang (cp_post p) c.
Proof.
  unfold cp_regex. rewrite lang_cat_iff. split.
  - intros (a & v & -> & Ha & Hv). apply lang_cat_iff in Hv as (g & c & -> & Hg & Hc).
    exists a, g, c. auto.
  - intros (a & g & c & -> & Ha & Hg & Hc). exists a, (g ++ c).
    split; [reflexivity|split; [exact Ha|apply lang_cat_iff; eauto]].
Qed.

Lemma firstn_sub_app {B} (g v : list B) : firstn (length (g ++ v) - length v) (g ++ v) = g.
Proof.
  rewrite length_app, Nat.add_sub, firstn_app, Nat.sub_diag, firstn_O, app_nil_r.
  apply firstn_all.
Qed.

(** A match of the group pattern at the start of [w] exists iff
    [re.match] on the pattern without parentheses succeeds. *)
Theorem cp_at_some_iff p w : cp_at p w <> None <-> match_prefix (cp_regex p) w = true.
Proof.
  rewrite match_prefix_correct. unfold cp_at. rewrite bt_some_iff. split.
  - intros (a & w1 & -> & Ha & H1). apply bt_some_iff in H1 as (g & w2 & -> & Hg & H2).
    apply bt_some_iff in H2 as (c & d & -> & Hc & _).
    exists (a ++ g ++ c), d. rewrite !app_assoc.
    split; [reflexivity|apply lang_cp_regex; exists a, g, c; rewrite !app_assoc; auto].
  - intros (u & d & -> & Hu). apply lang_cp_regex in Hu as (a & g & c & -> & Ha & Hg & Hc).
    exists a, (g ++ c ++ d). rewrite <- !app_assoc. split; [reflexivity|split; [exact Ha|]].
    apply bt_some_iff. exists g, (c ++ d). split; [reflexivity|split; [exact Hg|]].
    apply bt_some_iff. exists c, d. split; [reflexivity|split; [exact Hc|discriminate]].
Qed.

(** C31: [re.search] with a group succeeds iff [re.search] on the pattern
    without parentheses does: the two models of [re] agree. *)
Theorem cp_search_some_iff p w : cp_search p w <> None <-> search_from (cp_regex p) w = true.
Proof.
  induction w as [|c w IH]; cbn [cp_search search_from].
  - rewrite orb_false_r, <- cp_at_some_iff. destruct (cp_at p []); split; congruence.
  - rewrite orb_true_iff, <- cp_at_some_iff, <- IH.
    destruct (cp_at p (c :: w)); [split; [left|]; congruence|].
    split; [right; exact H|intros [H|H]; [contradiction|exact H]].
Qed.

(** The text [re.match] captures is a word of the group, between a word
    of the part before it and a word of the part after it. *)
Theorem cp_at_sound p w g :
  cp_at p w = Some g ->
  exists a c d, w = a ++ g ++ c ++ d /\
    lang (cp_pre p) a /\ lang (cp_group p) g /\ lang (cp_post p) c.
Proof.
  unfold cp_at. intros H.
  apply bt_sound in H as (a & w1 & -> & Ha & H1).
  apply bt_sound in H1 as (g' & w2 & -> & Hg & H2).
  apply bt_sound in H2 as (c & d & -> & Hc & H3).
  inv H3. rewrite firstn_sub_app. exists a, c, d. auto.
Qed.

(** The same for [re.search], after the positions it skipped. *)
Theorem cp_search_sound p w g :
  cp_search p w = Some g ->
  exists s a c d, w = s ++ a ++ g ++ c ++ d /\
    lang (cp_pre p) a /\ lang (cp_group p) g /\ lang (cp_post p) c.
Proof.
  induction w as [|x w IH]; cbn [cp_search]; intros H.
  - destruct (cp_at p []) eqn:E; [inv H|discriminate].
    apply cp_at_sound in E as (a & c & d & Ew & Hs). exists [], a, c, d. auto.
  - destruct (cp_at p (x :: w)) eqn:E.
    + inv H. apply cp_at_sound in E as (a & c & d & Ew & Hs). exists [], a, c, d. auto.
    + apply IH in H as (s & a & c & d & -> & Hs). exists (x :: s), a, c, d. auto.
Qed.

(** ** Literal prefixes and compiled group patterns *)

(** A run of literal characters before [r], the shape [RegexParse]
    gives to a pattern text that starts with plain characters. *)
Definition lit (cs : list ascii) (r : regex) : regex :=
  fold_right (fun c acc => RCat (RChar c) acc) r cs.

Lemma lang_lit cs r w : lang (lit cs r) w <-> exists v, w = cs ++ v /\ lang r v.
Proof.
  revert w. induction cs as [|c cs IH]; intros w; simpl.
  - split; eauto. intros (v & -> & H). exact H.
  - rewrite lang_cat_iff. split.
    + intros (u & v & -> & Hu & Hv). apply lang_char_iff in Hu as ->.
      apply IH in Hv as (x & -> & Hx). exists x. split; [reflexivity|exact Hx].
    + intros (v & -> & Hv). exists [c], (cs ++ v).
      split; [reflexivity|split; [constructor|apply IH; eauto]].
Qed.

Lemma re_group1_compiled anchored pre grp post p s :
  compile_cpattern pre grp post = Some p ->
  re_group1 anchored pre grp post s =
  Ok (option_map string_of_list_ascii
        (if anchored then cp_at p (list_ascii_of_string s)
         else cp_search p (list_ascii_of_string s))).
Proof. unfold re_group1. now intros ->. Qed.

(** The capture of [re.match] is a word of the group (for a pattern with
    nothing before or after the group). *)
Lemma cp_at_group r w g :
  cp_at (CPattern REps r REps) w = Some g -> lang r g.
Proof. intros H. now apply cp_at_sound in H as (_ & _ & _ & _ & _ & Hg & _). Qed.

Lemma cp_search_group pre r w g :
  cp_search (CPattern pre r REps) w = Some g -> lang r g.
Proof. intros H. now apply cp_search_sound in H as (_ & _ & _ & _ & _ & _ & Hg & _). Qed.
