(* ===== verification/Registry.v ===== *)
(** * Registry: the capability pattern table [INSPECT_ARRAY]

    [INSPECT_ARRAY] (arm64.inspect.py, lines 30-87) maps each extension
    name to the source of a regular expression.  It is copied here
    verbatim, in the insertion order in which [INSPECT_ARRAY.items()]
    yields it (Python raw strings keep their backslashes, as Rocq string
    literals do).  The lemmas of this file are facts about the table
    itself: its keys are distinct, so the dict literal loses no entry,
    and every pattern is in the subset of [re] that [RegexParse] compiles. *)

From Stdlib Require Import String Ascii List Bool.
From S2P Require Import Prelude PyText Regex RegexParse.
Import ListNotations.

Local Open Scope string_scope.

Definition INSPECT_ARRAY : list (string * string) := [
  (* 1. Core architecture and SIMD *)
  ("asimd", "\s(fadd|fmul|ld1|st1|saddl|uaddl|sqadd|movi|add\s+v|sub\s+v|mul\s+v|ld[234]|st[234]|umull|smull)");
  ("asimdhp", "\s(fadd\s+h|fmul\s+h|fmla\s+h|fabs\s+h|fneg\s+h|fsqrt\s+h)");
  ("asimdfhm", "\s(fmlal|fmlsl)");
  ("asimddp", "\s(sdot|udot)");
  ("asimdrdm", "\s(sqrdmlah|sqrdmlsh)");
  ("i8mm", "\s(smmla|ummla|usmmla)");
  ("bf16", "\s(bfdot|bfmmla|bfcvt)");
  ("bf16fml", "\s(bfmlalb|bfmlalt)");
  ("sve", "\sz[0-9]+\.");
  ("sve2", "\s(sqrdmlah\s+z|sqrdmlsh\s+z|match|nmatch|histcnt|histseg|addhnb|raddhnb)");
  ("svei8mm", "\s(smmla\s+z|ummla\s+z|usmmla\s+z)");
  ("svebf16", "\s(bfdot\s+z|bfmmla\s+z|bfcvt\s+z)");
  ("sveaes", "\s(aesd\s+z|aese\s+z|aesimc\s+z|aesmc\s+z)");
  ("svepmull", "\s(pmull\s+z)");
  ("svebitperm", "\s(bext|bdep|bgrp)");
  ("svesha3", "\s(rax1|bcax|eor3|xar)");
  ("svesm4", "\s(sm4e\s+z|sm4ekey\s+z)");
  ("fphp", "\s(fcvt\s+h|fadd\s+h|fmul\s+h|fdiv\s+h|fsub\s+h)");
  ("fcma", "\s(fcmla|fcadd)");
  ("frint", "\s(frint32x|frint64x|frint32z|frint64z)");
  (* 2. Cryptography and hash extensions *)
  ("aes", "\s(aese|aesd|aesmc|aesimc)");
  ("pmull", "\s(pmull)");
  ("sha1", "\s(sha1[cpmhsu])");
  ("sha2", "\s(sha256[hsu]|sha512[hsu])");
  ("sha3", "\s(rax1|bcax|eor3|xar)");
  ("sha512", "\s(sha512[hsu])");
  ("sm3", "\s(sm3ss1|sm3tt[12][ab]|sm3partw[12])");
  ("sm4", "\s(sm4e|sm4ekey)");
  (* 3. Memory, atomics, and synchronization *)
  ("atomics", "\s(ldadd|ldclr|ldeor|ldset|ldsmax|ldsmin|ldumax|ldumin|cas|casp|swp)");
  ("dcpop", "\sdc\s+cvap");
  ("dcpodp", "\sdc\s+cvadp");
  ("uscat", "\s(stset|stclr)");
  ("lrcpc", "\s(ldapr|stlr)");
  ("ilrcpc", "\s(ldapur|stlur)");
  ("dgh", "\sdgh");
  ("sb", "\ssb");
  ("wfxt", "\s(wfet|wfit)");
  (* 4. Security and control-flow *)
  ("paca", "\s(pacia|pacib|autia|autib)");
  ("pacg", "\s(pacda|pacdb|pacga|autda|autdb|autga)");
  ("bti", "\sbti");
  ("flagm", "\s(setf8|setf16|rmif)");
  ("flagm2", "\s(axflag|xaflag)");
  (* 5. Data conversion and integer extensions *)
  ("jscvt", "\sfjcvtzs");
  ("crc32", "\scrc32[bhwxc]");
  ("dit", "\smsr\s+dit");
  ("cpuid", "\smrs\s+.*,\s*id_");
  ("evtstrm", "\sevtstrm")
].

(** The extension names, in the order of the table. *)
Definition registry_names : list string := map fst INSPECT_ARRAY.

(** ** Facts about the table *)

(** No key of the dict literal is repeated, so no entry is overwritten
    and [INSPECT_ARRAY.items()] yields all 47 of them. *)
Lemma registry_names_NoDup : NoDup registry_names.
Proof.
  apply (nodupb_NoDup String.eqb String.eqb_eq). vm_compute. reflexivity.
Qed.

Lemma registry_length : length INSPECT_ARRAY = 47.
Proof. reflexivity. Qed.

(** Every pattern of the table compiles. *)
Lemma registry_compiles :
  Forall (fun e => re_compile (snd e) <> None) INSPECT_ARRAY.
Proof.
  apply Forall_forall. intros e He.
  repeat (destruct He as [<-|He]; [vm_compute; discriminate|]).
  destruct He.
Qed.
