(* ===== verification/Classifier.v ===== *)
(** * Classifier: counting and sampling instructions per extension

    Models [BinaryInspector.count_instructions] (arm64.inspect.py, lines
    193-200), [find_sample_instructions] (lines 202-211) and the
    per-extension loop of [inspect] (lines 316-339).  Every call of
    [re.search(pattern, line)] compiles its pattern at the call, so a
    pattern that does not compile raises only when a line reaches it;
    [py_re_search] keeps that order.  The first section is written against
    the [Matcher] interface only; the second instantiates it with the
    regex engine of [Regex]/[RegexParse] and proves the facts that depend
    on what the patterns mean. *)

From Stdlib Require Import String Ascii List Bool Arith Lia ZArith Permutation QArith.
From S2P Require Import Prelude PyText Regex RegexParse Registry.
Import ListNotations.

Local Open Scope nat_scope.
Local Open Scope string_scope.

(** The accumulators of the loop of [inspect]: the lists [detected] and
    [undetected] and the OrderedDict [extension_results]. *)
Record ext_acc : Type := ExtAcc {
  detected : list string;
  undetected : list string;
  extension_results : list (string * pyval)
}.

Definition ext_acc0 : ext_acc := ExtAcc [] [] [].

(** [(count * 100.0) / total_insn if total_insn > 0 else 0.0], exactly. *)
Definition percentage (count total_insn : nat) : QArith_base.Q :=
  if Nat.ltb 0 total_insn
  then QArith_base.Qmake (Z.of_nat (count * 100)) (Pos.of_nat total_insn)
  else QArith_base.inject_Z 0.

(** The instruction-line discriminator of [count_instructions]. *)
Definition INSN_LINE : string := "^\s+[0-9a-f]+:".

(** The pattern [inspect] counts all instructions with. *)
Definition ANY_CHAR : string := ".".

(** [limit=5], the default of [find_sample_instructions]. *)
Definition DEFAULT_SAMPLE_LIMIT : Z := 5%Z.

(** [";".join(l) if l else "none"] (lines 338-339). *)
Definition join_or_none (l : list string) : string :=
  match l with [] => "none" | _ => join ";" l end.

Section Generic.
Context {P : Type} {M : Matcher P}.

(** [re.search(pattern, line)]: compile, then search. *)
Definition py_re_search (pattern line : string) : result bool :=
  match re_compile pattern with
  | Some p => Ok (re_search p line)
  | None => Raise (ReError pattern)
  end.

(** The loop body of [count_instructions]. *)
Fixpoint count_loop (pattern : string) (ls : list string) (count : nat) : result nat :=
  match ls with
  | [] => Ok count
  | line :: rest =>
      is_insn <- py_re_search INSN_LINE line ;;
      if is_insn then
        m <- py_re_search pattern line ;;
        count_loop pattern rest (if m then S count else count)
      else count_loop pattern rest count
  end.

Definition count_instructions (disasm pattern : string) : result nat :=
  count_loop pattern (lines disasm) 0.

(** The loop of [find_sample_instructions], with its [break]. *)
Fixpoint samples_loop (pattern : string) (limit : Z) (ls : list string)
    (samples : list string) : result (list string) :=
  match ls with
  | [] => Ok samples
  | line :: rest =>
      is_insn <- py_re_search INSN_LINE line ;;
      if is_insn then
        m <- py_re_search pattern line ;;
        if m then
          let samples' := (samples ++ [strip line])%list in
          if (limit <=? Z.of_nat (length samples'))%Z then Ok samples'
          else samples_loop pattern limit rest samples'
        else samples_loop pattern limit rest samples
      else samples_loop pattern limit rest samples
  end.

Definition find_sample_instructions (disasm pattern : string) (limit : Z)
  : result (list string) :=
  samples_loop pattern limit (lines disasm) [].

(** One iteration of [for ext_name, pattern in INSPECT_ARRAY.items()]. *)
Definition ext_step (ext_name : string) (count total_insn : nat) (acc : ext_acc) : ext_acc :=
  let r1 := od_set (ext_name ++ "_instructions") (PInt count) (extension_results acc) in
  let r2 := od_set (ext_name ++ "_instructions_percentage")
                   (PFloat (percentage count total_insn)) r1 in
  if Nat.ltb 0 count
  then ExtAcc (detected acc ++ [ext_name])%list (undetected acc) r2
  else ExtAcc (detected acc) (undetected acc ++ [ext_name])%list r2.

Fixpoint ext_loop (disasm : string) (total_insn : nat)
    (table : list (string * string)) (acc : ext_acc) : result ext_acc :=
  match table with
  | [] => Ok acc
  | (ext_name, pattern) :: rest =>
      count <- count_instructions disasm pattern ;;
      ext_loop disasm total_insn rest (ext_step ext_name count total_insn acc)
  end.

(** The classification part of [inspect] (lines 317-339): the total,
    then the loop over the table. *)
Definition classify (disasm : string) (table : list (string * string))
  : result (nat * ext_acc) :=
  total_insn <- count_instructions disasm ANY_CHAR ;;
  acc <- ext_loop disasm total_insn table ext_acc0 ;;
  Ok (total_insn, acc).

(** ** Reference definitions: the counts, separated from the loop *)

(** The count of every entry of a table, in table order. *)
Fixpoint ext_counts (disasm : string) (table : list (string * string))
  : result (list (string * nat)) :=
  match table with
  | [] => Ok []
  | (n, pat) :: rest =>
      c <- count_instructions disasm pat ;;
      cs <- ext_counts disasm rest ;;
      Ok ((n, c) :: cs)
  end.

(** The instruction lines a compiled pattern matches. *)
Definition matching (insn p : P) (ls : list string) : list string :=
  filter (fun l => re_search insn l && re_search p l) ls.

Section WithInsn.
Variable insn : P.
Hypothesis Hinsn : re_compile INSN_LINE = Some insn.

Lemma count_loop_spec pattern p ls c :
  re_compile pattern = Some p ->
  count_loop pattern ls c = Ok (c + length (matching insn p ls)).
Proof.
  intros Hp. revert c. induction ls as [|l ls IH]; intros c; simpl.
  - f_equal. lia.
  - unfold py_re_search at 1. rewrite Hinsn. simpl.
    destruct (re_search insn l); simpl.
    + unfold py_re_search. rewrite Hp. simpl.
      destruct (re_search p l); simpl; rewrite IH; f_equal; lia.
    + apply IH.
Qed.

(** [count_instructions] counts the instruction lines the pattern
    matches, and raises [re.error] exactly when that is not empty for
    a pattern that does not compile. *)
Lemma count_instructions_spec disasm pattern p :
  re_compile pattern = Some p ->
  count_instructions disasm pattern = Ok (length (matching insn p (lines disasm))).
Proof. intros Hp. unfold count_instructions. now rewrite (count_loop_spec _ p). Qed.

Lemma matching_cons insn' p l ls :
  matching insn' p (l :: ls) =
    if re_search insn' l && re_search p l then l :: matching insn' p ls
    else matching insn' p ls.
Proof. reflexivity. Qed.

Lemma samples_loop_spec pattern p limit ls acc :
  re_compile pattern = Some p ->
  (Z.of_nat (length acc) < limit)%Z ->
  samples_loop pattern limit ls acc =
    Ok (acc ++ firstn (Z.to_nat limit - length acc) (map strip (matching insn p ls)))%list.
Proof.
  intros Hp. revert acc. induction ls as [|l ls IH]; intros acc Hlt.
  - simpl. now rewrite firstn_nil, app_nil_r.
  - rewrite matching_cons. cbn [samples_loop].
    unfold py_re_search at 1. rewrite Hinsn. cbn [bind].
    destruct (re_search insn l); cbn [andb bind]; [|now apply IH].
    unfold py_re_search. rewrite Hp. cbn [bind].
    destruct (re_search p l); [|now apply IH].
    rewrite length_app. cbn [length map].
    destruct (limit <=? Z.of_nat (length acc + 1))%Z eqn:E.
    + apply Z.leb_le in E.
      replace (Z.to_nat limit - length acc) with 1 by lia. reflexivity.
    + apply Z.leb_gt in E. rewrite IH by (rewrite length_app; simpl; lia).
      replace (Z.to_nat limit - length acc)
        with (S (Z.to_nat limit - length (acc ++ [strip l])))
        by (rewrite length_app; simpl; lia).
      cbn [firstn]. now rewrite <- app_assoc.
Qed.

Lemma samples_loop_nonpos pattern p limit ls :
  re_compile pattern = Some p -> (limit <= 0)%Z ->
  samples_loop pattern limit ls [] = Ok (firstn 1 (map strip (matching insn p ls))).
Proof.
  intros Hp Hlim. induction ls as [|l ls IH]; simpl; [reflexivity|].
  unfold py_re_search at 1. rewrite Hinsn. simpl.
  destruct (re_search insn l); simpl; [|exact IH].
  unfold py_re_search. rewrite Hp. simpl.
  destruct (re_search p l); simpl; [|exact IH].
  replace (limit <=? 1)%Z with true by lia. reflexivity.
Qed.

(** The loop of [inspect] computes the counts of [ext_counts] and
    files each name by whether its count is positive. *)
Lemma ext_loop_counts disasm total table acc :
  ext_loop disasm total table acc =
    bind (ext_counts disasm table)
         (fun cs => Ok (fold_left (fun a nc => ext_step (fst nc) (snd nc) total a) cs acc)).
Proof.
  revert acc. induction table as [|[n pat] table IH]; intros acc; simpl; [reflexivity|].
  destruct (count_instructions disasm pat) as [c|e]; simpl; [|reflexivity].
  rewrite IH. destruct (ext_counts disasm table); reflexivity.
Qed.
End WithInsn.
End Generic.

(** ** Counts without compilation errors *)

Section Counts.
Context {P : Type} {M : Matcher P}.
Variable insn : P.
Hypothesis Hinsn : re_compile INSN_LINE = Some insn.

(** The count of one table entry: the instruction lines its pattern
    matches; none when the pattern does not compile. *)
Definition count_of (disasm pattern : string) : nat :=
  match re_compile pattern with
  | Some p => length (matching insn p (lines disasm))
  | None => 0
  end.

Lemma count_loop_result pattern ls c c' :
  count_loop pattern ls c = Ok c' ->
  c' = c + match re_compile pattern with
            | Some p => length (matching insn p ls)
            | None => 0
            end.
Proof.
  destruct (re_compile pattern) as [p|] eqn:Hp.
  - rewrite (count_loop_spec insn Hinsn pattern p) by exact Hp. congruence.
  - revert c. induction ls as [|l ls IH]; simpl; intros c H; [inv H; lia|].
    unfold py_re_search in H. rewrite Hinsn, Hp in H. simpl in H.
    destruct (re_search insn l); [discriminate|]. now apply IH.
Qed.

Lemma count_instructions_result disasm pattern c :
  count_instructions disasm pattern = Ok c -> c = count_of disasm pattern.
Proof. intros H. apply count_loop_result in H. exact H. Qed.

Lemma ext_counts_result disasm table cs :
  ext_counts disasm table = Ok cs ->
  cs = map (fun e => (fst e, count_of disasm (snd e))) table.
Proof.
  revert cs. induction table as [|[n pat] table IH]; simpl; intros cs H.
  - now inv H.
  - apply bind_Ok in H as (c & Hc & H). apply bind_Ok in H as (cs' & Hcs & H).
    inv H. apply count_instructions_result in Hc. subst.
    now rewrite (IH cs').
Qed.

Lemma ext_counts_ok disasm table :
  Forall (fun e => re_compile (snd e) <> None) table ->
  ext_counts disasm table = Ok (map (fun e => (fst e, count_of disasm (snd e))) table).
Proof.
  induction 1 as [|[n pat] table Hpat _ IH]; [reflexivity|]. simpl in *.
  destruct (re_compile pat) as [p|] eqn:Hp; [|contradiction].
  rewrite (count_instructions_spec insn Hinsn disasm pat p Hp). simpl.
  rewrite IH. simpl. unfold count_of. now rewrite Hp.
Qed.
End Counts.

(** ** The accumulators after the loop *)

Definition ext_fold (total : nat) (cs : list (string * nat)) (acc : ext_acc) : ext_acc :=
  fold_left (fun a nc => ext_step (fst nc) (snd nc) total a) cs acc.

(** The two entries one extension adds to [extension_results]. *)
Definition result_entries (total : nat) (nc : string * nat) : list (string * pyval) :=
  [(fst nc ++ "_instructions", PInt (snd nc));
   (fst nc ++ "_instructions_percentage", PFloat (percentage (snd nc) total))].

Lemma ext_fold_detected total cs acc :
  detected (ext_fold total cs acc) =
  (detected acc ++ map fst (filter (fun nc => Nat.ltb 0 (snd nc)) cs))%list.
Proof.
  unfold ext_fold. revert acc. induction cs as [|[n c] cs IH]; intros acc; simpl.
  - now rewrite app_nil_r.
  - rewrite IH. unfold ext_step. destruct (Nat.ltb 0 c); simpl;
      now rewrite <- ?app_assoc.
Qed.

Lemma ext_fold_undetected total cs acc :
  undetected (ext_fold total cs acc) =
  (undetected acc ++ map fst (filter (fun nc => negb (Nat.ltb 0 (snd nc))) cs))%list.
Proof.
  unfold ext_fold. revert acc. induction cs as [|[n c] cs IH]; intros acc; simpl.
  - now rewrite app_nil_r.
  - rewrite IH. unfold ext_step. destruct (Nat.ltb 0 c); simpl;
      now rewrite <- ?app_assoc.
Qed.

Lemma ext_step_results n c total acc :
  ~ In (n ++ "_instructions") (map fst (extension_results acc)) ->
  ~ In (n ++ "_instructions_percentage")
       (map fst (extension_results acc) ++ [(n ++ "_instructions")%string])%list ->
  extension_results (ext_step n c total acc) =
  (extension_results acc ++ result_entries total (n, c))%list.
Proof.
  intros H1 H2. unfold ext_step.
  rewrite (od_set_fresh (n ++ "_instructions")) by exact H1.
  rewrite od_set_fresh by (now rewrite map_app).
  destruct (Nat.ltb 0 c); simpl; now rewrite <- app_assoc.
Qed.

(** With distinct keys, every assignment of the loop appends. *)
Lemma ext_fold_results total cs acc :
  NoDup (map fst (extension_results acc) ++ map fst (flat_map (result_entries total) cs)) ->
  extension_results (ext_fold total cs acc) =
  (extension_results acc ++ flat_map (result_entries total) cs)%list.
Proof.
  unfold ext_fold. revert acc. induction cs as [|[n c] cs IH]; intros acc Hnd; simpl.
  - now rewrite app_nil_r.
  - simpl in Hnd. set (A := map fst (extension_results acc)) in *.
    set (K := map fst (flat_map (result_entries total) cs)) in *.
    assert (H1 := NoDup_mid_not_in _ _ _ Hnd).
    assert (Hnd' : NoDup ((A ++ [(n ++ "_instructions")%string]) ++
                          (n ++ "_instructions_percentage")%string :: K))
      by (now rewrite <- app_assoc).
    assert (H2 := NoDup_mid_not_in _ _ _ Hnd').
    rewrite IH; rewrite (ext_step_results n c total acc H1 H2).
    + now rewrite <- app_assoc.
    + rewrite map_app, <- app_assoc. exact Hnd.
Qed.

(** ** The classifier with the regex engine of the development *)

Definition hex_class : list cls_item := [CRange "0" "9"; CRange "a" "f"]%char.

(** [^\s+[0-9a-f]+:], compiled. *)
Definition insn_line_pattern : pattern :=
  Pattern true (RCat (RPlus (RSet false [CSpace]))
                 (RCat (RPlus (RSet false hex_class)) (RCat (RChar ":"%char) REps))).

(** [.], compiled. *)
Definition any_char_pattern : pattern := Pattern false (RCat RAny REps).

(** A line of the disassembly is an instruction line. *)
Definition is_insn_line (line : string) : bool := re_search insn_line_pattern line.

Lemma compile_insn_line : re_compile INSN_LINE = Some insn_line_pattern.
Proof. reflexivity. Qed.

Lemma compile_any_char : re_compile ANY_CHAR = Some any_char_pattern.
Proof. reflexivity. Qed.

Lemma set_space c : set_matches false [CSpace] c = is_space c.
Proof. unfold set_matches. simpl. now destruct (is_space c). Qed.

Lemma set_hex c : set_matches false hex_class c = is_hex_lower c.
Proof.
  unfold set_matches, hex_class, is_hex_lower. simpl.
  now destruct (_ && _), (_ && _).
Qed.

Lemma Forall_bool_ext {A} (f g : A -> bool) l :
  (forall x, f x = g x) -> Forall (fun x => f x = true) l <-> Forall (fun x => g x = true) l.
Proof.
  intros Hfg. split; apply Forall_impl; intros x; now rewrite Hfg.
Qed.

Lemma is_insn_line_prefix line :
  is_insn_line line = true <->
  exists v x, list_ascii_of_string line = (v ++ x)%list /\ lang (body insn_line_pattern) v.
Proof. apply match_prefix_correct. Qed.

(** The words of [\s+[0-9a-f]+:]. *)
Lemma insn_body_lang v :
  lang (body insn_line_pattern) v <->
  exists ws hs, v = (ws ++ hs ++ [":"%char])%list /\
    ws <> [] /\ Forall (fun c => is_space c = true) ws /\
    hs <> [] /\ Forall (fun c => is_hex_lower c = true) hs.
Proof.
  simpl. split.
  - intros H.
    apply lang_cat_iff in H as (ws & v1 & -> & Hws & H).
    apply lang_cat_iff in H as (hs & v2 & -> & Hhs & H).
    apply lang_cat_iff in H as (col & e & -> & Hc & He).
    apply lang_char_iff in Hc. apply lang_eps_iff in He. subst.
    apply lang_plus_set in Hws as [Hws1 Hws2]. apply lang_plus_set in Hhs as [Hhs1 Hhs2].
    apply (Forall_bool_ext _ _ _ set_space) in Hws2.
    apply (Forall_bool_ext _ _ _ set_hex) in Hhs2.
    exists ws, hs. now rewrite app_nil_r.
  - intros (ws & hs & -> & Hws1 & Hws2 & Hhs1 & Hhs2).
    apply lang_cat_iff; exists ws, (hs ++ [":"%char])%list.
    split; [reflexivity|]. split.
    { apply lang_plus_set. split; [exact Hws1|]. now apply (Forall_bool_ext _ _ _ set_space). }
    apply lang_cat_iff; exists hs, [":"%char]. split; [reflexivity|]. split.
    { apply lang_plus_set. split; [exact Hhs1|]. now apply (Forall_bool_ext _ _ _ set_hex). }
    apply (lang_cat _ _ [":"%char] []); constructor.
Qed.

(** C6: a disassembly line counts as an instruction iff it starts with a
    non-empty run of whitespace, then a non-empty run of lower-case hex
    digits, then a colon (spec, section 6). *)
Theorem insn_line_iff (line : string) :
  is_insn_line line = true <->
  exists ws hs rest, list_ascii_of_string line = (ws ++ hs ++ ":"%char :: rest)%list /\
    ws <> [] /\ Forall (fun c => is_space c = true) ws /\
    hs <> [] /\ Forall (fun c => is_hex_lower c = true) hs.
Proof.
  rewrite is_insn_line_prefix. split.
  - intros (v & x & E & Hv). apply insn_body_lang in Hv as (ws & hs & -> & H).
    exists ws, hs, x. split; [|exact H]. rewrite E. now rewrite <- !app_assoc.
  - intros (ws & hs & rest & E & H). exists (ws ++ hs ++ [":"%char])%list, rest.
    split; [rewrite E; now rewrite <- !app_assoc|].
    apply insn_body_lang. exists ws, hs. auto.
Qed.

Lemma insn_line_any (line : string) :
  is_insn_line line = true -> re_search any_char_pattern line = true.
Proof.
  intros H. apply is_insn_line_prefix in H as (v & x & E & Hv).
  apply insn_body_lang in Hv as (ws & hs & -> & _).
  change (re_search any_char_pattern line)
    with (search_from (RCat RAny REps) (list_ascii_of_string line)).
  apply search_any. exists ":"%char. split; [|reflexivity].
  rewrite E. apply in_or_app. left. apply in_or_app. right. apply in_or_app. right. now left.
Qed.

(** The number of instruction lines of a disassembly. *)
Definition insn_count (disasm : string) : nat := length (filter is_insn_line (lines disasm)).

(** [total_insn = self.count_instructions(disasm, r".")] is the number of
    instruction lines: [.] matches every one of them. *)
Lemma total_insn_spec disasm :
  count_instructions disasm ANY_CHAR = Ok (insn_count disasm).
Proof.
  rewrite (count_instructions_spec insn_line_pattern compile_insn_line
             disasm ANY_CHAR any_char_pattern compile_any_char).
  f_equal. unfold matching, insn_count. f_equal. apply filter_ext. intros l.
  change (re_search insn_line_pattern l) with (is_insn_line l).
  destruct (is_insn_line l) eqn:E; [|reflexivity]. simpl. now apply insn_line_any.
Qed.

(** The count of an extension pattern, with the regex engine. *)
Definition ext_count (disasm pattern : string) : nat := count_of insn_line_pattern disasm pattern.

(** The counts of the whole table. *)
Definition registry_counts (disasm : string) : list (string * nat) :=
  map (fun e => (fst e, ext_count disasm (snd e))) INSPECT_ARRAY.

(** The classification of any table: the total, then the loop over the
    counts; the first pattern that raises stops it. *)
Lemma classify_eq disasm table :
  classify disasm table =
  bind (ext_counts disasm table)
       (fun cs => Ok (insn_count disasm, ext_fold (insn_count disasm) cs ext_acc0)).
Proof.
  unfold classify. rewrite total_insn_spec. cbn [bind]. rewrite ext_loop_counts.
  destruct (ext_counts disasm table); reflexivity.
Qed.

Lemma registry_ext_counts disasm :
  ext_counts disasm INSPECT_ARRAY = Ok (registry_counts disasm).
Proof.
  exact (ext_counts_ok insn_line_pattern compile_insn_line disasm INSPECT_ARRAY registry_compiles).
Qed.

Lemma classify_registry_inv disasm total acc :
  classify disasm INSPECT_ARRAY = Ok (total, acc) ->
  total = insn_count disasm /\
  acc = ext_fold (insn_count disasm) (registry_counts disasm) ext_acc0.
Proof.
  rewrite classify_eq, registry_ext_counts. intros H.
  now apply Ok_inj, pair_equal_spec in H as [<- <-].
Qed.

(** C4: on the registry, the classification never raises (every pattern
    compiles, so no [re.error] can reach a line): it returns the number of
    instruction lines as the total and the loop run over the counts of
    the table, in table order. *)
Theorem classify_registry disasm :
  classify disasm INSPECT_ARRAY =
  Ok (insn_count disasm, ext_fold (insn_count disasm) (registry_counts disasm) ext_acc0).
Proof. now rewrite classify_eq, registry_ext_counts. Qed.

Lemma registry_counts_names disasm : map fst (registry_counts disasm) = registry_names.
Proof. unfold registry_counts, registry_names. rewrite map_map. reflexivity. Qed.

Lemma ext_count_le_total disasm pattern : ext_count disasm pattern <= insn_count disasm.
Proof.
  unfold ext_count, count_of, insn_count.
  destruct (re_compile pattern) as [p|]; [|lia].
  apply filter_incl_length. intros l _ H. now apply andb_prop in H as [H _].
Qed.

(** ** The detected/undetected partition *)

Lemma map_fst_filter_split {B} (f : string * B -> bool) (cs : list (string * B)) :
  Permutation (map fst (filter f cs) ++ map fst (filter (fun x => negb (f x)) cs)) (map fst cs).
Proof. rewrite <- map_app. apply Permutation_map, filter_split_Permutation. Qed.

(** C1: every extension of the table is either detected or undetected,
    never both, and appears once: [detected ++ undetected] is a
    permutation of the table's names without repetition (spec, section 8). *)
Theorem classify_partition disasm total acc :
  classify disasm INSPECT_ARRAY = Ok (total, acc) ->
  Permutation (detected acc ++ undetected acc) registry_names /\
  NoDup (detected acc ++ undetected acc).
Proof.
  intros H. apply classify_registry_inv in H as [-> ->].
  rewrite ext_fold_detected, ext_fold_undetected. cbn [detected undetected ext_acc0 app].
  rewrite <- (registry_counts_names disasm).
  assert (Hp := map_fst_filter_split (fun nc => Nat.ltb 0 (snd nc)) (registry_counts disasm)).
  split; [exact Hp|].
  apply (Permutation_NoDup (Permutation_sym Hp)).
  rewrite registry_counts_names. exact registry_names_NoDup.
Qed.

(** C10: the detected extensions are those whose pattern matches at least
    one instruction line, listed in the order of the table. *)
Theorem classify_detected disasm total acc :
  classify disasm INSPECT_ARRAY = Ok (total, acc) ->
  detected acc = map fst (filter (fun e => Nat.ltb 0 (ext_count disasm (snd e))) INSPECT_ARRAY).
Proof.
  intros H. apply classify_registry_inv in H as [-> ->].
  rewrite ext_fold_detected. cbn [detected ext_acc0 app]. unfold registry_counts.
  generalize INSPECT_ARRAY as t. intros t.
  induction t as [|e t IH]; cbn [map filter]; [reflexivity|].
  destruct (Nat.ltb 0 _); cbn [map fst snd]; now rewrite IH.
Qed.

(** ** Percentages *)

Lemma Zpos_of_nat n : n <> 0 -> Zpos (Pos.of_nat n) = Z.of_nat n.
Proof. intros H. rewrite <- positive_nat_Z, Nat2Pos.id by exact H. reflexivity. Qed.

Lemma percentage_bounds count total :
  count <= total -> (0 <= percentage count total <= 100)%Q.
Proof.
  intros Hle. unfold percentage. destruct (Nat.ltb_spec 0 total) as [Ht|Ht].
  - unfold Qle. cbn [Qnum Qden]. rewrite Zpos_of_nat by lia. lia.
  - unfold Qle. cbn [Qnum Qden inject_Z]. lia.
Qed.

Definition result_keys (names : list string) : list string :=
  flat_map (fun n => [n ++ "_instructions"; n ++ "_instructions_percentage"]) names.

Lemma result_entries_keys total cs :
  map fst (flat_map (result_entries total) cs) = result_keys (map fst cs).
Proof. induction cs as [|nc cs IH]; simpl; [reflexivity|]. now rewrite IH. Qed.

Lemma registry_result_keys_NoDup : NoDup (result_keys registry_names).
Proof. apply (nodupb_NoDup String.eqb String.eqb_eq). vm_compute. reflexivity. Qed.

(** The [extension_results] of the registry: two entries per extension,
    in table order, under distinct keys. *)
Lemma classify_results disasm total acc :
  classify disasm INSPECT_ARRAY = Ok (total, acc) ->
  extension_results acc = flat_map (result_entries total) (registry_counts disasm).
Proof.
  intros H. apply classify_registry_inv in H as [-> ->].
  rewrite ext_fold_results; [reflexivity|]. cbn [extension_results ext_acc0 map app].
  rewrite result_entries_keys, registry_counts_names. exact registry_result_keys_NoDup.
Qed.

(** C8: every percentage of [extension_results] lies between 0 and 100. *)
Theorem classify_percentage_bounds disasm total acc k q :
  classify disasm INSPECT_ARRAY = Ok (total, acc) ->
  In (k, PFloat q) (extension_results acc) -> (0 <= q <= 100)%Q.
Proof.
  intros H Hin. pose proof H as H'. apply classify_registry_inv in H' as [-> ->].
  rewrite (classify_results _ _ _ H) in Hin.
  apply in_flat_map in Hin as ([n c] & Hnc & Hin).
  unfold registry_counts in Hnc. apply in_map_iff in Hnc as ([n' src] & Hnc & _).
  inv Hnc. simpl in Hin.
  destruct Hin as [Hin|[Hin|[]]]; inv Hin.
  apply percentage_bounds, ext_count_le_total.
Qed.

(** ** Streams without instructions *)

(** C11: a disassembly with no instruction line (labels, headers, blank
    lines only) gives a total of 0, every count 0, every percentage 0.0, no
    detected extension and the whole table undetected (spec, section 8). *)
Theorem classify_no_instructions disasm :
  (forall l, In l (lines disasm) -> is_insn_line l = false) ->
  exists acc, classify disasm INSPECT_ARRAY = Ok (0, acc) /\
    detected acc = [] /\ undetected acc = registry_names /\
    extension_results acc = flat_map (result_entries 0) (map (fun n => (n, 0)) registry_names).
Proof.
  intros Hnone.
  assert (H0 : insn_count disasm = 0).
  { unfold insn_count. induction (lines disasm) as [|l ls IH]; [reflexivity|].
    simpl. rewrite (Hnone l (or_introl eq_refl)). apply IH.
    intros l' Hl'. apply Hnone. now right. }
  assert (Hc : registry_counts disasm = map (fun n => (n, 0)) registry_names).
  { unfold registry_counts, registry_names. rewrite map_map. apply map_ext.
    intros e. pose proof (ext_count_le_total disasm (snd e)). f_equal. lia. }
  exists (ext_fold 0 (registry_counts disasm) ext_acc0).
  rewrite classify_eq, registry_ext_counts, H0. split; [reflexivity|].
  rewrite ext_fold_detected, ext_fold_undetected, ext_fold_results, Hc.
  - cbn [detected undetected extension_results ext_acc0 app].
    generalize registry_names as ns. intros ns.
    repeat split; induction ns as [|n ns IH]; cbn [map filter fst snd]; simpl; congruence.
  - cbn [extension_results ext_acc0 map app].
    rewrite result_entries_keys, registry_counts_names. exact registry_result_keys_NoDup.
Qed.

(** ** Samples *)

(** [find_sample_instructions] returns the first [max 1 limit] matching
    instruction lines, stripped, in the order of the disassembly. *)
Lemma find_samples_spec disasm pat p limit :
  re_compile pat = Some p ->
  find_sample_instructions disasm pat limit =
  Ok (firstn (Z.to_nat (Z.max 1 limit)) (map strip (matching insn_line_pattern p (lines disasm)))).
Proof.
  intros Hp. unfold find_sample_instructions.
  destruct (Z.le_gt_cases limit 0) as [Hle|Hgt].
  - rewrite (samples_loop_nonpos insn_line_pattern compile_insn_line pat p) by assumption.
    now replace (Z.max 1 limit) with 1%Z by lia.
  - rewrite (samples_loop_spec insn_line_pattern compile_insn_line pat p) by (exact Hp || (simpl; lia)).
    simpl. rewrite Nat.sub_0_r. now replace (Z.max 1 limit) with limit by lia.
Qed.

(** C14: with a positive limit, the number of samples is the smaller of
    the limit and the count of the pattern. *)
Theorem find_samples_length disasm pat p limit samples :
  re_compile pat = Some p -> (1 <= limit)%Z ->
  find_sample_instructions disasm pat limit = Ok samples ->
  length samples = Nat.min (Z.to_nat limit) (ext_count disasm pat).
Proof.
  intros Hp Hlim H. rewrite (find_samples_spec _ _ p) in H by exact Hp.
  apply Ok_inj in H. subst. rewrite length_firstn, length_map.
  unfold ext_count, count_of. rewrite Hp. f_equal. lia.
Qed.

(** C19: with [limit=0], [find_sample_instructions] still returns one
    sample whenever the pattern matches: the [break] test
    [len(samples) >= limit] comes after the first [append]. *)
Theorem find_samples_limit_zero disasm pat p :
  re_compile pat = Some p -> 0 < ext_count disasm pat ->
  exists s, find_sample_instructions disasm pat 0 = Ok [s].
Proof.
  intros Hp Hc. rewrite (find_samples_spec _ _ p) by exact Hp.
  unfold ext_count, count_of in Hc. rewrite Hp in Hc.
  destruct (matching insn_line_pattern p (lines disasm)) as [|l ls]; [simpl in Hc; lia|].
  now exists (strip l).
Qed.

(** ** Concrete lines *)

(** The count vector that is [1] at one extension and [0] elsewhere. *)
Definition only (name : string) : list (string * nat) :=
  map (fun e => (fst e, if String.eqb (fst e) name then 1 else 0)) INSPECT_ARRAY.

(** The instruction line of the spec's example. *)
Definition sdot_line : string := "  401000: sdot v0.4s, v1.16b, v2.16b".

(** A [nop] at address [0xfadd0], as llvm-objdump prints it. *)
Definition nop_at_fadd0 : string := "   fadd0: 1f 20 03 d5   nop".

(** [sbfx], a bit-field extract of the base ISA. *)
Definition sbfx_line : string := "    4010: 00 1c 40 93   sbfx x0, x0, #0, #8".

(** [stlr], a store-release of the base ARMv8.0 ISA. *)
Definition stlr_line : string := "    4014: 20 fc 9f 88   stlr w0, [x1]".

(** The instruction line of the spec's example is counted once, for
    [asimddp], and for no other extension (spec, section 8). *)
Theorem sdot_line_counts : registry_counts sdot_line = only "asimddp".
Proof. vm_compute. reflexivity. Qed.

(** A [nop] at address [0xfadd0] is counted as an ASIMD instruction:
    the rule [\s(fadd|...)] matches the address field, which llvm-objdump
    prints after leading whitespace, although the spec (section 4.1) asks
    that no rule match an address. *)
Theorem nop_at_fadd0_counts : registry_counts nop_at_fadd0 = only "asimd".
Proof. vm_compute. reflexivity. Qed.

(** [sbfx] is counted as the speculation barrier [sb]: the rule
    [\ssb] has no boundary after the mnemonic. *)
Theorem sbfx_line_counts : registry_counts sbfx_line = only "sb".
Proof. vm_compute. reflexivity. Qed.

(** [stlr], which ARMv8.0 already has, is counted as the [lrcpc]
    extension. *)
Theorem stlr_line_counts : registry_counts stlr_line = only "lrcpc".
Proof. vm_compute. reflexivity. Qed.

(** ** Witnesses *)

(** The loop's accumulators on the example line. *)
Definition sdot_acc : ext_acc := ext_fold 1 (registry_counts sdot_line) ext_acc0.

Lemma classify_partition_witness :
  Permutation (detected sdot_acc ++ undetected sdot_acc) registry_names /\
  NoDup (detected sdot_acc ++ undetected sdot_acc).
Proof. apply (classify_partition sdot_line 1 sdot_acc). vm_compute. reflexivity. Defined.

Lemma classify_detected_witness :
  detected sdot_acc =
  map fst (filter (fun e => Nat.ltb 0 (ext_count sdot_line (snd e))) INSPECT_ARRAY).
Proof. apply (classify_detected sdot_line 1 sdot_acc). vm_compute. reflexivity. Defined.

Lemma classify_percentage_bounds_witness :
  (0 <= percentage 1 1 <= 100)%Q.
Proof.
  apply (classify_percentage_bounds sdot_line 1 sdot_acc "asimddp_instructions_percentage").
  - vm_compute. reflexivity.
  - vm_compute. repeat (first [left; reflexivity | right]).
Defined.

(** A disassembly with a header and a label but no instruction. *)
Definition header_only : string :=
  "Disassembly of section .text:" ++ String "010" ("0000000000001000 <main>:").

Lemma classify_no_instructions_witness :
  exists acc, classify header_only INSPECT_ARRAY = Ok (0, acc) /\
    detected acc = [] /\ undetected acc = registry_names /\
    extension_results acc = flat_map (result_entries 0) (map (fun n => (n, 0)) registry_names).
Proof.
  apply classify_no_instructions. intros l Hl. vm_compute in Hl.
  destruct Hl as [<-|[<-|[]]]; vm_compute; reflexivity.
Defined.

Lemma find_samples_length_witness :
  length [strip sdot_line] = Nat.min 5 (ext_count sdot_line "\s(sdot|udot)").
Proof.
  eapply (find_samples_length sdot_line "\s(sdot|udot)" _ 5).
  - vm_compute. reflexivity.
  - lia.
  - vm_compute. reflexivity.
Defined.

Lemma find_samples_limit_zero_witness :
  exists s, find_sample_instructions sdot_line "\s(sdot|udot)" 0 = Ok [s].
Proof.
  eapply (find_samples_limit_zero sdot_line "\s(sdot|udot)").
  - vm_compute. reflexivity.
  - vm_compute. lia.
Defined.
