(* ===== verification/Rules.v ===== *)
(** * Rules: what the rules of [INSPECT_ARRAY] count

    Every rule of the registry (arm64.inspect.py, lines 30-87) is searched
    in every instruction line (lines 193-200, 325-326).  Several rules are
    a whitespace character followed by one of a few words, [\s(w1|w2)]:
    this file characterises their counts with an independent scanner,
    [ws_then] (some whitespace character of the line is directly followed
    by one of the words), so the count of such a rule is the number of
    instruction lines in which a mnemonic, or any other field, starts
    with one of its words.  Nothing ends the word: [\ssb] counts [sbfx],
    [sbc] and [sbfiz], and [\s(ldapr|stlr)] counts every [stlr], [stlrb]
    and [stlrh] of ARMv8.0.

    The [asimd] rule searches the whole line, address included: every
    instruction line whose address begins with [fadd] is counted as
    ASIMD, whatever its instruction, although the spec (section 4.1) asks
    that no rule match an address field. *)

From Stdlib Require Import String Ascii List Bool Arith Lia.
From S2P Require Import Prelude PyText Regex RegexParse RegexIgnoreCase RegexCapture.
From S2P Require Import Registry Classifier.
Import ListNotations.

(** ** The counts of the report *)

(** [results[name + "_instructions"]]: the count of the table entry
    [name]. *)
Definition registry_count (name disasm : string) : option nat :=
  option_map snd (find (fun e => String.eqb (fst e) name) (registry_counts disasm)).

(** The pattern a rule text compiles to. *)
Definition rule_pattern (s : string) : pattern :=
  match compile (list_ascii_of_string s) with Some p => p | None => Pattern false REmpty end.

(** The instruction lines a rule counts. *)
Definition rule_lines (pat disasm : string) : list string :=
  filter (fun l => is_insn_line l && pattern_search (rule_pattern pat) (list_ascii_of_string l))
         (lines disasm).

(** The rule of [asimd] (line 31). *)
Definition asimd_rule : string :=
  "\s(fadd|fmul|ld1|st1|saddl|uaddl|sqadd|movi|add\s+v|sub\s+v|mul\s+v|ld[234]|st[234]|umull|smull)".

(** ** An independent scanner *)

Fixpoint is_prefix (w l : text) : bool :=
  match w, l with
  | [], _ => true
  | a :: w', b :: l' => Ascii.eqb a b && is_prefix w' l'
  | _ :: _, [] => false
  end.

(** Some whitespace character of [l] is directly followed by one of
    [words]. *)
Fixpoint ws_then (words : list text) (l : text) : bool :=
  match l with
  | [] => false
  | c :: r => (is_space c && existsb (fun w => is_prefix w r) words) || ws_then words r
  end.

(** The words of a regular expression, when it has finitely many. *)
Definition lang_words (r : regex) (words : list text) : Prop :=
  forall v, lang r v <-> In v words.

(** ** Lemmas *)

Lemma find_map {A B} (p : B -> bool) (f : A -> B) l :
  find p (map f l) = option_map f (find (fun x => p (f x)) l).
Proof. induction l as [|x l IH]; simpl; [reflexivity|]. now destruct (p (f x)). Qed.

Lemma registry_count_entry name pat disasm :
  find (fun e => String.eqb (fst e) name) INSPECT_ARRAY = Some (name, pat) ->
  registry_count name disasm = Some (ext_count disasm pat).
Proof.
  intros H. unfold registry_count, registry_counts. rewrite find_map. cbn [fst].
  now rewrite H.
Qed.

Lemma ext_count_compiled disasm pat p :
  compile (list_ascii_of_string pat) = Some p ->
  ext_count disasm pat
  = length (filter (fun l => is_insn_line l && pattern_search p (list_ascii_of_string l)) (lines disasm)).
Proof. intros H. unfold ext_count, count_of. cbn [re_compile regex_matcher]. now rewrite H. Qed.

Lemma is_prefix_iff w l : is_prefix w l = true <-> exists x, l = w ++ x.
Proof.
  revert l. induction w as [|a w IH]; intros [|b l]; cbn [is_prefix app].
  - split; eauto.
  - split; eauto.
  - split; [discriminate|intros (x & H); discriminate].
  - rewrite andb_true_iff, Ascii.eqb_eq, IH. split.
    + intros (-> & x & ->). eauto.
    + intros (x & H). inv H. eauto.
Qed.

Lemma ws_then_iff words l :
  ws_then words l = true <->
  exists u c w x, l = u ++ c :: w ++ x /\ is_space c = true /\ In w words.
Proof.
  induction l as [|c l IH]; cbn [ws_then].
  - split; [discriminate|]. intros (u & c & w & x & H & _). destruct u; discriminate.
  - rewrite orb_true_iff, andb_true_iff, existsb_exists, IH. split.
    + intros [(Hc & w & Hw & Hp)|(u & d & w & x & -> & Hd & Hw)].
      * apply is_prefix_iff in Hp as (x & ->). exists [], c, w, x. auto.
      * exists (c :: u), d, w, x. auto.
    + intros ([|a u] & d & w & x & H & Hd & Hw); inv H.
      * left. split; [exact Hd|]. exists w. split; [exact Hw|]. apply is_prefix_iff. eauto.
      * right. exists u, d, w, x. auto.
Qed.

Lemma lang_words_lit w : lang_words (lit w REps) [w].
Proof.
  intros v. rewrite lang_lit. cbn [In]. split.
  - intros (x & -> & Hx). apply lang_eps_iff in Hx as ->. left. symmetry. apply app_nil_r.
  - intros [<-|[]]. exists []. rewrite app_nil_r. split; [reflexivity|constructor].
Qed.

Lemma lang_words_alt r1 r2 ws1 ws2 :
  lang_words r1 ws1 -> lang_words r2 ws2 -> lang_words (RAlt r1 r2) (ws1 ++ ws2).
Proof. unfold lang_words. intros H1 H2 v. rewrite lang_alt_iff, in_app_iff, H1, H2. reflexivity. Qed.

Lemma lang_words_cat_eps r ws : lang_words r ws -> lang_words (RCat r REps) ws.
Proof.
  unfold lang_words. intros H v. rewrite lang_cat_iff, <- H. split.
  - intros (u & x & -> & Hu & Hx). apply lang_eps_iff in Hx as ->. now rewrite app_nil_r.
  - intros Hv. exists v, []. rewrite app_nil_r. auto with anicet.
Qed.

(** [\s] followed by a finite set of words: the scanner decides the
    search. *)
Lemma search_ws_words r words l :
  lang_words r words ->
  search_from (RCat (RSet false [CSpace]) r) l = ws_then words l.
Proof.
  intros Hr. apply Bool.eq_iff_eq_true. rewrite search_from_correct, ws_then_iff. split.
  - intros (u & v & x & -> & Hv). apply lang_cat_iff in Hv as (a & w & -> & Ha & Hw).
    apply lang_set_iff in Ha as (c & -> & Hc). rewrite set_space in Hc. apply Hr in Hw.
    exists u, c, w, x. auto.
  - intros (u & c & w & x & -> & Hc & Hw). exists u, (c :: w), x. split; [reflexivity|].
    apply (lang_cat _ _ [c] w); [constructor; now rewrite set_space|now apply Hr].
Qed.

Lemma rule_lines_count name pat disasm :
  find (fun e => String.eqb (fst e) name) INSPECT_ARRAY = Some (name, pat) /\
  compile (list_ascii_of_string pat) = Some (rule_pattern pat) ->
  registry_count name disasm = Some (length (rule_lines pat disasm)).
Proof.
  intros [Hf Hc]. rewrite (registry_count_entry _ _ _ Hf). f_equal.
  exact (ext_count_compiled _ _ _ Hc).
Qed.

(** The count of a rule [\s(w1|...)]: the instruction lines in which a
    whitespace character is followed by one of the words. *)
Lemma ws_rule_count name pat r words disasm :
  find (fun e => String.eqb (fst e) name) INSPECT_ARRAY = Some (name, pat) ->
  compile (list_ascii_of_string pat) = Some (Pattern false (RCat (RSet false [CSpace]) r)) ->
  lang_words r words ->
  registry_count name disasm
  = Some (length (filter (fun l => is_insn_line l && ws_then words (list_ascii_of_string l))
                         (lines disasm))).
Proof.
  intros Hf Hc Hr. rewrite (registry_count_entry _ _ _ Hf), (ext_count_compiled _ _ _ Hc).
  do 2 f_equal. apply filter_ext. intros l. unfold pattern_search. cbn [anchored body].
  now rewrite (search_ws_words _ _ _ Hr).
Qed.

Lemma match_prefix_app r w t : match_prefix r w = true -> match_prefix r (w ++ t) = true.
Proof.
  rewrite !match_prefix_correct. intros (v & x & -> & Hv). exists v, (x ++ t).
  rewrite app_assoc. auto.
Qed.

Lemma search_from_app r u w : match_prefix r w = true -> search_from r (u ++ w) = true.
Proof.
  intros H. induction u as [|a u IH]; cbn [app search_from].
  - destruct w; cbn [search_from]; now rewrite H.
  - now rewrite IH, orb_true_r.
Qed.

(** The [asimd] rule accepts a whitespace character followed by [fadd]. *)
Lemma asimd_fadd c :
  is_space c = true ->
  match_prefix (body (rule_pattern asimd_rule)) (c :: list_ascii_of_string "fadd") = true.
Proof. revert c. apply forall_ascii_imp. vm_compute. reflexivity. Qed.

(** ** What three rules count *)

(** C20: the [sb] (speculation barrier) rule [\ssb] counts the
    instruction lines in which a whitespace character is followed by
    [sb], with nothing after it: [sbfx], [sbc] and [sbfiz] lines all count
    as speculation barriers. *)
Theorem sb_rule_counts disasm :
  registry_count "sb" disasm
  = Some (length (filter (fun l => is_insn_line l &&
                                   ws_then [list_ascii_of_string "sb"] (list_ascii_of_string l))
                         (lines disasm))).
Proof.
  apply (ws_rule_count _ "\ssb" (lit (list_ascii_of_string "sb") REps));
    [vm_compute; reflexivity|vm_compute; reflexivity|apply lang_words_lit].
Qed.

(** C21: the [lrcpc] rule [\s(ldapr|stlr)] counts the instruction lines
    in which a whitespace character is followed by [ldapr] or [stlr]: the
    store-release [stlr] (and [stlrb], [stlrh]) of ARMv8.0 counts as the
    LRCPC extension. *)
Theorem lrcpc_rule_counts disasm :
  registry_count "lrcpc" disasm
  = Some (length (filter (fun l => is_insn_line l &&
                                   ws_then [list_ascii_of_string "ldapr"; list_ascii_of_string "stlr"]
                                           (list_ascii_of_string l))
                         (lines disasm))).
Proof.
  apply (ws_rule_count _ "\s(ldapr|stlr)"
           (RCat (RAlt (lit (list_ascii_of_string "ldapr") REps) (lit (list_ascii_of_string "stlr") REps)) REps));
    [vm_compute; reflexivity|vm_compute; reflexivity|].
  apply lang_words_cat_eps. exact (lang_words_alt _ _ _ _ (lang_words_lit _) (lang_words_lit _)).
Qed.

(** C17: in any disassembly, every instruction line whose address
    begins with [fadd] is among the lines the [asimd] rule counts,
    whatever the instruction after it: the rule [\s(fadd|...)] matches
    the address field, which llvm-objdump prints after leading
    whitespace, although the spec (section 4.1) asks that no rule match
    an address. *)
Theorem asimd_counts_fadd_address disasm ws hs rest :
  ws <> [] -> Forall (fun c => is_space c = true) ws -> Forall (fun c => is_hex_lower c = true) hs ->
  In (string_of_list_ascii (ws ++ list_ascii_of_string "fadd" ++ hs ++ ":"%char :: rest)) (lines disasm) ->
  registry_count "asimd" disasm = Some (length (rule_lines asimd_rule disasm)) /\
  In (string_of_list_ascii (ws ++ list_ascii_of_string "fadd" ++ hs ++ ":"%char :: rest))
     (rule_lines asimd_rule disasm).
Proof.
  intros Hne Hws Hhs Hin. split; [apply rule_lines_count; split; vm_compute; reflexivity|].
  apply filter_In. split; [exact Hin|]. rewrite list_ascii_of_string_of_list_ascii.
  apply andb_true_iff. split.
  - apply insn_line_iff. rewrite list_ascii_of_string_of_list_ascii.
    exists ws, (list_ascii_of_string "fadd" ++ hs), rest. rewrite <- app_assoc.
    split; [reflexivity|]. repeat split; auto; [discriminate|].
    apply Forall_app. split; [repeat constructor|exact Hhs].
  - destruct (exists_last Hne) as (u & c & ->). rewrite Forall_app in Hws.
    destruct Hws as [_ Hc]. inv Hc. unfold pattern_search. cbn [anchored].
    rewrite <- app_assoc. cbn [app]. apply search_from_app.
    apply (match_prefix_app _ (c :: list_ascii_of_string "fadd")). now apply asimd_fadd.
Qed.

(** ** Witnesses *)

Lemma asimd_counts_fadd_address_witness :
  registry_count "asimd" nop_at_fadd0 = Some (length (rule_lines asimd_rule nop_at_fadd0)) /\
  In (string_of_list_ascii (list_ascii_of_string "   " ++ list_ascii_of_string "fadd"
                            ++ list_ascii_of_string "0" ++ ":"%char :: list_ascii_of_string " 1f 20 03 d5   nop"))
     (rule_lines asimd_rule nop_at_fadd0).
Proof.
  apply asimd_counts_fadd_address;
    [discriminate|repeat constructor|repeat constructor|vm_compute; left; reflexivity].
Defined.
