(* ===== verification/FileInfo.v ===== *)
(** * FileInfo: [BinaryInspector.parse_file_info]

    [parse_file_info] (arm64.inspect.py, lines 246-304) turns the one-line
    output of [file <binary>] into the metadata fields of the report: it
    drops the text up to the first colon, reads seven fields as group 1 of
    a [re.match] or [re.search] (with a default when there is no match)
    and three flags with [in].  The groups are computed with the
    backtracking matcher of [RegexCapture], so a field holds the text
    Python's engine captures.

    The theorems show that the function never raises, what each captured
    field can look like ([binary_format] starts with ["ELF "] and has no
    comma, [build_id_sha1] is lower-case hexadecimal), that for any path
    holding a colon the format is lost, and, on a concrete line of
    [file], the fields of an Android binary. *)

From Stdlib Require Import String Ascii List Bool Arith Lia.
From S2P Require Import Prelude PyText Regex RegexParse RegexCapture.
Import ListNotations.

Local Open Scope string_scope.

(** The dictionary [parse_file_info] returns (lines 293-304). *)
Record file_fields : Type := FileFields {
  binary_format : string;
  arch : string;
  elf_version : string;
  dynamically_linked : bool;
  interpreter : string;
  android_api : string;
  builder : string;
  build_id_sha1 : string;
  debug_info : bool;
  stripped : bool
}.

(** [m.group(1) if m else default]. *)
Definition or_default (default : string) (m : option string) : string :=
  match m with Some g => g | None => default end.

(** Lines 249-250: [if ":" in file_info: file_info = file_info.split(":", 1)[1].strip()]. *)
Definition strip_file_prefix (file_info : string) : string :=
  if contains ":" file_info then strip (after_first ":" file_info) else file_info.

Definition parse_file_info (file_info0 : string) : result file_fields :=
  let file_info := strip_file_prefix file_info0 in
  binary_format_match <- re_group1 true "" "ELF [^,]+" "" file_info ;;
  arch_match <- re_group1 false "" "ARM aarch64|x86-64|i386|MIPS" "" file_info ;;
  version_match <- re_group1 false "" "version \d+ \([^)]+\)" "" file_info ;;
  interpreter_match <- re_group1 false "interpreter " "[^,]+" "" file_info ;;
  android_match <- re_group1 false "for " "Android \d+" "" file_info ;;
  builder_match <- re_group1 false "built by " "NDK [^,]+" "" file_info ;;
  buildid_match <- re_group1 false "BuildID\[sha1\]=" "[0-9a-f]+" "" file_info ;;
  Ok {| binary_format := or_default "unknown" binary_format_match;
        arch := or_default "unknown" arch_match;
        elf_version := or_default "unknown" version_match;
        dynamically_linked := contains "dynamically linked" file_info;
        interpreter :=
          match interpreter_match with Some g => strip g | None => "none" end;
        android_api := or_default "none" android_match;
        builder := or_default "unknown" builder_match;
        build_id_sha1 := or_default "none" buildid_match;
        debug_info := contains "with debug_info" file_info;
        stripped := contains "stripped" file_info && negb (contains "not stripped" file_info) |}.

(** ** Lemmas *)

(** Rewrite every [re_group1] of a goal with its compiled pattern (all
    the patterns of [parse_file_info] compile). *)
Ltac rewrite_groups :=
  repeat match goal with
  | |- context [re_group1 ?a ?pre ?grp ?post ?s] =>
      let c := eval vm_compute in (compile_cpattern pre grp post) in
      match c with
      | Some ?q =>
          rewrite (re_group1_compiled a pre grp post q s ltac:(vm_compute; reflexivity))
      end
  end; cbn [bind].

Lemma list_ascii_string_id l : list_ascii_of_string (string_of_list_ascii l) = l.
Proof. apply list_ascii_of_string_of_list_ascii. Qed.

(** [[^,]+]: a non-empty run without a comma. *)
Lemma lang_no_comma_plus x :
  lang (RCat (RPlus (RSet true [CChar ","%char])) REps) x -> x <> [] /\ ~ In ","%char x.
Proof.
  rewrite lang_cat_iff. intros (u & v & -> & Hu & Hv). apply lang_eps_iff in Hv as ->.
  rewrite app_nil_r. apply lang_plus_set in Hu as [Hne Hall]. split; [exact Hne|].
  intros Hin. rewrite Forall_forall in Hall. specialize (Hall _ Hin). discriminate.
Qed.

(** [[0-9a-f]+]: a non-empty run of lower-case hexadecimal digits. *)
Lemma lang_hex_plus x :
  lang (RCat (RPlus (RSet false [CRange "0" "9"; CRange "a" "f"])) REps) x ->
  x <> [] /\ Forall (fun c => is_hex_lower c = true) x.
Proof.
  rewrite lang_cat_iff. intros (u & v & -> & Hu & Hv). apply lang_eps_iff in Hv as ->.
  rewrite app_nil_r. apply lang_plus_set in Hu as [Hne Hall]. split; [exact Hne|].
  eapply Forall_impl; [|exact Hall]. intros c. unfold set_matches, is_hex_lower. simpl.
  now rewrite orb_false_r.
Qed.

Lemma after_first_app d t :
  ~ In ":"%char (list_ascii_of_string d) -> after_first ":" (d ++ String ":" t) = t.
Proof.
  induction d as [|a d IH]; intros H; cbn [append after_first]; [reflexivity|].
  cbn [list_ascii_of_string In] in H. destruct (Ascii.eqb_spec a ":"); [tauto|]. apply IH. tauto.
Qed.

Lemma contains_colon d t : contains ":" (d ++ String ":" t) = true.
Proof.
  unfold contains. cbn [list_ascii_of_string].
  induction d as [|a d IH]; cbn [append list_ascii_of_string contains_l];
    [reflexivity|now rewrite IH, orb_true_r].
Qed.

(** [lstrip] keeps everything from the first character that is not
    whitespace. *)
Lemma lstrip_snoc u c :
  is_space c = false -> exists v, lstrip (string_of_list_ascii (u ++ [c])) = string_of_list_ascii (v ++ [c]).
Proof.
  intros Hc. induction u as [|a u IH]; cbn [app string_of_list_ascii lstrip].
  - rewrite Hc. now exists [].
  - destruct (is_space a); [exact IH|]. now exists (a :: u).
Qed.

(** [strip()] of a text that starts with a character that is not
    whitespace starts with that character. *)
Lemma strip_nonspace c t : is_space c = false -> exists t', strip (String c t) = String c t'.
Proof.
  intros Hc. unfold strip, rstrip. cbn [lstrip]. rewrite Hc.
  cbn [list_ascii_of_string rev]. destruct (lstrip_snoc (rev (list_ascii_of_string t)) c Hc) as (v & ->).
  rewrite list_ascii_of_string_of_list_ascii, rev_app_distr. cbn. eauto.
Qed.

(** Every pattern compiles, so [parse_file_info] never raises. *)
Lemma parse_file_info_ok s : exists f, parse_file_info s = Ok f.
Proof. unfold parse_file_info. rewrite_groups. eexists. reflexivity. Qed.

(** ** The fields *)

(** C32: [binary_format] is ["unknown"] or ["ELF "] followed by a
    non-empty run without a comma, and [parse_file_info] never raises. *)
Theorem parse_file_info_binary_format s :
  exists f, parse_file_info s = Ok f /\
    (binary_format f = "unknown" \/
     exists x, list_ascii_of_string (binary_format f) = (list_ascii_of_string "ELF " ++ x)%list
               /\ x <> [] /\ ~ In ","%char x).
Proof.
  unfold parse_file_info. rewrite_groups. eexists. split; [reflexivity|]. cbn [binary_format].
  destruct (cp_at _ _) as [g|] eqn:E; [right|left; reflexivity].
  apply cp_at_group in E.
  apply (lang_lit (list_ascii_of_string "ELF ")) in E as (x & -> & Hx).
  cbn [or_default option_map]. rewrite list_ascii_string_id.
  exists x. split; [reflexivity|]. now apply lang_no_comma_plus.
Qed.

(** [build_id_sha1] is ["none"] or a non-empty run of lower-case
    hexadecimal digits. *)
Theorem parse_file_info_build_id s :
  exists f, parse_file_info s = Ok f /\
    (build_id_sha1 f = "none" \/
     (list_ascii_of_string (build_id_sha1 f) <> [] /\
      Forall (fun c => is_hex_lower c = true) (list_ascii_of_string (build_id_sha1 f)))).
Proof.
  unfold parse_file_info. rewrite_groups. eexists. split; [reflexivity|]. cbn [build_id_sha1].
  match goal with |- context [cp_search ?p ?w] => destruct (cp_search p w) as [g|] eqn:E end;
    [right|left; reflexivity].
  apply cp_search_group, lang_hex_plus in E.
  cbn [or_default option_map]. now rewrite list_ascii_string_id.
Qed.

(** ** Lines of [file] *)

Definition android_line : string :=
  "/data/local/tmp/x265: ELF 64-bit LSB pie executable, ARM aarch64, version 1 (SYSV), dynamically linked, interpreter /system/bin/linker64, for Android 29, built by NDK r25c (9519653), BuildID[sha1]=4a1f2f6c0e1b7d3c9e8f0a1b2c3d4e5f60718293, stripped".

(** The same binary under a directory whose name holds a colon. *)
Definition colon_path_line : string :=
  "/tmp/a:b/x265: ELF 64-bit LSB pie executable, ARM aarch64, version 1 (SYSV), dynamically linked, interpreter /system/bin/linker64, for Android 29, built by NDK r25c (9519653), BuildID[sha1]=4a1f2f6c0e1b7d3c9e8f0a1b2c3d4e5f60718293, stripped".

Definition android_fields (fmt : string) : file_fields := {|
  binary_format := fmt;
  arch := "ARM aarch64";
  elf_version := "version 1 (SYSV)";
  dynamically_linked := true;
  interpreter := "/system/bin/linker64";
  android_api := "Android 29";
  builder := "NDK r25c (9519653)";
  build_id_sha1 := "4a1f2f6c0e1b7d3c9e8f0a1b2c3d4e5f60718293";
  debug_info := false;
  stripped := true |}.

(** The fields of the [file] line of an Android aarch64 binary. *)
Theorem parse_file_info_android :
  parse_file_info android_line = Ok (android_fields "ELF 64-bit LSB pie executable").
Proof. vm_compute. reflexivity. Qed.

(** When the path holds a colon, [split(":", 1)] cuts inside the
    path, [re.match] no longer sees [ELF] at the start, and the format is
    lost; the other fields are found by [re.search] anyway. *)
Theorem parse_file_info_colon_path_android :
  parse_file_info colon_path_line = Ok (android_fields "unknown").
Proof. vm_compute. reflexivity. Qed.

(** ["not stripped"] holds ["stripped"]; the flag tells them apart. *)
Theorem parse_file_info_not_stripped :
  exists f, parse_file_info "bin: ELF 64-bit LSB executable, ARM aarch64, with debug_info, not stripped" = Ok f
            /\ stripped f = false /\ debug_info f = true.
Proof. eexists. split; [vm_compute; reflexivity|split; reflexivity]. Qed.

(** C33: when the path [file] prints holds a colon after a colon-free
    directory part [d], [split(":", 1)] cuts inside the path, so
    [re.match("ELF [^,]+")] sees the rest of the path instead of the
    description: whatever [file] says about the binary, [binary_format]
    is ["unknown"] (unless that rest of the path itself starts with
    [E] or whitespace). *)
Theorem parse_file_info_colon_path d c q desc :
  ~ In ":"%char (list_ascii_of_string d) -> c <> "E"%char -> is_space c = false ->
  exists f, parse_file_info (d ++ ":" ++ String c q ++ ": " ++ desc) = Ok f /\
            binary_format f = "unknown".
Proof.
  intros Hd HcE Hc. unfold parse_file_info.
  destruct (strip_nonspace c (q ++ ": " ++ desc) Hc) as (t & Ht).
  assert (Hs : strip_file_prefix (d ++ ":" ++ String c q ++ ": " ++ desc) = String c t).
  { unfold strip_file_prefix. cbn [append]. rewrite contains_colon, after_first_app by exact Hd.
    exact Ht. }
  rewrite Hs. rewrite_groups. eexists. split; [reflexivity|]. cbn [binary_format].
  destruct (cp_at _ _) as [g|] eqn:E; [exfalso|reflexivity].
  apply cp_at_sound in E as (a & c' & d' & Ew & Ha & Hg & _). cbn [cp_pre cp_group] in Ha, Hg.
  apply lang_eps_iff in Ha as ->. apply (lang_lit (list_ascii_of_string "ELF ")) in Hg as (x & -> & _).
  cbn in Ew. injection Ew as Ec _. exact (HcE Ec).
Qed.

Lemma parse_file_info_colon_path_witness :
  exists f, parse_file_info ("/tmp/a" ++ ":" ++ String "b" "/x265" ++ ": " ++
     "ELF 64-bit LSB pie executable, ARM aarch64, version 1 (SYSV), dynamically linked") = Ok f /\
            binary_format f = "unknown".
Proof.
  apply parse_file_info_colon_path; [cbn; intuition discriminate|discriminate|reflexivity].
Defined.
