(* ===== verification/Report.v ===== *)
(** * Report: the dictionary of [inspect] and the print loop of [main]

    [BinaryInspector.inspect] (arm64.inspect.py, lines 306-362) parses the
    output of [file], classifies the disassembly and assembles an
    [OrderedDict]: fifteen metadata keys (lines 342-357) followed by the
    two entries of each extension ([output.update(extension_results)],
    line 360).  [main] (lines 402-426) prints it line by line, skipping
    every key that ends in [_instructions] or [_instructions_percentage]
    below debug level 1 and choosing the format from the key.

    The external inputs of [inspect] are parameters: the path's name, the
    text [file] prints, the file size and the disassembly.  Floats are
    exact rationals; the digits [:.2f] and [:.1f] print are not modelled,
    only which format a line uses. *)

From Stdlib Require Import String Ascii List Bool Arith Lia ZArith QArith.
From S2P Require Import Prelude PyText Regex RegexParse Registry Classifier RegexCapture FileInfo.
Import ListNotations.

Local Open Scope nat_scope.
Local Open Scope string_scope.

(** [str(b).lower()]. *)
Definition str_lower_bool (b : bool) : string := if b then "true" else "false".

(** [size_bytes / (1024 * 1024)]. *)
Definition size_mb (size_bytes : nat) : Q := Qmake (Z.of_nat size_bytes) 1048576.

(** [d.update(e)] for an OrderedDict: [d[k] = v] for each entry in order. *)
Definition od_update {V} (d e : list (string * V)) : list (string * V) :=
  fold_left (fun d kv => od_set (fst kv) (snd kv) d) e d.

(** The assignments of lines 342-357, in order. *)
Definition report_header (binary_name : string) (parsed_info : file_fields)
    (size_bytes total_insn : nat) (acc : ext_acc) : list (string * pyval) :=
  [("binary_name", PStr binary_name);
   ("detected_extensions", PStr (join_or_none (detected acc)));
   ("undetected_extensions", PStr (join_or_none (undetected acc)));
   ("binary_format", PStr (binary_format parsed_info));
   ("arch", PStr (arch parsed_info));
   ("elf_version", PStr (elf_version parsed_info));
   ("dynamically_linked", PStr (str_lower_bool (dynamically_linked parsed_info)));
   ("interpreter", PStr (interpreter parsed_info));
   ("android_api", PStr (android_api parsed_info));
   ("builder", PStr (builder parsed_info));
   ("build_id_sha1", PStr (build_id_sha1 parsed_info));
   ("debug_info", PStr (str_lower_bool (debug_info parsed_info)));
   ("stripped", PStr (str_lower_bool (stripped parsed_info)));
   ("binary_size_mb", PFloat (size_mb size_bytes));
   ("total_instructions", PInt total_insn)].

(** [inspect()], given what [file], [stat] and llvm-objdump return. *)
Definition inspect (binary_name file_info : string) (size_bytes : nat) (disasm : string)
  : result (list (string * pyval)) :=
  parsed_info <- parse_file_info file_info ;;
  cl <- classify disasm INSPECT_ARRAY ;;
  let '(total_insn, acc) := cl in
  let output := od_update [] (report_header binary_name parsed_info size_bytes total_insn acc) in
  Ok (od_update output (extension_results acc)).

(** [debug_level = 0 if args.quiet else args.debug]. *)
Definition debug_level (quiet : bool) (debug : nat) : nat := if quiet then 0 else debug.

(** The format of a printed line: [{value:.2f}], [{value:.1f}] or [{value}]. *)
Inductive line_format : Type := Fixed2 | Fixed1 | Plain.

(** Lines 415-418: the keys skipped below debug level 1. *)
Definition hidden (level : nat) (key : string) : bool :=
  Nat.ltb level 1 && (endswith key "_instructions" || endswith key "_instructions_percentage").

(** Lines 421-426. *)
Definition format_of (key : string) : line_format :=
  if endswith key "_percentage" then Fixed2
  else if String.eqb key "binary_size_mb" then Fixed1
  else Plain.

(** The loop of lines 413-426: the lines printed, in order. *)
Definition main_lines (level : nat) (results : list (string * pyval))
  : list (string * line_format * pyval) :=
  flat_map (fun kv => if hidden level (fst kv) then []
                      else [(fst kv, format_of (fst kv), snd kv)]) results.

(** ** Lemmas *)

(** With distinct keys, [update] appends. *)
Lemma od_update_fresh {V} (d e : list (string * V)) :
  NoDup (map fst (d ++ e)) -> od_update d e = (d ++ e)%list.
Proof.
  unfold od_update. revert d. induction e as [|[k v] e IH]; intros d Hnd; simpl.
  - now rewrite app_nil_r.
  - rewrite map_app in Hnd. simpl in Hnd.
    rewrite od_set_fresh by exact (NoDup_mid_not_in _ _ _ Hnd).
    rewrite IH; [now rewrite <- app_assoc|].
    rewrite !map_app, <- app_assoc. exact Hnd.
Qed.

(** The keys of lines 342-357. *)
Definition header_keys : list string :=
  ["binary_name"; "detected_extensions"; "undetected_extensions"; "binary_format";
   "arch"; "elf_version"; "dynamically_linked"; "interpreter"; "android_api";
   "builder"; "build_id_sha1"; "debug_info"; "stripped"; "binary_size_mb";
   "total_instructions"].

Lemma report_header_keys name info size total acc :
  map fst (report_header name info size total acc) = header_keys.
Proof. reflexivity. Qed.

Lemma report_keys_NoDup : NoDup (header_keys ++ result_keys registry_names).
Proof. apply (nodupb_NoDup String.eqb String.eqb_eq). vm_compute. reflexivity. Qed.

(** [inspect] on any inputs: the header, then the entries of the
    registry in table order. *)
Lemma inspect_ok name file_info size disasm :
  exists info, parse_file_info file_info = Ok info /\
  inspect name file_info size disasm =
  Ok (report_header name info size (insn_count disasm)
        (ext_fold (insn_count disasm) (registry_counts disasm) ext_acc0)
      ++ flat_map (result_entries (insn_count disasm)) (registry_counts disasm))%list.
Proof.
  destruct (parse_file_info_ok file_info) as [info Hi]. exists info. split; [exact Hi|].
  unfold inspect. rewrite Hi. cbn [bind]. rewrite classify_eq, registry_ext_counts. cbn [bind].
  assert (Hk : map fst (flat_map (result_entries (insn_count disasm)) (registry_counts disasm))
               = result_keys registry_names)
    by now rewrite result_entries_keys, registry_counts_names.
  rewrite ext_fold_results
    by (cbn [extension_results ext_acc0 map app]; rewrite Hk; exact registry_result_keys_NoDup).
  cbn [extension_results ext_acc0 app].
  rewrite (od_update_fresh []) by (rewrite app_nil_l, report_header_keys;
    exact (NoDup_app_remove_r _ _ report_keys_NoDup)).
  rewrite app_nil_l, od_update_fresh; [reflexivity|].
  rewrite map_app, report_header_keys, Hk. exact report_keys_NoDup.
Qed.

Lemma main_lines_keys level results :
  map (fun l => fst (fst l)) (main_lines level results) =
  filter (fun k => negb (hidden level k)) (map fst results).
Proof.
  induction results as [|[k v] results IH]; simpl; [reflexivity|].
  destruct (hidden level k); simpl; now rewrite IH.
Qed.

(** ** The report *)

Lemma inspect_out_keys name info size disasm :
  map fst (report_header name info size (insn_count disasm)
             (ext_fold (insn_count disasm) (registry_counts disasm) ext_acc0)
           ++ flat_map (result_entries (insn_count disasm)) (registry_counts disasm))
  = (header_keys ++ result_keys registry_names)%list.
Proof. now rewrite map_app, report_header_keys, result_entries_keys, registry_counts_names. Qed.

(** C30: [inspect] never raises; its keys are the fifteen metadata keys
    and then the two keys of each extension in table order, all distinct
    (spec, section 6: report output contract). *)
Theorem inspect_keys name file_info size disasm :
  exists out, inspect name file_info size disasm = Ok out /\
    map fst out = (header_keys ++ result_keys registry_names)%list /\ NoDup (map fst out).
Proof.
  destruct (inspect_ok name file_info size disasm) as (info & _ & ->).
  eexists. split; [reflexivity|]. rewrite inspect_out_keys.
  split; [reflexivity|exact report_keys_NoDup].
Qed.

(** The summary entries of the report: the total is the number of
    instruction lines, and the two lists name the extensions with and
    without a match, joined by [;], or ["none"]. *)
Theorem inspect_summary name file_info size disasm :
  exists out, inspect name file_info size disasm = Ok out /\
    In ("total_instructions", PInt (insn_count disasm)) out /\
    In ("detected_extensions",
        PStr (join_or_none (map fst (filter (fun nc => Nat.ltb 0 (snd nc))
                                            (registry_counts disasm))))) out /\
    In ("undetected_extensions",
        PStr (join_or_none (map fst (filter (fun nc => negb (Nat.ltb 0 (snd nc)))
                                            (registry_counts disasm))))) out.
Proof.
  destruct (inspect_ok name file_info size disasm) as (info & _ & ->).
  eexists. split; [reflexivity|].
  unfold report_header. rewrite ext_fold_detected, ext_fold_undetected.
  cbn [detected undetected ext_acc0]. rewrite !app_nil_l.
  split; [|split]; apply in_or_app; left; cbn [In];
    repeat (solve [left; reflexivity] || right).
Qed.

(** C29: below debug level 1, [main] prints the metadata keys only: the
    total instruction count is hidden with the per-extension entries,
    since ["total_instructions"] ends with ["_instructions"]. *)
Theorem main_default_hides_counts name file_info size disasm :
  exists out, inspect name file_info size disasm = Ok out /\
    map (fun l => fst (fst l)) (main_lines (debug_level false 0) out) =
    ["binary_name"; "detected_extensions"; "undetected_extensions"; "binary_format";
     "arch"; "elf_version"; "dynamically_linked"; "interpreter"; "android_api";
     "builder"; "build_id_sha1"; "debug_info"; "stripped"; "binary_size_mb"].
Proof.
  destruct (inspect_ok name file_info size disasm) as (info & _ & ->).
  eexists. split; [reflexivity|]. rewrite main_lines_keys, inspect_out_keys.
  vm_compute. reflexivity.
Qed.

(** From debug level 1, [main] prints every entry, in order, with the
    format its key selects. *)
Theorem main_debug_prints_all level results :
  1 <= level ->
  main_lines level results = map (fun kv => (fst kv, format_of (fst kv), snd kv)) results.
Proof.
  intros Hl. unfold main_lines, hidden.
  rewrite (proj2 (Nat.ltb_ge level 1) Hl). cbn [andb].
  induction results as [|kv results IH]; simpl; [reflexivity|]. now rewrite IH.
Qed.

(** ** Witnesses *)

Lemma main_debug_prints_all_witness :
  main_lines 1 [("total_instructions", PInt 3); ("sve_instructions_percentage", PFloat 0)] =
  map (fun kv => (fst kv, format_of (fst kv), snd kv))
      [("total_instructions", PInt 3); ("sve_instructions_percentage", PFloat 0)].
Proof. apply main_debug_prints_all. lia. Defined.
