(* ===== verification/Tools.v ===== *)
(** * Tools: the external tools arm64.inspect.py runs

    [find_llvm_objdump] (arm64.inspect.py, lines 90-124) and the methods of
    [BinaryInspector] that run a program (lines 128-244): [__init__],
    [get_file_info] ([file]), [get_file_size], [get_symbols] ([nm]),
    [disassemble] ([llvm-objdump -d]), [get_build_id] ([readelf -n]) and
    [get_embedded_strings] ([strings]).

    The operating system is a record of operations, [system]: what
    [Path.exists], [str(Path(p))], [Path.name], [stat().st_size],
    [shutil.which], [glob.glob] and [os.path.expanduser] return, and what
    [subprocess.run(cmd, capture_output=True, text=True)] gives: an exit
    status with the decoded standard output, or the executable is missing
    or not executable.  [subprocess_run] turns that into Python's
    exceptions ([FileNotFoundError], [PermissionError], and
    [CalledProcessError] under [check=True]), with the texts [str(e)] has.
    Each [try]/[except] of the source is a [try_except].

    [re.search(pattern, line, re.IGNORECASE)] in [get_symbols] and
    [get_embedded_strings] is a section variable [search_ic], which
    [RegexIgnoreCase.re_search_ic] instantiates: with it, [get_symbols]
    returns the stripped lines of [nm] that match up to case, and a
    pattern that does not compile makes it return [[]], the [re.error]
    being caught by [except Exception]. *)

From Stdlib Require Import String Ascii List Bool Arith Lia ZArith QArith Lqa Permutation.
From S2P Require Import Prelude PyText Regex RegexParse RegexIgnoreCase.
Import ListNotations.

Local Open Scope nat_scope.
Local Open Scope string_scope.

(** What [subprocess.run] observes. *)
Inductive run_outcome : Type :=
| Exited (returncode : Z) (stdout : string)   (** the program ran *)
| ExeNotFound                                 (** no such executable *)
| ExeNotPermitted.                            (** not executable *)

(** The operations of the operating system the tool reads. *)
Record system : Type := System {
  path_exists : string -> bool;       (** [Path(p).exists()] *)
  path_str : string -> string;        (** [str(Path(p))] *)
  path_name : string -> string;       (** [Path(p).name] *)
  file_size : string -> nat;          (** [Path(p).stat().st_size] *)
  which : string -> option string;    (** [shutil.which(name)] *)
  glob : string -> list string;       (** [glob.glob(pattern)] *)
  expanduser : string -> string;      (** [os.path.expanduser(p)] *)
  run : list string -> run_outcome;   (** [subprocess.run(cmd, ...)] *)
  signal_repr : Z -> option string    (** [repr(signal.Signals(n))], if [n] names one *)
}.

(** [subprocess.run(cmd, capture_output=True, text=True, check=check)]:
    the exit status and the output, or the exception it raises. *)
Definition subprocess_run (sys : system) (cmd : list string) (check : bool) : result (Z * string) :=
  match run sys cmd with
  | ExeNotFound =>
      Raise (FileNotFoundError ("[Errno 2] No such file or directory: " ++ py_repr (hd "" cmd)))
  | ExeNotPermitted =>
      Raise (PermissionError ("[Errno 13] Permission denied: " ++ py_repr (hd "" cmd)))
  | Exited code out =>
      if check && negb (Z.eqb code 0) then Raise (CalledProcessError cmd code) else Ok (code, out)
  end.

(** [str(e)] for a [CalledProcessError]. *)
Definition called_process_error_str (sys : system) (cmd : list string) (code : Z) : string :=
  if Z.ltb code 0 then
    match signal_repr sys (Z.opp code) with
    | Some r => "Command '" ++ py_str_list cmd ++ "' died with " ++ r ++ "."
    | None => "Command '" ++ py_str_list cmd ++ "' died with unknown signal "
                ++ str_of_Z (Z.opp code) ++ "."
    end
  else "Command '" ++ py_str_list cmd ++ "' returned non-zero exit status " ++ str_of_Z code ++ ".".

(** ** [find_llvm_objdump] *)

(** The NDK locations of lines 105-113, in order. *)
Definition ndk_paths (sys : system) : list string :=
  ["/opt/android_sdk/ndk/*/toolchains/llvm/prebuilt/linux-x86_64/bin/llvm-objdump";
   expanduser sys "~/Android/Sdk/ndk/*/toolchains/llvm/prebuilt/linux-x86_64/bin/llvm-objdump";
   expanduser sys "~/android-ndk-*/toolchains/llvm/prebuilt/linux-x86_64/bin/llvm-objdump"].

(** Lines 115-120: the first pattern with matches gives
    [sorted(matches, reverse=True)[0]], the greatest match. *)
Fixpoint first_glob (sys : system) (patterns : list string) : result string :=
  match patterns with
  | [] => Raise (FileNotFoundError
      "llvm-objdump not found in PATH or common NDK locations. Please specify with --llvm-objdump <path>")
  | pattern :: rest =>
      match glob sys pattern with
      | [] => first_glob sys rest
      | matches => Ok (path_str sys (last (py_sorted matches) ""))
      end
  end.

(** [find_llvm_objdump(user_path)]. *)
Definition find_llvm_objdump (sys : system) (user_path : option string) : result string :=
  let search :=
    match which sys "llvm-objdump" with
    | Some p => Ok (path_str sys p)
    | None => first_glob sys (ndk_paths sys)
    end in
  match user_path with
  | Some p =>
      if String.eqb p "" then search
      else if path_exists sys p then Ok (path_str sys p)
      else Raise (FileNotFoundError ("llvm-objdump not found at: " ++ p))
  | None => search
  end.

(** ** [BinaryInspector] *)

(** The attributes [binary_path] ([str] of the [Path]) and [llvm_objdump]. *)
Record inspector : Type := Inspector { binary_path : string; llvm_objdump : string }.

(** [BinaryInspector(binary_path, llvm_objdump_path)]. *)
Definition new_inspector (sys : system) (path objdump : string) : result inspector :=
  if path_exists sys path then Ok (Inspector (path_str sys path) objdump)
  else Raise (FileNotFoundError ("Binary not found: " ++ path)).

(** [get_file_info()]: a failing [file] is reported in the text. *)
Definition get_file_info (sys : system) (bi : inspector) : result string :=
  try_except
    (r <- subprocess_run sys ["file"; binary_path bi] true ;; Ok (strip (snd r)))
    (fun e => match e with
              | CalledProcessError cmd code => Ok ("Error: " ++ called_process_error_str sys cmd code)
              | e => Raise e
              end).

(** The loop of [get_file_size()]: the size divided by 1024 until it is
    below 1024, with its unit; the digits of [:.1f] are not modelled.
    Dividing an integer below [2^53] by powers of two is exact in a
    double, so [Q] is the float. *)
Fixpoint size_loop (size : Q) (units : list string) : Q * string :=
  match units with
  | [] => (size, "TB")
  | unit :: rest =>
      if Qlt_le_dec size 1024%Q then (size, unit) else size_loop (size / 1024)%Q rest
  end.

Definition get_file_size (sys : system) (bi : inspector) : Q * string :=
  size_loop (inject_Z (Z.of_nat (file_size sys (binary_path bi)))) ["B"; "KB"; "MB"; "GB"].

(** [disassemble()]: a failing llvm-objdump gives the empty text. *)
Definition disassemble (sys : system) (bi : inspector) : result string :=
  try_except
    (r <- subprocess_run sys [llvm_objdump bi; "-d"; binary_path bi] true ;; Ok (snd r))
    (fun e => match e with CalledProcessError _ _ => Ok "" | e => Raise e end).

(** [get_build_id()]: the first line of [readelf -n] naming a build id. *)
Definition get_build_id (sys : system) (bi : inspector) : result (option string) :=
  try_except
    (r <- subprocess_run sys ["readelf"; "-n"; binary_path bi] false ;;
     Ok (option_map strip
           (find (fun line => contains "Build ID" line || contains "BuildID" line) (lines (snd r)))))
    (fun _ => Ok None).

Section IgnoreCase.
(** [re.search(pattern, line, re.IGNORECASE)], raising [re.error] for a
    pattern that does not compile. *)
Context (search_ic : string -> string -> result bool).

(** [[line.strip() for line in ls if re.search(pattern, line, re.IGNORECASE)]]. *)
Fixpoint grep_lines (pattern : string) (ls : list string) : result (list string) :=
  match ls with
  | [] => Ok []
  | line :: rest =>
      m <- search_ic pattern line ;;
      rest' <- grep_lines pattern rest ;;
      Ok (if m then strip line :: rest' else rest')
  end.

(** [get_symbols(pattern)]: [nm]'s lines that match; [[]] on any error. *)
Definition get_symbols (sys : system) (bi : inspector) (pattern : string) : result (list string) :=
  try_except
    (r <- subprocess_run sys ["nm"; binary_path bi] false ;;
     if negb (Z.eqb (fst r) 0) then Ok [] else grep_lines pattern (lines (snd r)))
    (fun _ => Ok []).

(** [get_embedded_strings(pattern)]: at most ten matching lines of
    [strings]; [[]] on any error. *)
Definition get_embedded_strings (sys : system) (bi : inspector) (pattern : string)
  : result (list string) :=
  try_except
    (r <- subprocess_run sys ["strings"; binary_path bi] true ;;
     matches <- grep_lines pattern (lines (snd r)) ;;
     Ok (firstn 10 matches))
    (fun _ => Ok []).

End IgnoreCase.

(** ** [get_file_size] *)

(** [x * 1024 ^ k]. *)
Definition scale1024 (k : nat) (x : Q) : Q := Nat.iter k (fun y => (y * 1024)%Q) x.

Lemma size_loop_spec units size x u :
  (0 <= size)%Q -> size_loop size units = (x, u) ->
  exists k, scale1024 k x == size /\ nth_error (units ++ ["TB"]) k = Some u /\
            (k < length units -> (x < 1024)%Q) /\ (0 < k -> (1 <= x)%Q).
Proof.
  revert size. induction units as [|unit units IH]; intros size Hs H; cbn [size_loop] in H.
  - inv H. exists 0. split; [reflexivity|]. split; [reflexivity|].
    split; intros Hk; simpl in Hk; lia.
  - destruct (Qlt_le_dec size 1024) as [Hlt|Hge].
    + inv H. exists 0. split; [reflexivity|]. split; [reflexivity|].
      split; [intros _; exact Hlt|intros Hk; lia].
    + assert (Hd : (1 <= size / 1024)%Q) by (apply Qle_shift_div_l; [reflexivity|lra]).
      apply IH in H as (k & Hk & Hu & Hb & H1); [|lra].
      exists (S k). split; [|split; [exact Hu|split]].
      * unfold scale1024 in *. cbn [Nat.iter].
        transitivity (size / 1024 * 1024)%Q; [apply Qmult_comp; [exact Hk|reflexivity]|field].
      * intros Hl. apply Hb. simpl in Hl. lia.
      * intros _. destruct k; [|apply H1; lia]. cbn in Hk.
        apply (Qle_trans _ _ _ Hd). rewrite Hk. apply Qle_refl.
Qed.

(** C40: [get_file_size] picks the unit that keeps the number in
    [[1, 1024)] (below 1024 for bytes, at least 1 for a larger unit, any
    size in TB), and the number times [1024] per unit step is the size. *)
Theorem get_file_size_bounds sys bi :
  match get_file_size sys bi with
  | (x, u) => exists k,
      scale1024 k x == inject_Z (Z.of_nat (file_size sys (binary_path bi))) /\
      nth_error ["B"; "KB"; "MB"; "GB"; "TB"] k = Some u /\
      (k < 4 -> (x < 1024)%Q) /\ (0 < k -> (1 <= x)%Q)
  end.
Proof.
  unfold get_file_size. destruct (size_loop _ _) as [x u] eqn:E.
  apply size_loop_spec in E; [exact E|].
  unfold Qle. simpl. lia.
Qed.

(** ** [find_llvm_objdump] *)

(** The first NDK pattern with matches decides, and it gives the greatest
    match in code-point order. *)
Lemma first_glob_greatest sys pattern rest :
  glob sys pattern <> [] ->
  exists m, first_glob sys (pattern :: rest) = Ok (path_str sys m) /\
            In m (glob sys pattern) /\ Forall (fun m' => str_le m' m) (glob sys pattern).
Proof.
  intros Hne. cbn [first_glob]. destruct (glob sys pattern) as [|g gs] eqn:E; [contradiction|].
  exists (last (py_sorted (g :: gs)) ""). split; [reflexivity|].
  apply py_sorted_last_max. discriminate.
Qed.

(** Locations whose glob is empty are skipped. *)
Lemma first_glob_skip sys pre rest :
  Forall (fun p => glob sys p = []) pre -> first_glob sys (pre ++ rest)%list = first_glob sys rest.
Proof. induction 1 as [|p pre Hp _ IH]; [reflexivity|]. cbn [app first_glob]. now rewrite Hp. Qed.

Lemma ndk_search_greatest sys pre loc post :
  which sys "llvm-objdump" = None -> ndk_paths sys = (pre ++ loc :: post)%list ->
  Forall (fun p => glob sys p = []) pre -> glob sys loc <> [] ->
  exists m, find_llvm_objdump sys None = Ok (path_str sys m) /\
            In m (glob sys loc) /\ Forall (fun m' => str_le m' m) (glob sys loc).
Proof.
  intros Hw Hn Hpre Hg. unfold find_llvm_objdump. rewrite Hw, Hn, first_glob_skip by exact Hpre.
  now apply first_glob_greatest.
Qed.

Lemma string_compare_app p x y : String.compare (p ++ x) (p ++ y) = String.compare x y.
Proof.
  induction p as [|a p IH]; [reflexivity|]. cbn [append String.compare].
  unfold Ascii.compare. now rewrite N.compare_refl.
Qed.

(** C38: with no [--llvm-objdump] and no llvm-objdump on [PATH], the NDK
    locations are tried in order: those whose glob is empty are skipped
    ([if matches:]), and the first one with matches gives its greatest
    path in code-point order, which [sorted(reverse=True)] takes for the
    newest. *)
Theorem find_llvm_objdump_ndk_search sys pre loc post :
  which sys "llvm-objdump" = None -> ndk_paths sys = (pre ++ loc :: post)%list ->
  Forall (fun p => glob sys p = []) pre -> glob sys loc <> [] ->
  exists m, find_llvm_objdump sys None = Ok (path_str sys m) /\
            In m (glob sys loc) /\ Forall (fun m' => str_le m' m) (glob sys loc).
Proof. intros Hw Hn Hpre Hg. exact (ndk_search_greatest sys pre loc post Hw Hn Hpre Hg). Qed.

(** C12: with no [--llvm-objdump], no llvm-objdump on [PATH] and no NDK
    location matching, the search raises [FileNotFoundError] with the
    text of line 122. *)
Theorem find_llvm_objdump_not_found sys :
  which sys "llvm-objdump" = None -> Forall (fun p => glob sys p = []) (ndk_paths sys) ->
  find_llvm_objdump sys None = Raise (FileNotFoundError
    "llvm-objdump not found in PATH or common NDK locations. Please specify with --llvm-objdump <path>").
Proof.
  intros Hw Hn. unfold find_llvm_objdump. rewrite Hw.
  rewrite <- (app_nil_r (ndk_paths sys)), first_glob_skip by exact Hn. reflexivity.
Qed.

(** C39: the order is lexicographic, not by release: when the first NDK
    location with matches holds a release [r1x] (r10 to r19) and a
    release [rd] with a single digit [d] above 1 (r2 to r9), side by side
    in the same directory, [find_llvm_objdump] picks the older
    single-digit release, whatever follows the release numbers. *)
Theorem find_llvm_objdump_one_digit_release sys pre loc post dir d x y :
  which sys "llvm-objdump" = None -> ndk_paths sys = (pre ++ loc :: post)%list ->
  Forall (fun p => glob sys p = []) pre ->
  Ascii.ltb "1" d = true ->
  Permutation (glob sys loc)
    [dir ++ String "r" (String "1" x); dir ++ String "r" (String d y)] ->
  find_llvm_objdump sys None = Ok (path_str sys (dir ++ String "r" (String d y))).
Proof.
  intros Hw Hn Hpre Hd Hp.
  destruct (ndk_search_greatest sys pre loc post Hw Hn Hpre) as (m & -> & Hin & Hall).
  { intros E. rewrite E in Hp. apply Permutation_nil in Hp. discriminate. }
  apply (Permutation_in _ Hp) in Hin. rewrite Forall_forall in Hall.
  destruct Hin as [<-|[<-|[]]]; [exfalso|reflexivity].
  specialize (Hall (dir ++ String "r" (String d y)) (Permutation_in _ (Permutation_sym Hp) ltac:(simpl; auto))).
  unfold str_le, String.leb in Hall. rewrite string_compare_app in Hall.
  cbn [String.compare] in Hall. unfold Ascii.compare in Hall. rewrite N.compare_refl in Hall.
  unfold Ascii.ltb, Ascii.compare in Hd.
  destruct (N.compare_spec (N_of_ascii "1") (N_of_ascii d)) as [E|E|E]; try discriminate.
  rewrite (proj2 (N.compare_gt_iff _ _) E) in Hall. discriminate.
Qed.

(** An installation with the NDKs r9d and r10e side by side, and no
    llvm-objdump on [PATH]. *)
Definition ndk_r10e : string :=
  "/home/u/android-ndk-r10e/toolchains/llvm/prebuilt/linux-x86_64/bin/llvm-objdump".
Definition ndk_r9d : string :=
  "/home/u/android-ndk-r9d/toolchains/llvm/prebuilt/linux-x86_64/bin/llvm-objdump".

(** A system with nothing but [which] and one glob pattern. *)
Definition test_system (which_r : option string) (pattern : string) (matches : list string)
  : system := {|
  path_exists := fun _ => false;
  path_str := fun p => p;
  path_name := fun p => p;
  file_size := fun _ => 0;
  which := fun _ => which_r;
  glob := fun p => if String.eqb p pattern then matches else [];
  expanduser := fun p => match p with String _ rest => "/home/u" ++ rest | EmptyString => p end;
  run := fun _ => ExeNotFound;
  signal_repr := fun _ => None
|}.

Definition two_ndks : system :=
  test_system None "/home/u/android-ndk-*/toolchains/llvm/prebuilt/linux-x86_64/bin/llvm-objdump"
    [ndk_r10e; ndk_r9d].

(** What [nm] prints for a binary with three symbols. *)
Definition nm_output : string :=
  let nl := String "010"%char EmptyString in
  "0000000000001000 T NEON_memcpy" ++ nl ++ "0000000000002000 T sha256_block" ++ nl
  ++ "                 U Neon_helper" ++ nl.

Definition nm_system : system :=
  {| path_exists := fun _ => true; path_str := fun p => p; path_name := fun p => p;
     file_size := fun _ => 0; which := fun _ => None; glob := fun _ => [];
     expanduser := fun p => p;
     run := fun cmd =>
       match cmd with
       | ["nm"; _] => Exited 0 nm_output
       | _ => ExeNotFound
       end;
     signal_repr := fun _ => None |}.

(** With r9d and r10e installed, [find_llvm_objdump] picks r9d, the older
    NDK. *)
Theorem find_llvm_objdump_picks_r9d : find_llvm_objdump two_ndks None = Ok ndk_r9d.
Proof. vm_compute. reflexivity. Qed.

(** An explicit [--llvm-objdump] path that does not exist is an
    error, even when llvm-objdump is on [PATH]: there is no fallback. *)
Theorem find_llvm_objdump_explicit_missing sys p q :
  p <> "" -> path_exists sys p = false -> which sys "llvm-objdump" = Some q ->
  find_llvm_objdump sys (Some p) = Raise (FileNotFoundError ("llvm-objdump not found at: " ++ p)).
Proof.
  intros Hp He _. unfold find_llvm_objdump.
  rewrite (proj2 (String.eqb_neq p "") Hp), He. reflexivity.
Qed.

(** ** Lines that match *)

Lemma grep_lines_sub search_ic pattern ls out :
  grep_lines search_ic pattern ls = Ok out -> Forall (fun s => exists l, In l ls /\ s = strip l) out.
Proof.
  revert out. induction ls as [|l ls IH]; intros out H; cbn [grep_lines] in H.
  - inv H. constructor.
  - destruct (search_ic pattern l) as [m|e]; [|discriminate]. cbn [bind] in H.
    destruct (grep_lines search_ic pattern ls) as [rest|e] eqn:E; [|discriminate].
    cbn [bind] in H. apply Ok_inj in H. subst out. specialize (IH rest eq_refl).
    assert (IH' : Forall (fun s => exists l', In l' (l :: ls) /\ s = strip l') rest).
    { eapply Forall_impl; [|exact IH]. intros s (l' & Hin & ->). exists l'. simpl. auto. }
    destruct m; [constructor; [exists l; simpl; auto|]|]; exact IH'.
Qed.

(** C22: [get_embedded_strings] never raises and returns at most ten
    lines, each the stripped text of a line [strings] printed. *)
Theorem get_embedded_strings_bounded search_ic sys bi pattern :
  exists out, get_embedded_strings search_ic sys bi pattern = Ok out /\ length out <= 10 /\
    Forall (fun s => exists code stdout l,
              run sys ["strings"; binary_path bi] = Exited code stdout /\
              In l (lines stdout) /\ s = strip l) out.
Proof.
  unfold get_embedded_strings, subprocess_run.
  destruct (run sys ["strings"; binary_path bi]) as [code stdout| |] eqn:Er;
    try (eexists; split; [reflexivity|split; [simpl; lia|constructor]]).
  destruct (true && negb (Z.eqb code 0)); [eexists; split; [reflexivity|split; [simpl; lia|constructor]]|].
  cbn [bind snd].
  destruct (grep_lines search_ic pattern (lines stdout)) as [ms|e] eqn:E;
    [|eexists; split; [reflexivity|split; [simpl; lia|constructor]]].
  cbn [bind try_except]. eexists. split; [reflexivity|]. split; [rewrite length_firstn; lia|].
  apply grep_lines_sub in E. apply Forall_firstn.
  eapply Forall_impl; [|exact E]. intros s (l & Hin & ->). exists code, stdout, l. auto.
Qed.

(** ** With [re.search(pattern, line, re.IGNORECASE)] *)

Lemma grep_lines_ic pattern p ls :
  compile (list_ascii_of_string pattern) = Some p ->
  grep_lines re_search_ic pattern ls
  = Ok (map strip (filter (fun l => search_ic p (list_ascii_of_string l)) ls)).
Proof.
  intros Hp. induction ls as [|l ls IH]; [reflexivity|].
  cbn [grep_lines]. unfold re_search_ic at 1. rewrite Hp. cbn [bind]. rewrite IH. cbn [bind filter].
  now destruct (search_ic p (list_ascii_of_string l)).
Qed.


(** C35: when [nm] succeeds, [get_symbols] returns the stripped lines of its
    output that [re.search(pattern, line, re.IGNORECASE)] accepts, in
    order: the composition of [subprocess.run], the line split, the
    case-insensitive search and [strip]. *)
Theorem get_symbols_ic sys bi pattern p stdout :
  compile (list_ascii_of_string pattern) = Some p ->
  run sys ["nm"; binary_path bi] = Exited 0 stdout ->
  get_symbols re_search_ic sys bi pattern
  = Ok (map strip (filter (fun l => search_ic p (list_ascii_of_string l)) (lines stdout))).
Proof.
  intros Hp Hr. unfold get_symbols, subprocess_run. rewrite Hr. cbn [andb negb Z.eqb bind fst snd].
  now rewrite (grep_lines_ic _ _ _ Hp).
Qed.


(** [get_symbols] on the output of [nm] above: the case of the pattern
    does not matter, [+] repeats a class, and an unbalanced parenthesis
    gives [[]]. *)
Theorem get_symbols_nm_system :
  get_symbols re_search_ic nm_system (Inspector "/tmp/x" "llvm-objdump") "neon"
    = Ok ["0000000000001000 T NEON_memcpy"; "U Neon_helper"] /\
  get_symbols re_search_ic nm_system (Inspector "/tmp/x" "llvm-objdump") "(neon" = Ok [] /\
  get_symbols re_search_ic nm_system (Inspector "/tmp/x" "llvm-objdump") "SHA[0-9]+"
    = Ok ["0000000000002000 T sha256_block"].
Proof. repeat split; vm_compute; reflexivity. Qed.

(** ** Witnesses *)

Lemma find_llvm_objdump_ndk_search_witness :
  exists m, find_llvm_objdump two_ndks None = Ok (path_str two_ndks m) /\
    In m (glob two_ndks (last (ndk_paths two_ndks) "")) /\
    Forall (fun m' => str_le m' m) (glob two_ndks (last (ndk_paths two_ndks) "")).
Proof.
  apply (find_llvm_objdump_ndk_search two_ndks (firstn 2 (ndk_paths two_ndks)) _ []);
    [reflexivity|reflexivity|repeat constructor|vm_compute; discriminate].
Defined.

Lemma find_llvm_objdump_not_found_witness :
  find_llvm_objdump (test_system None "" []) None = Raise (FileNotFoundError
    "llvm-objdump not found in PATH or common NDK locations. Please specify with --llvm-objdump <path>").
Proof. apply find_llvm_objdump_not_found; [reflexivity|repeat constructor]. Defined.


Lemma find_llvm_objdump_one_digit_release_witness :
  find_llvm_objdump two_ndks None
  = Ok (path_str two_ndks ("/home/u/android-ndk-" ++ String "r" (String "9"
          "d/toolchains/llvm/prebuilt/linux-x86_64/bin/llvm-objdump"))).
Proof.
  apply (find_llvm_objdump_one_digit_release two_ndks (firstn 2 (ndk_paths two_ndks))
           (last (ndk_paths two_ndks) "") [] _ _ "0e/toolchains/llvm/prebuilt/linux-x86_64/bin/llvm-objdump");
    [reflexivity|reflexivity|repeat constructor|reflexivity|].
  apply Permutation_refl'. vm_compute. reflexivity.
Defined.

Lemma find_llvm_objdump_explicit_missing_witness :
  find_llvm_objdump (test_system (Some "/usr/bin/llvm-objdump") "" []) (Some "/opt/llvm/bin/objdump")
  = Raise (FileNotFoundError ("llvm-objdump not found at: " ++ "/opt/llvm/bin/objdump")).
Proof.
  apply (find_llvm_objdump_explicit_missing _ _ "/usr/bin/llvm-objdump");
    [discriminate|reflexivity|reflexivity].
Defined.

Lemma get_symbols_ic_witness :
  get_symbols re_search_ic nm_system (Inspector "/tmp/x" "llvm-objdump") "neon"
  = Ok (map strip (filter (fun l => search_ic (ic_pattern "neon") (list_ascii_of_string l))
                          (lines nm_output))).
Proof. apply get_symbols_ic; vm_compute; reflexivity. Defined.
