(* ===== verification/ArmMain.v ===== *)
(** * ArmMain: the whole of arm64.inspect.py

    [BinaryInspector.inspect] (arm64.inspect.py, lines 306-362) runs [file]
    and llvm-objdump through [Tools], then assembles the report of
    [Report.inspect]; [main] (lines 365-433) finds llvm-objdump, builds
    the inspector, runs [inspect] and prints the report, and turns the
    exceptions into a message on stderr and exit status 1.

    Printing a value with [:.2f] or [:.1f] raises [ValueError] for a
    [str]; [print_lines] keeps that check, and the theorems show it never
    fires on a report of [inspect].  Stderr is a list of [err_line]s: the
    text [Error: ...] of a [FileNotFoundError], or the exception of an
    unexpected error followed by its traceback, whose text is not
    modelled. *)

From Stdlib Require Import String Ascii List Bool Arith Lia ZArith QArith.
From S2P Require Import Prelude PyText Regex RegexParse RegexCapture Registry Classifier.
From S2P Require Import FileInfo Report Tools.
Import ListNotations.

Local Open Scope nat_scope.
Local Open Scope string_scope.

(** [inspect()] of a [BinaryInspector]: its external reads, then the
    report. *)
Definition inspect_binary (sys : system) (bi : inspector) : result (list (string * pyval)) :=
  file_info <- get_file_info sys bi ;;
  disasm <- disassemble sys bi ;;
  inspect (path_name sys (binary_path bi)) file_info (file_size sys (binary_path bi)) disasm.

(** Whether [format(value, spec)] works: the [f] specs need a number. *)
Definition formattable (f : line_format) (v : pyval) : bool :=
  match f, v with
  | Plain, _ => true
  | _, PStr _ => false
  | _, _ => true
  end.

(** The [print] calls of lines 413-426 in order: the lines printed
    before the first one whose format raises, and that exception. *)
Fixpoint print_lines (ls : list (string * line_format * pyval))
  : list (string * line_format * pyval) * option py_exc :=
  match ls with
  | [] => ([], None)
  | (k, f, v) :: rest =>
      if formattable f v then
        let '(out, e) := print_lines rest in ((k, f, v) :: out, e)
      else ([], Some (ValueError "Unknown format code 'f' for object of type 'str'"))
  end.

(** The parsed command line. *)
Record arm_args : Type := ArmArgs {
  binary : string;
  llvm_objdump_opt : option string;
  debug : nat;
  quiet : bool
}.

(** What [main] writes on stderr. *)
Inductive err_line : Type :=
| ErrorText (text : string)     (** [print(f"Error: {e}", file=sys.stderr)] *)
| UnexpectedError (e : py_exc)  (** [print(f"Unexpected error: {e}", ...)] *)
| Traceback.                    (** [traceback.print_exc()] *)

(** [main()]: the lines printed, stderr, and the exit status. *)
Definition arm_main (sys : system) (a : arm_args)
  : list (string * line_format * pyval) * list err_line * nat :=
  let level := debug_level (quiet a) (debug a) in
  let run_all :=
    llvm_objdump <- find_llvm_objdump sys (llvm_objdump_opt a) ;;
    inspector <- new_inspector sys (binary a) llvm_objdump ;;
    inspect_binary sys inspector in
  match run_all with
  | Ok results =>
      match print_lines (main_lines level results) with
      | (out, None) => (out, [], 0)
      | (out, Some e) => (out, [UnexpectedError e; Traceback], 1)
      end
  | Raise (FileNotFoundError msg) => ([], [ErrorText ("Error: " ++ msg)], 1)
  | Raise e => ([], [UnexpectedError e; Traceback], 1)
  end.

(** ** Lemmas *)

(** Every value of the report supports the format its key selects: the
    only [str] values are under keys printed with [{value}]. *)
Lemma inspect_formattable name file_info size disasm out :
  inspect name file_info size disasm = Ok out ->
  Forall (fun kv => formattable (format_of (fst kv)) (snd kv) = true) out.
Proof.
  destruct (inspect_ok name file_info size disasm) as (info & _ & ->). intros H.
  apply Ok_inj in H. subst out. apply Forall_app. split.
  - repeat constructor.
  - apply Forall_forall. intros kv Hin. apply in_flat_map in Hin as ([n c] & _ & Hin).
    destruct Hin as [<-|[<-|[]]]; cbn [fst snd]; now destruct (format_of _).
Qed.

Lemma print_lines_formattable level results :
  Forall (fun kv => formattable (format_of (fst kv)) (snd kv) = true) results ->
  print_lines (main_lines level results) = (main_lines level results, None).
Proof.
  induction 1 as [|[k v] results Hkv _ IH]; [reflexivity|].
  unfold main_lines in *. cbn [flat_map fst snd] in *.
  destruct (hidden level k); [exact IH|].
  cbn [app print_lines]. rewrite Hkv, IH. reflexivity.
Qed.

(** ** The program *)

(** C23: printing a report never raises: every value printed with
    [:.2f] or [:.1f] is a number, for every debug level. *)
Theorem print_report_never_raises name file_info size disasm level :
  exists out, inspect name file_info size disasm = Ok out /\
    print_lines (main_lines level out) = (main_lines level out, None).
Proof.
  destruct (inspect_ok name file_info size disasm) as (info & _ & Hout).
  eexists. split; [exact Hout|].
  apply print_lines_formattable, (inspect_formattable _ _ _ _ _ Hout).
Qed.

(** C26: [main] composes the components: when llvm-objdump is found, the
    binary exists and [file] and llvm-objdump succeed, [main] prints the
    lines [Report.main_lines] selects from the report [Report.inspect]
    builds out of their outputs, writes nothing on stderr and exits 0. *)
Theorem arm_main_refines sys a objdump file_out dis_out :
  find_llvm_objdump sys (llvm_objdump_opt a) = Ok objdump ->
  path_exists sys (binary a) = true ->
  run sys ["file"; path_str sys (binary a)] = Exited 0 file_out ->
  run sys [objdump; "-d"; path_str sys (binary a)] = Exited 0 dis_out ->
  exists out,
    inspect (path_name sys (path_str sys (binary a))) (strip file_out)
            (file_size sys (path_str sys (binary a))) dis_out = Ok out /\
    arm_main sys a = (main_lines (debug_level (quiet a) (debug a)) out, [], 0).
Proof.
  intros Hf He Hfile Hdis.
  destruct (inspect_ok (path_name sys (path_str sys (binary a))) (strip file_out)
              (file_size sys (path_str sys (binary a))) dis_out) as (info & _ & Hout).
  eexists. split; [exact Hout|].
  unfold arm_main, new_inspector, inspect_binary, get_file_info, disassemble, subprocess_run.
  rewrite Hf. cbn [bind]. rewrite He. cbn [bind binary_path llvm_objdump].
  rewrite Hfile, Hdis. cbn [andb negb Z.eqb bind try_except snd]. rewrite Hout.
  now rewrite print_lines_formattable by exact (inspect_formattable _ _ _ _ _ Hout).
Qed.

(** C27: a binary path that does not exist ends [main] with
    ["Error: Binary not found: <path>"] on stderr and exit status 1,
    before anything is run. *)
Theorem arm_main_missing_binary sys a objdump :
  find_llvm_objdump sys (llvm_objdump_opt a) = Ok objdump ->
  path_exists sys (binary a) = false ->
  arm_main sys a = ([], [ErrorText ("Error: Binary not found: " ++ binary a)], 1).
Proof.
  intros Hf He. unfold arm_main, new_inspector. rewrite Hf. cbn [bind]. now rewrite He.
Qed.

(** ** A run of the tool *)

Definition nl : string := String "010"%char EmptyString.

(** What llvm-objdump prints for a binary with one [sdot]. *)
Definition demo_disasm : string :=
  nl ++ "/data/local/tmp/x265:" ++ String "009"%char "file format elf64-littleaarch64" ++ nl ++ nl
  ++ "Disassembly of section .text:" ++ nl ++ nl
  ++ "  401000: 4e829420     sdot v0.4s, v1.16b, v2.16b" ++ nl.

Definition demo_system : system := {|
  path_exists := fun p => String.eqb p "/data/local/tmp/x265";
  path_str := fun p => p;
  path_name := fun _ => "x265";
  file_size := fun _ => 4096;
  which := fun _ => Some "/usr/bin/llvm-objdump";
  glob := fun _ => [];
  expanduser := fun p => p;
  run := fun cmd =>
    match cmd with
    | [c; _] => if String.eqb c "file" then Exited 0 (android_line ++ nl) else ExeNotFound
    | [_; d; _] => if String.eqb d "-d" then Exited 0 demo_disasm else ExeNotFound
    | _ => ExeNotFound
    end;
  signal_repr := fun _ => None
|}.

Definition demo_args (level : nat) : arm_args := ArmArgs "/data/local/tmp/x265" None level false.

(** [file] exiting with status 1: the report carries the text of the
    [CalledProcessError], and every field takes its default. *)
Definition file_fails : system := {|
  path_exists := fun _ => true; path_str := fun p => p; path_name := fun _ => "x265";
  file_size := fun _ => 4096; which := fun _ => None; glob := fun _ => [];
  expanduser := fun p => p; run := fun _ => Exited 1 ""; signal_repr := fun _ => None |}.

Theorem get_file_info_failed :
  get_file_info file_fails (Inspector "/tmp/fake/data/x265" "llvm-objdump") =
    Ok "Error: Command '['file', '/tmp/fake/data/x265']' returned non-zero exit status 1." /\
  parse_file_info
    "Error: Command '['file', '/tmp/fake/data/x265']' returned non-zero exit status 1." =
    Ok (FileFields "unknown" "unknown" "unknown" false "none" "none" "unknown" "none" false false).
Proof. split; vm_compute; reflexivity. Qed.

(** llvm-objdump exiting with status 1 (e.g. on a file that is not an
    object file): [disassemble] returns [""], and [main] reports an
    empty stream, with exit status 0 and nothing on stderr. *)
Definition objdump_fails : system :=
  {| path_exists := path_exists demo_system; path_str := path_str demo_system;
     path_name := path_name demo_system; file_size := file_size demo_system;
     which := which demo_system; glob := glob demo_system;
     expanduser := expanduser demo_system;
     run := fun cmd => match cmd with
                       | [_; _; _] => Exited 1 ""
                       | _ => run demo_system cmd
                       end;
     signal_repr := signal_repr demo_system |}.

Theorem arm_main_objdump_fails :
  exists out, arm_main objdump_fails (demo_args 1) = (out, [], 0) /\
    In ("total_instructions", Plain, PInt 0) out /\
    In ("detected_extensions", Plain, PStr "none") out.
Proof.
  eexists. split; [vm_compute; reflexivity|].
  split; cbn [In]; repeat (solve [left; reflexivity] || right).
Qed.

(** ** Witnesses *)

Lemma arm_main_refines_witness :
  exists out,
    inspect (path_name demo_system (path_str demo_system (binary (demo_args 1))))
            (strip (android_line ++ nl))
            (file_size demo_system (path_str demo_system (binary (demo_args 1)))) demo_disasm = Ok out /\
    arm_main demo_system (demo_args 1)
    = (main_lines (debug_level (quiet (demo_args 1)) (debug (demo_args 1))) out, [], 0).
Proof. apply (arm_main_refines _ _ "/usr/bin/llvm-objdump"); reflexivity. Defined.

Lemma arm_main_missing_binary_witness :
  arm_main demo_system (ArmArgs "/tmp/missing" None 0 false)
  = ([], [ErrorText ("Error: Binary not found: " ++ "/tmp/missing")], 1).
Proof.
  apply (arm_main_missing_binary demo_system (ArmArgs "/tmp/missing" None 0 false)
           "/usr/bin/llvm-objdump"); reflexivity.
Defined.
