(* ===== verification/AuxvDecode.v ===== *)
(** * AuxvDecode: [parse_auxv] of auxv.print.py

    [parse_auxv] (auxv.print.py, lines 193-240) reads a buffer (a path is
    opened and read, bytes are taken as they are), picks the word size from
    the architecture hint (8 for aarch64/x86_64, 4 for i386/i686, the
    native [sizeof(unsigned long)] otherwise), raises [RuntimeError] for
    any other size, then walks [range(0, len(data), step)] with
    [step = 2 * word]: a short chunk or a zero tag ends the walk, every
    other chunk is unpacked by [struct.unpack] in the native byte order.

    The environment (file contents, native word size and byte order) is an
    explicit [platform] parameter.  [auxv_spec] is the abstract contract
    (the pairs of the complete chunks, up to the first AT_NULL), and
    [auxv_loop_refines] proves the loop implements it, [struct.error]
    included as an unreachable branch. *)

From Stdlib Require Import String List Bool Arith Lia NArith.
From Stdlib Require Import Strings.Byte.
From Equations Require Import Equations.
From S2P Require Import Prelude PyText.
Import ListNotations.

Local Open Scope nat_scope.

(** ** Machine words *)

Inductive endian : Type := Little | Big.

(** What the interpreter's platform contributes: [ctypes.sizeof(ctypes.c_ulong)]
    and the byte order of [struct]'s native mode. *)
Record platform : Type := Platform {
  native_ulong_size : nat;
  native_order : endian
}.

(** The [struct] formats of [parse_auxv]. *)
Inductive struct_fmt : Type := QQ | II.

Definition fmt_word (f : struct_fmt) : nat := match f with QQ => 8 | II => 4 end.

(** [step], the size of one (tag, value) pair. *)
Definition fmt_step (f : struct_fmt) : nat := 2 * fmt_word f.

(** Lines 214-220: the word size from the architecture hint. *)
Definition ul_size (arch : option string) (native : nat) : nat :=
  match arch with
  | Some a =>
      if String.eqb a "aarch64" || String.eqb a "x86_64" then 8
      else if String.eqb a "i386" || String.eqb a "i686" then 4
      else native
  | None => native
  end.

(** Lines 222-229: the format and step, or [RuntimeError]. *)
Definition select_fmt (ul : nat) : result (struct_fmt * nat) :=
  if ul =? 8 then Ok (QQ, 16)
  else if ul =? 4 then Ok (II, 8)
  else Raise (RuntimeError ("Unsupported word size: " ++ str_of_nat ul)).

(** An unsigned integer from its bytes, least significant first. *)
Fixpoint le_combine (bs : list byte) : N :=
  match bs with
  | [] => 0%N
  | b :: bs' => (Byte.to_N b + 256 * le_combine bs')%N
  end.

Definition word_of_bytes (e : endian) (bs : list byte) : N :=
  match e with Little => le_combine bs | Big => le_combine (rev bs) end.

(** [struct.unpack(fmt, chunk)]: two native words, or [struct.error] when
    the chunk does not have the size of the format. *)
Definition unpack (e : endian) (f : struct_fmt) (chunk : list byte) : result (N * N) :=
  let w := fmt_word f in
  if length chunk =? 2 * w
  then Ok (word_of_bytes e (firstn w chunk), word_of_bytes e (skipn w chunk))
  else Raise StructError.

(** ** The decoding loop *)

(** Lines 231-240, over the indices [range(0, len(data), step)]. *)
Fixpoint auxv_loop (e : endian) (f : struct_fmt) (step : nat) (data : list byte)
    (idx : list nat) : result (list (N * N)) :=
  match idx with
  | [] => Ok []
  | i :: idx' =>
      let chunk := py_slice data i (i + step) in
      if length chunk <? step then Ok []
      else
        pr <- unpack e f chunk ;;
        let (a_type, a_val) := pr in
        if (a_type =? 0)%N then Ok []
        else
          rest <- auxv_loop e f step data idx' ;;
          Ok ((a_type, a_val) :: rest)
  end.

(** Where the bytes come from: a path (opened and read) or a buffer. *)
Inductive auxv_source : Type :=
| FromPath (path : string)
| FromBytes (data : list byte).

(** Lines 205-209: the buffer; [fs] gives the contents of a readable file. *)
Definition source_bytes (fs : string -> option (list byte)) (src : auxv_source)
  : result (list byte) :=
  match src with
  | FromPath p => match fs p with Some d => Ok d | None => Raise (OSError p) end
  | FromBytes d => Ok d
  end.

(** [parse_auxv(path_or_data, arch)]. *)
Definition parse_auxv (fs : string -> option (list byte)) (plat : platform)
    (src : auxv_source) (arch : option string) : result (list (N * N)) :=
  data <- source_bytes fs src ;;
  fstep <- select_fmt (ul_size arch (native_ulong_size plat)) ;;
  let (f, step) := fstep in
  auxv_loop (native_order plat) f step data (py_range 0 (length data) step).

(** ** The contract: complete chunks, up to the first AT_NULL *)

(** The complete [step]-byte chunks of a buffer; a shorter tail is dropped. *)
Equations? chunks (f : struct_fmt) (data : list byte) : list (list byte)
  by wf (length data) lt :=
  chunks f data with lt_dec (length data) (fmt_step f) := {
    | left _ := [];
    | right _ := firstn (fmt_step f) data :: chunks f (skipn (fmt_step f) data) }.
Proof. rewrite length_skipn. destruct f; unfold fmt_step, fmt_word in *; lia. Qed.

Definition decode_pair (e : endian) (f : struct_fmt) (chunk : list byte) : N * N :=
  (word_of_bytes e (firstn (fmt_word f) chunk), word_of_bytes e (skipn (fmt_word f) chunk)).

(** The pairs before the first zero tag. *)
Fixpoint take_until_null (l : list (N * N)) : list (N * N) :=
  match l with
  | [] => []
  | (t, v) :: l' => if (t =? 0)%N then [] else (t, v) :: take_until_null l'
  end.

Definition auxv_spec (e : endian) (f : struct_fmt) (data : list byte) : list (N * N) :=
  take_until_null (map (decode_pair e f) (chunks f data)).

(** ** The loop implements the contract *)

Lemma fmt_step_pos f : 0 < fmt_step f.
Proof. destruct f; unfold fmt_step, fmt_word; lia. Qed.

Lemma chunks_step f data :
  chunks f data =
    if lt_dec (length data) (fmt_step f) then []
    else firstn (fmt_step f) data :: chunks f (skipn (fmt_step f) data).
Proof. rewrite chunks_equation_1. destruct (lt_dec (length data) (fmt_step f)); reflexivity. Qed.

Lemma auxv_loop_shift e f step data idx :
  auxv_loop e f step data (map (fun i => i + step) idx) =
  auxv_loop e f step (skipn step data) idx.
Proof.
  induction idx as [|i idx IH]; simpl; [reflexivity|].
  replace (i + step + step) with ((i + step) + step) by lia.
  now rewrite py_slice_skipn, IH.
Qed.

Lemma py_range_step_tail step n :
  0 < step -> step <= n ->
  py_range step n step = map (fun i => i + step) (py_range 0 (n - step) step).
Proof.
  intros Hs Hle. rewrite <- py_range_shift. f_equal; lia.
Qed.

Lemma unpack_full e f chunk :
  length chunk = fmt_step f -> unpack e f chunk = Ok (decode_pair e f chunk).
Proof.
  intros H. unfold unpack, decode_pair. unfold fmt_step in H.
  now rewrite H, Nat.eqb_refl.
Qed.

(** [data[0 : n]] is the first [n] bytes. *)
Lemma py_slice_prefix {A} (l : list A) n : py_slice l 0 (0 + n) = firstn n l.
Proof. unfold py_slice. simpl. now rewrite Nat.sub_0_r. Qed.

(** The loop over [range(0, len(data), step)] returns the contract's
    pairs; in particular [struct.unpack] never raises. *)
Theorem auxv_loop_refines e f data :
  auxv_loop e f (fmt_step f) data (py_range 0 (length data) (fmt_step f)) =
  Ok (auxv_spec e f data).
Proof.
  unfold auxv_spec. funelim (chunks f data); pose proof (fmt_step_pos f) as Hs.
  - destruct data as [|b data]; [now rewrite py_range_empty|].
    rewrite py_range_unfold by (simpl; lia). cbn [auxv_loop].
    rewrite py_slice_prefix, length_firstn.
    now rewrite (proj2 (Nat.ltb_lt _ _)) by lia.
  - rewrite py_range_unfold by lia. cbn [auxv_loop].
    rewrite py_slice_prefix, length_firstn.
    rewrite (proj2 (Nat.ltb_ge _ _)) by lia.
    rewrite unpack_full by (rewrite length_firstn; lia).
    cbn [bind map].
    destruct (decode_pair e f (firstn (fmt_step f) data)) as [t v] eqn:Ed.
    cbn [take_until_null]. destruct (t =? 0)%N; [reflexivity|].
    rewrite (py_range_step_tail _ _ Hs) by lia.
    rewrite auxv_loop_shift.
    replace (length data - fmt_step f) with (length (skipn (fmt_step f) data))
      by (rewrite length_skipn; lia).
    match goal with IH : forall _ : endian, auxv_loop _ _ _ _ _ = _ |- _ => rewrite IH end.
    reflexivity.
Qed.

(** ** [parse_auxv]: success, errors and the word size *)

Lemma select_fmt_ok ul f step :
  select_fmt ul = Ok (f, step) -> step = fmt_step f /\ fmt_word f = ul.
Proof.
  unfold select_fmt.
  destruct (Nat.eqb_spec ul 8) as [->|H8]; [intros H; apply Ok_inj in H; now inv H|].
  destruct (Nat.eqb_spec ul 4) as [->|H4]; [intros H; apply Ok_inj in H; now inv H|].
  discriminate.
Qed.

(** When the buffer is available and the word size is 4 or 8,
    [parse_auxv] returns the contract's pairs in the native byte order. *)
Lemma parse_auxv_spec fs plat src arch data f step :
  source_bytes fs src = Ok data ->
  select_fmt (ul_size arch (native_ulong_size plat)) = Ok (f, step) ->
  parse_auxv fs plat src arch = Ok (auxv_spec (native_order plat) f data).
Proof.
  intros Hsrc Hfmt. unfold parse_auxv. rewrite Hsrc. cbn [bind]. rewrite Hfmt. cbn [bind].
  apply select_fmt_ok in Hfmt as [-> _]. apply auxv_loop_refines.
Qed.

(** C2: [parse_auxv] implements the contract: with a word size of 4 or 8
    it returns the pairs of [auxv_spec] for the bytes of its source in the
    native byte order, and an unreadable path raises [OSError]; the loop
    never raises [struct.error]. *)
Theorem parse_auxv_refines fs plat src arch f step :
  select_fmt (ul_size arch (native_ulong_size plat)) = Ok (f, step) ->
  parse_auxv fs plat src arch =
  bind (source_bytes fs src) (fun data => Ok (auxv_spec (native_order plat) f data)).
Proof.
  intros Hfmt. unfold parse_auxv.
  destruct (source_bytes fs src) as [data|ex]; cbn [bind]; [|reflexivity].
  rewrite Hfmt. cbn [bind]. apply select_fmt_ok in Hfmt as [-> _]. apply auxv_loop_refines.
Qed.

(** C9: a word size other than 4 and 8 raises [RuntimeError] before any
    byte is decoded (spec, section 4.3: InvalidWordSize). *)
Theorem parse_auxv_bad_word_size fs plat src arch data :
  source_bytes fs src = Ok data ->
  ul_size arch (native_ulong_size plat) <> 8 ->
  ul_size arch (native_ulong_size plat) <> 4 ->
  parse_auxv fs plat src arch =
    Raise (RuntimeError ("Unsupported word size: " ++ str_of_nat (ul_size arch (native_ulong_size plat)))%string).
Proof.
  intros Hsrc H8 H4. unfold parse_auxv. rewrite Hsrc. cbn [bind]. unfold select_fmt.
  rewrite (proj2 (Nat.eqb_neq _ _) H8), (proj2 (Nat.eqb_neq _ _) H4). reflexivity.
Qed.

(** C18: an architecture hint outside aarch64, x86_64, i386 and i686 is
    not an error: it falls back to the native word size.  On a 64-bit host,
    ["riscv64"] decodes as 8-byte words, where the spec (section 8) asks
    for a configuration error. *)
Theorem parse_auxv_unknown_arch fs plat src data :
  native_ulong_size plat = 8 ->
  source_bytes fs src = Ok data ->
  parse_auxv fs plat src (Some "riscv64"%string) = Ok (auxv_spec (native_order plat) QQ data).
Proof.
  intros Hn Hsrc. apply (parse_auxv_spec _ _ _ _ _ _ 16 Hsrc).
  rewrite Hn. reflexivity.
Qed.

(** ** Encoding: the layout the kernel writes *)

(** The byte [n mod 256]. *)
Definition byte_of (n : N) : byte :=
  match Byte.of_N (n mod 256) with Some b => b | None => Byte.x00 end.

(** The [w] low-order bytes of [x], least significant first. *)
Fixpoint le_split (w : nat) (x : N) : list byte :=
  match w with
  | O => []
  | S w' => byte_of x :: le_split w' (x / 256)
  end.

Definition bytes_of_word (e : endian) (w : nat) (x : N) : list byte :=
  match e with Little => le_split w x | Big => rev (le_split w x) end.

(** One (tag, value) pair as two words of the format. *)
Definition encode_pair (e : endian) (f : struct_fmt) (p : N * N) : list byte :=
  bytes_of_word e (fmt_word f) (fst p) ++ bytes_of_word e (fmt_word f) (snd p).

Definition encode_auxv (e : endian) (f : struct_fmt) (entries : list (N * N)) : list byte :=
  flat_map (encode_pair e f) entries.

(** [2 ^ (8 * word)]: one more than the largest word of the format. *)
Definition word_bound (f : struct_fmt) : N := (256 ^ N.of_nat (fmt_word f))%N.

Lemma to_N_byte_of n : Byte.to_N (byte_of n) = (n mod 256)%N.
Proof.
  unfold byte_of. destruct (Byte.of_N (n mod 256)) eqn:E.
  - now apply Byte.to_of_N.
  - apply Byte.of_N_None_iff in E. pose proof (N.mod_lt n 256). lia.
Qed.

Lemma length_le_split w x : length (le_split w x) = w.
Proof. revert x. induction w; simpl; auto. Qed.

Lemma length_bytes_of_word e w x : length (bytes_of_word e w x) = w.
Proof. destruct e; simpl; [|rewrite length_rev]; apply length_le_split. Qed.

Lemma le_combine_split w x : le_combine (le_split w x) = (x mod 256 ^ N.of_nat w)%N.
Proof.
  revert x. induction w as [|w IH]; intros x; cbn [le_split le_combine].
  - now rewrite N.mod_1_r.
  - rewrite IH, to_N_byte_of, Nat2N.inj_succ, N.pow_succ_r'.
    now rewrite N.Div0.mod_mul_r.
Qed.

Lemma le_combine_bound bs : (le_combine bs < 256 ^ N.of_nat (length bs))%N.
Proof.
  induction bs as [|b bs IH]; cbn [le_combine length]; [simpl; lia|].
  rewrite Nat2N.inj_succ, N.pow_succ_r'. pose proof (Byte.to_N_bounded b). nia.
Qed.

Lemma word_of_bytes_of_word e w x :
  word_of_bytes e (bytes_of_word e w x) = (x mod 256 ^ N.of_nat w)%N.
Proof. destruct e; simpl; [|rewrite rev_involutive]; apply le_combine_split. Qed.

Lemma length_encode_pair e f p : length (encode_pair e f p) = fmt_step f.
Proof. unfold encode_pair, fmt_step. rewrite length_app, !length_bytes_of_word. lia. Qed.

Lemma decode_encode_pair e f t v :
  decode_pair e f (encode_pair e f (t, v)) =
  ((t mod word_bound f)%N, (v mod word_bound f)%N).
Proof.
  unfold decode_pair, encode_pair, word_bound. simpl fst. simpl snd.
  rewrite firstn_app_eq, skipn_app_eq by apply length_bytes_of_word.
  now rewrite !word_of_bytes_of_word.
Qed.

Lemma chunks_cons f c rest :
  length c = fmt_step f -> chunks f (c ++ rest) = c :: chunks f rest.
Proof.
  intros Hc. rewrite chunks_step. rewrite length_app.
  destruct (lt_dec (length c + length rest) (fmt_step f)); [lia|].
  now rewrite firstn_app_eq, skipn_app_eq by exact Hc.
Qed.

(** ** Round trip, truncation and bounds *)

(** A pair that fits the format and is not the terminator. *)
Definition well_formed_pair (f : struct_fmt) (p : N * N) : Prop :=
  fst p <> 0%N /\ (fst p < word_bound f)%N /\ (snd p < word_bound f)%N.

(** Encoding pairs, then an AT_NULL pair, then any bytes, and decoding
    gives back exactly the pairs, in order. *)
Lemma auxv_spec_roundtrip e f entries v0 junk :
  Forall (well_formed_pair f) entries ->
  auxv_spec e f (encode_auxv e f entries ++ encode_pair e f (0%N, v0) ++ junk) = entries.
Proof.
  unfold auxv_spec, encode_auxv.
  induction 1 as [|[t v] entries (Ht0 & Ht & Hv) _ IH]; cbn [flat_map app].
  - rewrite chunks_cons by apply length_encode_pair. cbn [map].
    now rewrite decode_encode_pair, N.Div0.mod_0_l.
  - rewrite <- app_assoc, chunks_cons by apply length_encode_pair. cbn [map].
    rewrite decode_encode_pair, !N.mod_small by assumption. cbn [take_until_null].
    rewrite (proj2 (N.eqb_neq t 0) Ht0). now rewrite IH.
Qed.

(** C3: [parse_auxv] of a buffer that encodes pairs in the native byte
    order, then an AT_NULL pair, then any bytes, returns exactly the
    pairs, in their order (spec, section 8). *)
Theorem parse_auxv_roundtrip fs plat arch f step entries v0 junk :
  select_fmt (ul_size arch (native_ulong_size plat)) = Ok (f, step) ->
  Forall (well_formed_pair f) entries ->
  parse_auxv fs plat
    (FromBytes (encode_auxv (native_order plat) f entries
                ++ encode_pair (native_order plat) f (0%N, v0) ++ junk)) arch = Ok entries.
Proof.
  intros Hfmt Hwf. erewrite parse_auxv_spec; [|reflexivity|exact Hfmt].
  now rewrite auxv_spec_roundtrip.
Qed.

Lemma chunks_truncate f k data junk :
  length data = k * fmt_step f -> length junk < fmt_step f ->
  chunks f (data ++ junk) = chunks f data.
Proof.
  revert data. induction k as [|k IH]; intros data Hlen Hj.
  - destruct data; [|discriminate]. rewrite app_nil_l.
    rewrite (chunks_step f junk), (chunks_step f []).
    destruct (lt_dec (length junk) _) as [_|]; [|lia].
    destruct (lt_dec (length (@nil byte)) _) as [_|Hn]; [reflexivity|].
    simpl in Hn. pose proof (fmt_step_pos f). lia.
  - rewrite <- (firstn_skipn (fmt_step f) data), <- app_assoc.
    assert (Hc : length (firstn (fmt_step f) data) = fmt_step f)
      by (rewrite length_firstn; lia).
    rewrite (chunks_cons f _ _ Hc), (chunks_cons f _ (skipn (fmt_step f) data) Hc).
    rewrite IH; [reflexivity| |exact Hj]. rewrite length_skipn. lia.
Qed.

(** Bytes after the last complete pair are ignored. *)
Lemma auxv_spec_truncation e f k data junk :
  length data = k * fmt_step f -> length junk < fmt_step f ->
  auxv_spec e f (data ++ junk) = auxv_spec e f data.
Proof. intros H1 H2. unfold auxv_spec. now rewrite (chunks_truncate f k). Qed.

Lemma chunks_length f data : Forall (fun c => length c = fmt_step f) (chunks f data).
Proof.
  funelim (chunks f data); constructor; [|assumption].
  rewrite length_firstn. lia.
Qed.

Lemma take_until_null_nonzero l : Forall (fun p => fst p <> 0%N) (take_until_null l).
Proof.
  induction l as [|[t v] l IH]; simpl; [constructor|].
  destruct (N.eqb_spec t 0); [constructor|constructor; auto].
Qed.

Lemma take_until_null_sub (P : N * N -> Prop) l :
  Forall P l -> Forall P (take_until_null l).
Proof.
  induction 1 as [|[t v] l Hp _ IH]; simpl; [constructor|].
  destruct (t =? 0)%N; [constructor|constructor; auto].
Qed.

(** Every decoded pair has a non-zero tag, and both words fit the format. *)
Lemma auxv_spec_bounds e f data : Forall (well_formed_pair f) (auxv_spec e f data).
Proof.
  unfold auxv_spec.
  assert (Hb : Forall (fun p => (fst p < word_bound f)%N /\ (snd p < word_bound f)%N)
                      (take_until_null (map (decode_pair e f) (chunks f data)))).
  { apply take_until_null_sub. apply Forall_map.
    eapply Forall_impl; [|apply chunks_length]. intros c Hc.
    unfold decode_pair, word_bound. simpl.
    assert (Hw : forall bs, length bs = fmt_word f ->
                 (word_of_bytes e bs < 256 ^ N.of_nat (fmt_word f))%N).
    { intros bs Hbs. destruct e; simpl; rewrite <- Hbs; [|rewrite <- length_rev];
        apply le_combine_bound. }
    split; apply Hw; [rewrite length_firstn|rewrite length_skipn];
      unfold fmt_step in Hc; lia. }
  pose proof (take_until_null_nonzero (map (decode_pair e f) (chunks f data))) as Hn.
  clear -Hb Hn. induction Hb as [|p l Hp _ IH]; [constructor|].
  inv Hn. constructor; [unfold well_formed_pair; tauto|auto].
Qed.

(** ** The spec's example buffer *)

(** Three 4-byte (tag, value) pairs, little-endian, the third one AT_NULL:
    AT_PLATFORM (16), AT_PAGESZ (6) = 4096, AT_NULL. *)
Definition sample_auxv_i386 : list byte :=
  encode_auxv Little II [(16%N, 3221225472%N); (6%N, 4096%N); (0%N, 0%N)].

(** With the hint "i386", the 24 bytes decode to the two pairs before
    the terminator (spec, section 8). *)
Theorem sample_auxv_i386_decodes :
  length sample_auxv_i386 = 24 /\
  parse_auxv (fun _ => None) (Platform 8 Little) (FromBytes sample_auxv_i386) (Some "i386"%string)
  = Ok [(16%N, 3221225472%N); (6%N, 4096%N)].
Proof. split; vm_compute; reflexivity. Qed.

(** ** Truncation and bounds of [parse_auxv] *)

(** C7: bytes after the last complete pair are ignored: a buffer cut in
    the middle of a pair decodes as the buffer without the partial pair
    (spec, section 8). *)
Theorem parse_auxv_truncation fs plat arch f step k data junk :
  select_fmt (ul_size arch (native_ulong_size plat)) = Ok (f, step) ->
  length data = k * step -> length junk < step ->
  parse_auxv fs plat (FromBytes (data ++ junk)) arch = parse_auxv fs plat (FromBytes data) arch.
Proof.
  intros Hfmt Hk Hj. pose proof (select_fmt_ok _ _ _ Hfmt) as [-> _].
  erewrite !parse_auxv_spec by (reflexivity || exact Hfmt).
  f_equal. now apply (auxv_spec_truncation _ _ k).
Qed.

(** C13: every pair [parse_auxv] returns has a non-zero tag, and tag and
    value fit the word size it selected. *)
Theorem parse_auxv_bounds fs plat src arch entries :
  parse_auxv fs plat src arch = Ok entries ->
  exists f, fmt_word f = ul_size arch (native_ulong_size plat) /\
            Forall (well_formed_pair f) entries.
Proof.
  unfold parse_auxv. destruct (source_bytes fs src) as [data|ex]; cbn [bind]; [|discriminate].
  destruct (select_fmt _) as [[f step]|ex] eqn:Hf; cbn [bind]; [|discriminate].
  apply select_fmt_ok in Hf as [-> Hw]. rewrite auxv_loop_refines. intros H.
  apply Ok_inj in H. subst. exists f. split; [exact Hw|apply auxv_spec_bounds].
Qed.

(** ** Witnesses *)

(** A little-endian 64-bit host. *)
Definition host64 : platform := Platform 8 Little.

Definition no_files : string -> option (list byte) := fun _ => None.

Definition sample_entries : list (N * N) := [(16%N, 3221225472%N); (6%N, 4096%N)].

Lemma parse_auxv_refines_witness :
  parse_auxv no_files host64 (FromBytes sample_auxv_i386) (Some "i386"%string) =
  bind (source_bytes no_files (FromBytes sample_auxv_i386))
       (fun data => Ok (auxv_spec Little II data)).
Proof.
  apply (parse_auxv_refines no_files host64 (FromBytes sample_auxv_i386) (Some "i386"%string) II 8).
  reflexivity.
Defined.

Lemma parse_auxv_roundtrip_witness :
  parse_auxv no_files host64
    (FromBytes (encode_auxv Little II sample_entries ++ encode_pair Little II (0%N, 0%N) ++ []))
    (Some "i386"%string) = Ok sample_entries.
Proof.
  apply (parse_auxv_roundtrip no_files host64 (Some "i386"%string) II 8).
  - reflexivity.
  - repeat constructor; unfold well_formed_pair, word_bound; simpl; lia.
Defined.

Lemma parse_auxv_truncation_witness :
  parse_auxv no_files host64 (FromBytes (encode_auxv Little II sample_entries ++ [Byte.x01; Byte.x02]))
    (Some "i386"%string) =
  parse_auxv no_files host64 (FromBytes (encode_auxv Little II sample_entries)) (Some "i386"%string).
Proof.
  apply (parse_auxv_truncation no_files host64 (Some "i386"%string) II 8 2).
  - reflexivity.
  - vm_compute. reflexivity.
  - simpl. lia.
Defined.

Lemma parse_auxv_bad_word_size_witness :
  parse_auxv no_files (Platform 2 Little) (FromBytes []) None =
    Raise (RuntimeError ("Unsupported word size: " ++ str_of_nat 2)%string).
Proof.
  apply (parse_auxv_bad_word_size no_files (Platform 2 Little) (FromBytes []) None []);
    [reflexivity|simpl; lia|simpl; lia].
Defined.

Lemma parse_auxv_bounds_witness :
  exists f, fmt_word f = ul_size (Some "i386"%string) 8 /\ Forall (well_formed_pair f) sample_entries.
Proof.
  apply (parse_auxv_bounds no_files host64 (FromBytes sample_auxv_i386)).
  vm_compute. reflexivity.
Defined.

Lemma parse_auxv_unknown_arch_witness :
  parse_auxv no_files host64 (FromBytes sample_auxv_i386) (Some "riscv64"%string) =
  Ok (auxv_spec Little QQ sample_auxv_i386).
Proof.
  apply (parse_auxv_unknown_arch no_files host64 (FromBytes sample_auxv_i386) sample_auxv_i386);
    reflexivity.
Defined.
