(* ===== verification/AuxvMachine.v ===== *)
(** * AuxvMachine: the loop of [parse_auxv] as a transition system

    The [for] loop of [parse_auxv] (auxv.print.py, lines 230-240) read one
    iteration at a time: a state is the loop at index [i] with the
    [entries] appended so far, or the function having returned [entries],
    or [struct.unpack] having raised.  [loop_next] is one iteration
    (executable), [loop_step] the same transition as a relation with one
    rule per exit of the body, and [run_loop] iterates it with fuel.

    The theorems: the relation is the function's graph, so it is
    deterministic and halted states do not step; every run from any
    state of the loop eventually halts, in the state that the recursive
    model [AuxvDecode.auxv_loop] gives ([loop_eventually_outcome]);
    started as [parse_auxv] starts it, every run ends returning the
    contract's pairs [auxv_spec] ([auxv_machine_returns_spec]); and
    [length data + 1] iterations are enough ([run_loop_enough]).

    [eventually] is the inductive "every run reaches [P]" of
    omni-semantics: a state satisfies [P], or it can step and all its
    successors eventually satisfy [P].  It cannot hold of a stuck state
    that does not satisfy [P], so it states liveness, not only partial
    correctness. *)

From Stdlib Require Import List Arith Lia NArith Relations.
From Stdlib Require Import Strings.Byte.
From S2P Require Import Prelude AuxvDecode.
Import ListNotations.

(** ** Every run reaches [P] *)

Section Eventually.
Context {S : Type} (step : S -> S -> Prop).

Inductive eventually (P : S -> Prop) : S -> Prop :=
| eventually_done s : P s -> eventually P s
| eventually_step s :
    (exists s', step s s') -> (forall s', step s s' -> eventually P s') -> eventually P s.

Lemma eventually_weaken (P Q : S -> Prop) s :
  eventually P s -> (forall x, P x -> Q x) -> eventually Q s.
Proof.
  induction 1 as [s Hp|s Hex _ IH]; intros HPQ;
    [apply eventually_done; auto|apply eventually_step; auto].
Qed.

End Eventually.

(** ** States and transitions *)

Inductive loop_state : Type :=
| Loop (i : nat) (entries : list (N * N))   (** the body is about to run at index [i] *)
| Done (entries : list (N * N))             (** [return entries] *)
| Failed (exc : py_exc).                    (** [struct.unpack] raised *)

Definition halted (s : loop_state) : Prop :=
  match s with Loop _ _ => False | _ => True end.

Section Machine.
Context (e : endian) (f : struct_fmt) (step : nat) (data : list byte).

(** One iteration of [for i in range(0, len(data), step)], or the end of
    the range. *)
Definition loop_next (s : loop_state) : option loop_state :=
  match s with
  | Loop i entries =>
      if i <? length data then
        let chunk := py_slice data i (i + step) in
        if length chunk <? step then Some (Done entries)
        else match unpack e f chunk with
             | Raise exc => Some (Failed exc)
             | Ok (a_type, a_val) =>
                 if (a_type =? 0)%N then Some (Done entries)
                 else Some (Loop (i + step) (entries ++ [(a_type, a_val)]))
             end
      else Some (Done entries)
  | _ => None
  end.

(** The same transition, one rule per exit of the body. *)
Inductive loop_step : loop_state -> loop_state -> Prop :=
| step_range_end i entries :
    length data <= i -> loop_step (Loop i entries) (Done entries)
| step_short_chunk i entries :
    i < length data -> length (py_slice data i (i + step)) < step ->
    loop_step (Loop i entries) (Done entries)
| step_unpack_error i entries exc :
    i < length data -> step <= length (py_slice data i (i + step)) ->
    unpack e f (py_slice data i (i + step)) = Raise exc ->
    loop_step (Loop i entries) (Failed exc)
| step_at_null i entries a_val :
    i < length data -> step <= length (py_slice data i (i + step)) ->
    unpack e f (py_slice data i (i + step)) = Ok (0%N, a_val) ->
    loop_step (Loop i entries) (Done entries)
| step_append i entries a_type a_val :
    i < length data -> step <= length (py_slice data i (i + step)) ->
    unpack e f (py_slice data i (i + step)) = Ok (a_type, a_val) -> a_type <> 0%N ->
    loop_step (Loop i entries) (Loop (i + step) (entries ++ [(a_type, a_val)])).

(** [fuel] iterations at most. *)
Fixpoint run_loop (fuel : nat) (s : loop_state) : loop_state :=
  match fuel with
  | 0 => s
  | S n => match loop_next s with Some s' => run_loop n s' | None => s end
  end.

(** The state the recursive model's result stands for. *)
Definition outcome (entries : list (N * N)) (r : result (list (N * N))) : loop_state :=
  match r with Ok es => Done (entries ++ es) | Raise exc => Failed exc end.

(** States reachable from the start of the loop. *)
Definition reachable (s : loop_state) : Prop :=
  clos_refl_trans_1n loop_state loop_step (Loop 0 []) s.

(** The loop's invariant: the index is [step] times the number of pairs
    appended, and no appended pair has the tag AT_NULL. *)
Definition loop_inv (s : loop_state) : Prop :=
  match s with
  | Loop i entries => i = step * length entries /\ Forall (fun p => fst p <> 0%N) entries
  | Done entries => Forall (fun p => fst p <> 0%N) entries
  | Failed _ => True
  end.

End Machine.

(** ** The relation is the graph of [loop_next] *)

Section Facts.
Context (e : endian) (f : struct_fmt) (step : nat) (data : list byte).

Lemma loop_step_next s s' : loop_step e f step data s s' <-> loop_next e f step data s = Some s'.
Proof.
  split.
  - intros H. inv H; cbn [loop_next];
      repeat match goal with
      | H : ?a <= ?b |- context [?b <? ?a] => rewrite (proj2 (Nat.ltb_ge _ _) H)
      | H : ?a < ?b |- context [?a <? ?b] => rewrite (proj2 (Nat.ltb_lt _ _) H)
      | H : unpack _ _ _ = _ |- _ => rewrite H
      end; try reflexivity.
    + now rewrite (proj2 (N.eqb_neq _ _)).
  - destruct s as [i entries| |]; cbn [loop_next]; try discriminate.
    destruct (i <? length data) eqn:Ei; [apply Nat.ltb_lt in Ei|apply Nat.ltb_ge in Ei];
      [|intros [= <-]; now constructor].
    destruct (length (py_slice data i (i + step)) <? step) eqn:Ec;
      [apply Nat.ltb_lt in Ec; intros [= <-]; now constructor|apply Nat.ltb_ge in Ec].
    destruct (unpack e f (py_slice data i (i + step))) as [[t v]|exc] eqn:Eu;
      [|intros [= <-]; now constructor].
    destruct (t =? 0)%N eqn:Et; intros [= <-].
    + apply N.eqb_eq in Et. subst t. eapply step_at_null; eauto.
    + apply N.eqb_neq in Et. now constructor.
Qed.

Lemma loop_step_deterministic s s1 s2 :
  loop_step e f step data s s1 -> loop_step e f step data s s2 -> s1 = s2.
Proof. rewrite !loop_step_next. congruence. Qed.

Lemma halted_no_step s s' : halted s -> ~ loop_step e f step data s s'.
Proof. rewrite loop_step_next. destruct s; cbn; [contradiction|discriminate|discriminate]. Qed.

Lemma halted_outcome entries r : halted (outcome entries r).
Proof. destruct r; exact I. Qed.

Lemma outcome_snoc entries p r :
  outcome (entries ++ [p]) r = outcome entries (rest <- r ;; Ok (p :: rest)).
Proof. destruct r; cbn; [now rewrite <- app_assoc|reflexivity]. Qed.

Lemma loop_inv_step s s' :
  loop_inv step s -> loop_step e f step data s s' -> loop_inv step s'.
Proof.
  intros Hs H. inv H; cbn [loop_inv] in *; try tauto.
  destruct Hs as [-> Hall]. rewrite length_app. split; [cbn; lia|].
  apply Forall_app. split; [exact Hall|constructor; auto].
Qed.

Lemma loop_inv_star x s :
  clos_refl_trans_1n loop_state (loop_step e f step data) x s -> loop_inv step x -> loop_inv step s.
Proof. induction 1; eauto using loop_inv_step. Qed.

Context (Hstep : 0 < step).

(** One iteration from [Loop i entries]: either it halts in the state the
    recursive model gives, or it appends the pair [p] the recursive model
    puts first and moves on to [i + step]. *)
Lemma loop_next_loop i entries :
  let r := auxv_loop e f step data (py_range i (length data) step) in
  loop_next e f step data (Loop i entries) = Some (outcome entries r) \/
  exists p, i < length data /\
    loop_next e f step data (Loop i entries) = Some (Loop (i + step) (entries ++ [p])) /\
    r = (rest <- auxv_loop e f step data (py_range (i + step) (length data) step) ;; Ok (p :: rest)).
Proof.
  cbn zeta. cbn [loop_next]. destruct (i <? length data) eqn:Ei.
  - apply Nat.ltb_lt in Ei. rewrite (py_range_unfold _ _ _ Hstep Ei). cbn [auxv_loop].
    destruct (length (py_slice data i (i + step)) <? step);
      [left; cbn; now rewrite app_nil_r|].
    destruct (unpack e f (py_slice data i (i + step))) as [[t v]|exc]; cbn [bind];
      [|left; reflexivity].
    destruct (t =? 0)%N; [left; cbn; now rewrite app_nil_r|].
    right. exists (t, v). auto.
  - apply Nat.ltb_ge in Ei. rewrite py_range_empty by exact Ei.
    left. cbn. now rewrite app_nil_r.
Qed.

(** Liveness of the loop: from any index, every run halts, in the state
    the recursive model [auxv_loop] gives. *)
Lemma loop_eventually_outcome i entries :
  eventually (loop_step e f step data)
    (fun s => s = outcome entries (auxv_loop e f step data (py_range i (length data) step)))
    (Loop i entries).
Proof.
  remember (length data - i) as n eqn:En. revert i entries En.
  induction n as [n IH] using lt_wf_ind. intros i entries En.
  apply eventually_step.
  - destruct (loop_next_loop i entries) as [H|(p & _ & H & _)]; eexists; apply loop_step_next, H.
  - intros s' Hs'. apply loop_step_next in Hs'.
    destruct (loop_next_loop i entries) as [H|(p & Hi & H & ->)]; rewrite H in Hs'; inv Hs'.
    + now apply eventually_done.
    + eapply eventually_weaken; [apply (IH (length data - (i + step))); [lia|reflexivity]|].
      intros s ->. apply outcome_snoc.
Qed.

(** [length data - i + 1] iterations are enough: the run has halted. *)
Lemma run_loop_enough n i entries :
  length data - i < n ->
  run_loop e f step data n (Loop i entries)
  = outcome entries (auxv_loop e f step data (py_range i (length data) step)).
Proof.
  revert i entries. induction n as [|n IH]; intros i entries Hn; [lia|].
  cbn [run_loop]. destruct (loop_next_loop i entries) as [H|(p & Hi & H & ->)]; rewrite H.
  - destruct n; [reflexivity|]. cbn [run_loop].
    destruct (auxv_loop e f step data (py_range i (length data) step)); reflexivity.
  - rewrite IH by lia. apply outcome_snoc.
Qed.

End Facts.

(** ** The loop of [parse_auxv] *)

(** Liveness of [parse_auxv]'s loop: started at index 0 with no
    entries, every run of the loop over the chunks of the word format
    halts, and halts returning the contract's pairs [auxv_spec]: the
    complete chunks up to the first AT_NULL. *)
Theorem auxv_machine_returns_spec e f data :
  eventually (loop_step e f (fmt_step f) data)
    (fun s => s = Done (auxv_spec e f data)) (Loop 0 []).
Proof.
  eapply eventually_weaken; [apply (loop_eventually_outcome _ _ _ _ (fmt_step_pos f))|].
  intros s ->. now rewrite auxv_loop_refines.
Qed.

(** C25: the invariant of the loop, by induction on the run: in every
    state reachable from the start, the index is [step] times the number
    of entries, and no entry has the tag AT_NULL. *)
Theorem loop_reachable_inv e f step data s :
  reachable e f step data s -> loop_inv step s.
Proof.
  intros H. apply (loop_inv_star e f step data (Loop 0 [])); [exact H|].
  cbn. split; [lia|constructor].
Qed.

(** [length data + 1] iterations of the loop over the chunks of the word
    format are enough: the run has returned the contract's pairs. *)
Theorem auxv_machine_run e f data :
  run_loop e f (fmt_step f) data (S (length data)) (Loop 0 []) = Done (auxv_spec e f data).
Proof.
  rewrite (run_loop_enough _ _ _ _ (fmt_step_pos f)) by lia.
  now rewrite auxv_loop_refines.
Qed.

(** The run on the spec's i386 buffer: two iterations append AT_PLATFORM
    and AT_PAGESZ, the third meets AT_NULL. *)
Theorem sample_auxv_i386_run :
  run_loop Little II 8 sample_auxv_i386 1 (Loop 0 []) = Loop 8 [(16%N, 3221225472%N)] /\
  run_loop Little II 8 sample_auxv_i386 2 (Loop 0 []) = Loop 16 [(16%N, 3221225472%N); (6%N, 4096%N)] /\
  run_loop Little II 8 sample_auxv_i386 3 (Loop 0 []) = Done [(16%N, 3221225472%N); (6%N, 4096%N)].
Proof. repeat split; vm_compute; reflexivity. Qed.

(** ** Witnesses *)

Lemma loop_reachable_inv_witness :
  loop_inv 8 (Loop 16 [(16%N, 3221225472%N); (6%N, 4096%N)]).
Proof.
  apply (loop_reachable_inv Little II 8 sample_auxv_i386).
  eapply Relation_Operators.rt1n_trans; [apply loop_step_next; vm_compute; reflexivity|].
  eapply Relation_Operators.rt1n_trans; [apply loop_step_next; vm_compute; reflexivity|].
  apply rt1n_refl.
Defined.
