(* ===== verification/HwcapTables.v ===== *)
(** * HwcapTables: the static tables of auxv.print.py

    The tag names [AT_NAMES] (auxv.print.py, lines 28-63) and the
    capability bit tables [AARCH64_HWCAP] (lines 66-95), [AARCH64_HWCAP2]
    (lines 97-123) and [X86_HWCAP] (lines 127-149), copied verbatim as
    association lists in the insertion order of the dict literals, and the
    lookup [AT_NAMES.get(t, "AT_%d" % t)] of [main].  The lemmas here are
    facts about the tables: no key is repeated (so no dict entry is
    overwritten) and every bit position lies in a 32-bit word. *)

From Stdlib Require Import String List Bool Arith Lia NArith.
From S2P Require Import Prelude PyText.
Import ListNotations.

Local Open Scope string_scope.

(** [AT_NAMES] as the source writes it; its comment cites linux/auxvec.h,
    but it numbers AT_CLKTCK 15, AT_PLATFORM 16 and AT_HWCAP 17, where the
    kernel header has 17, 15 and 16 (see [AuxvPrint]). *)
Definition AT_NAMES : list (N * string) := [
  (0%N, "AT_NULL");
  (1%N, "AT_IGNORE");
  (2%N, "AT_EXECFD");
  (3%N, "AT_PHDR");
  (4%N, "AT_PHENT");
  (5%N, "AT_PHNUM");
  (6%N, "AT_PAGESZ");
  (7%N, "AT_BASE");
  (8%N, "AT_FLAGS");
  (9%N, "AT_ENTRY");
  (10%N, "AT_NOTELF");
  (11%N, "AT_UID");
  (12%N, "AT_EUID");
  (13%N, "AT_GID");
  (14%N, "AT_EGID");
  (15%N, "AT_CLKTCK");
  (16%N, "AT_PLATFORM");  (* usually a pointer to a NUL-terminated string *)
  (17%N, "AT_HWCAP");
  (18%N, "AT_FPUCW");
  (19%N, "AT_DCACHEBSIZE");
  (20%N, "AT_ICACHEBSIZE");
  (21%N, "AT_UCACHEBSIZE");
  (22%N, "AT_IGNOREPPC");
  (23%N, "AT_SECURE");
  (24%N, "AT_BASE_PLATFORM");
  (25%N, "AT_RANDOM");  (* pointer to 16 random bytes *)
  (26%N, "AT_HWCAP2");
  (31%N, "AT_EXECFN");  (* pointer to program path string *)
  (32%N, "AT_SYSINFO");
  (33%N, "AT_SYSINFO_EHDR");
  (34%N, "AT_L1I_CACHESHAPE");
  (35%N, "AT_L1D_CACHESHAPE");
  (36%N, "AT_L2_CACHESHAPE");
  (37%N, "AT_L3_CACHESHAPE")
].

(** [AARCH64_HWCAP]: bit position to capability name for AT_HWCAP. *)
Definition AARCH64_HWCAP : list (nat * string) := [
  (0, "FP");
  (1, "ASIMD");  (* NEON *)
  (2, "EVTSTRM");
  (3, "AES");
  (4, "PMULL");
  (5, "SHA1");
  (6, "SHA2");
  (7, "CRC32");
  (8, "ATOMICS");
  (9, "FPHP");
  (10, "ASIMDHP");
  (11, "CPUID");
  (12, "ASIMDRDM");
  (13, "JSCVT");
  (14, "FCMA");
  (15, "LRCPC");
  (16, "DCPOP");
  (17, "SHA3");
  (18, "SM3");
  (19, "SM4");
  (20, "ASIMDDP");
  (21, "SHA512");
  (22, "SVE");
  (23, "ASIMDFHM");
  (28, "ILRCPC");
  (29, "FLAGM");
  (30, "SSBS");
  (31, "SB")
].

(** [AARCH64_HWCAP2]: the same for AT_HWCAP2. *)
Definition AARCH64_HWCAP2 : list (nat * string) := [
  (0, "DCPODP");
  (1, "SVE2");
  (2, "SVEAES");
  (3, "SVEPMULL");
  (4, "SVEBITPERM");
  (5, "SVESHA3");
  (6, "SVESM4");
  (7, "FLAGM2");
  (8, "FRINT");
  (9, "SVEI8MM");
  (10, "SVEF32MM");
  (11, "SVEF64MM");
  (12, "SVEBF16");
  (13, "I8MM");
  (14, "BF16");
  (15, "DGH");
  (16, "RNG");
  (17, "BTI");
  (20, "MTE");
  (21, "ECV");
  (22, "AFP");
  (23, "RPRFM");
  (28, "MTE3");
  (29, "SSELECT");
  (30, "IDST")
].

(** [X86_HWCAP]: bit position to capability name on x86. *)
Definition X86_HWCAP : list (nat * string) := [
  (0, "FPU");
  (1, "VME");
  (2, "DE");
  (3, "PSE");
  (4, "TSC");
  (5, "MSR");
  (6, "PAE");
  (7, "MCE");
  (8, "CX8");
  (9, "APIC");
  (11, "SEP");
  (12, "MTRR");
  (13, "PGE");
  (14, "MCA");
  (15, "CMOV");
  (16, "PAT");
  (17, "PSE36");
  (19, "CLFLUSH");
  (23, "MMX");
  (25, "SSE");
  (26, "SSE2")
].

(** [dict.get] on an association list with distinct keys. *)
Fixpoint assoc_get {K V} (eqb : K -> K -> bool) (k : K) (l : list (K * V)) : option V :=
  match l with
  | [] => None
  | (k', v) :: l' => if eqb k k' then Some v else assoc_get eqb k l'
  end.

(** ["%d" % n] for a tag. *)
Definition str_of_N (n : N) : string := str_of_nat (N.to_nat n).

(** [AT_NAMES.get(t, "AT_%d" % t)] (lines 318 and 324). *)
Definition at_name (t : N) : string :=
  match assoc_get N.eqb t AT_NAMES with
  | Some name => name
  | None => "AT_" ++ str_of_N t
  end.

(** ** Facts about the tables *)

Lemma AT_NAMES_keys_NoDup : NoDup (map fst AT_NAMES).
Proof. apply (nodupb_NoDup N.eqb N.eqb_eq). vm_compute. reflexivity. Qed.

Lemma AARCH64_HWCAP_keys_NoDup : NoDup (map fst AARCH64_HWCAP).
Proof. apply (nodupb_NoDup Nat.eqb Nat.eqb_eq). vm_compute. reflexivity. Qed.

Lemma AARCH64_HWCAP2_keys_NoDup : NoDup (map fst AARCH64_HWCAP2).
Proof. apply (nodupb_NoDup Nat.eqb Nat.eqb_eq). vm_compute. reflexivity. Qed.

Lemma X86_HWCAP_keys_NoDup : NoDup (map fst X86_HWCAP).
Proof. apply (nodupb_NoDup Nat.eqb Nat.eqb_eq). vm_compute. reflexivity. Qed.

(** Every bit position of the tables is below 32. *)
Lemma hwcap_bits_below_32 :
  Forall (fun e => fst e < 32) (AARCH64_HWCAP ++ AARCH64_HWCAP2 ++ X86_HWCAP).
Proof. apply Forall_forall. intros e He. repeat (destruct He as [<-|He]; [simpl; lia|]). destruct He. Qed.
