(* ===== verification/HwcapExpand.v ===== *)
(** * HwcapExpand: [bits_to_names] and [decode_hwcap]

    [bits_to_names] (auxv.print.py, lines 170-171) keeps, in table order,
    the names whose bit is set; [decode_hwcap] (lines 174-190) sorts them
    ([sorted], a stable sort on code points) and joins them into the
    report lines: two slots on aarch64, one slot plus the raw hexadecimal
    value of AT_HWCAP2 on x86, nothing on any other architecture.

    [sorted] is [PyText.py_sorted]. *)

From Stdlib Require Import String List Bool Arith Lia NArith Sorted Permutation HexString.
From S2P Require Import Prelude PyText HwcapTables.
Import ListNotations.

Local Open Scope string_scope.

(** [(bits >> bit) & 1] as a test. *)
Definition bit_set (bits : N) (bit : nat) : bool :=
  N.eqb (N.land (N.shiftr bits (N.of_nat bit)) 1) 1.

(** [[name for bit, name in table.items() if (bits >> bit) & 1]]. *)
Definition bits_to_names (bits : N) (table : list (nat * string)) : list string :=
  map snd (filter (fun e => bit_set bits (fst e)) table).

(** The capability names of one slot, sorted: the Expander of the spec
    ([sorted(names)] in [decode_hwcap]). *)
Definition expand (bits : N) (table : list (nat * string)) : list string :=
  py_sorted (bits_to_names bits table).

(** ["0x%x" % n]. *)
Definition hex_of_N (n : N) : string := HexString.of_N n.

(** [lines.append(label + ", ".join(sorted(names)))] when [names] is
    not empty. *)
Definition slot_line (label : string) (names : list string) : list string :=
  match names with
  | [] => []
  | _ => [label ++ join ", " (py_sorted names)]
  end.

(** [decode_hwcap(arch, hwcap, hwcap2)]. *)
Definition decode_hwcap (arch : string) (hwcap hwcap2 : N) : list string :=
  if String.eqb arch "aarch64" then
    let names1 := bits_to_names hwcap AARCH64_HWCAP in
    let names2 := bits_to_names hwcap2 AARCH64_HWCAP2 in
    slot_line "HWCAP:  " names1 ++ slot_line "HWCAP2: " names2
  else if existsb (String.eqb arch) ["x86_64"; "i386"; "i686"] then
    let names := bits_to_names hwcap X86_HWCAP in
    slot_line "HWCAP:  " names ++
    (if N.eqb hwcap2 0 then []
     else ["HWCAP2: " ++ hex_of_N hwcap2 ++ " (rarely used on x86)"])
  else [].

(** ** Lemmas *)

Lemma bit_set_testbit bits bit : bit_set bits bit = N.testbit bits (N.of_nat bit).
Proof.
  unfold bit_set.
  assert (Hl : forall x, N.land x 1 = (x mod 2)%N).
  { intros x. change 1%N with (N.ones 1) at 1. now rewrite N.land_ones. }
  rewrite Hl, N.shiftr_div_pow2, <- N.testbit_spec'. now destruct (N.testbit _ _).
Qed.

Lemma in_bits_to_names bits table name :
  In name (bits_to_names bits table) <->
  exists bit, In (bit, name) table /\ N.testbit bits (N.of_nat bit) = true.
Proof.
  unfold bits_to_names. rewrite in_map_iff. split.
  - intros ([bit n] & <- & Hin). apply filter_In in Hin as [Hin Hb].
    exists bit. rewrite <- bit_set_testbit. auto.
  - intros (bit & Hin & Hb). exists (bit, name). split; [reflexivity|].
    apply filter_In. rewrite bit_set_testbit. auto.
Qed.

(** ** The Expander *)

(** C24: the names of one slot are sorted, and they are exactly the names
    whose bit is set in the mask (spec, section 4.5). *)
Theorem expand_correct bits table :
  Sorted str_le (expand bits table) /\
  (forall name, In name (expand bits table) <->
     exists bit, In (bit, name) table /\ N.testbit bits (N.of_nat bit) = true).
Proof.
  unfold expand. split; [apply py_sorted_sorted|].
  intros name. rewrite <- in_bits_to_names.
  split; apply Permutation_in; [|symmetry]; apply py_sorted_perm.
Qed.

(** Bits 1, 3 and 22 of AT_HWCAP on aarch64 expand to AES, ASIMD and
    SVE, sorted, and [decode_hwcap] prints them on one line (spec, section 8). *)
Theorem aarch64_bits_1_3_22 :
  expand (2 + 8 + 4194304) AARCH64_HWCAP = ["AES"; "ASIMD"; "SVE"] /\
  decode_hwcap "aarch64" (2 + 8 + 4194304) 0 = ["HWCAP:  AES, ASIMD, SVE"].
Proof. split; vm_compute; reflexivity. Qed.

(** A bit that the table does not map changes nothing: setting it
    leaves the names unchanged (spec, section 4.4). *)
Theorem bits_to_names_unmapped bits table k :
  ~ In k (map fst table) ->
  bits_to_names (N.setbit bits (N.of_nat k)) table = bits_to_names bits table.
Proof.
  intros Hk. unfold bits_to_names. f_equal. apply filter_ext_in.
  intros [bit name] Hin. simpl. rewrite !bit_set_testbit.
  apply N.setbit_neq. intros Heq. apply Nat2N.inj in Heq.
  apply Hk, in_map_iff. exists (bit, name). split; [simpl; congruence|exact Hin].
Qed.

(** On x86 a non-zero AT_HWCAP2 is not expanded: its raw value is
    printed in hexadecimal on the last line (spec, section 4.4). *)
Theorem decode_hwcap_x86_hwcap2 arch hwcap hwcap2 :
  In arch ["x86_64"; "i386"; "i686"] -> hwcap2 <> 0%N ->
  exists pre, decode_hwcap arch hwcap hwcap2 =
              (pre ++ [("HWCAP2: " ++ hex_of_N hwcap2 ++ " (rarely used on x86)")%string])%list.
Proof.
  intros Harch H2. unfold decode_hwcap.
  assert (Ha : String.eqb arch "aarch64" = false)
    by (apply String.eqb_neq; intros ->; simpl in Harch; intuition discriminate).
  assert (Hx : existsb (String.eqb arch) ["x86_64"; "i386"; "i686"] = true)
    by (apply existsb_exists; exists arch; split; [exact Harch|apply String.eqb_refl]).
  rewrite Ha, Hx, (proj2 (N.eqb_neq _ _) H2). eexists. reflexivity.
Qed.

(** ** Witnesses *)

Lemma bits_to_names_unmapped_witness :
  bits_to_names (N.setbit 10 24) AARCH64_HWCAP = bits_to_names 10 AARCH64_HWCAP.
Proof.
  apply (bits_to_names_unmapped 10 AARCH64_HWCAP 24).
  vm_compute. intros H. repeat (destruct H as [H|H]; [discriminate|]). exact H.
Defined.

Lemma decode_hwcap_x86_hwcap2_witness :
  exists pre, decode_hwcap "x86_64" 67108864 5 =
              (pre ++ [("HWCAP2: " ++ hex_of_N 5 ++ " (rarely used on x86)")%string])%list.
Proof.
  apply decode_hwcap_x86_hwcap2; [simpl; auto|discriminate].
Defined.
