(* ===== verification/AuxvPrint.v ===== *)
(** * AuxvPrint: [main] of auxv.print.py

    [main] (auxv.print.py, lines 243-356) chooses the mode, decodes the
    vector with [parse_auxv], optionally recovers the strings that
    AT_PLATFORM, AT_BASE_PLATFORM and AT_EXECFN point to
    ([read_string_from_maps], lines 152-167, into the dict [str_cache]),
    prints one aligned line per entry and, with [--decode-hwcap], the
    expansion of the first AT_HWCAP and AT_HWCAP2 values.

    The outside world is explicit: [fs] gives the files [open] can read,
    [plat] the native word and byte order, [machine] the value of
    [platform.machine()], [pid] the value of [os.getpid()].  Inside the
    section, [mem_read pid addr n] is what opening [/proc/<pid>/mem],
    seeking to [addr] and reading [n] bytes gives ([None] when any of
    it raises), and [decode] is [bytes.decode(errors="replace")].  The
    output is the list of arguments of the [print] calls on stdout, and
    those on stderr. *)

From Stdlib Require Import String Ascii List Bool Arith Lia NArith.
From Stdlib Require Import Strings.Byte.
From S2P Require Import Prelude PyText AuxvDecode HwcapTables HwcapExpand.
Import ListNotations.

Local Open Scope string_scope.

(** [SUPPORTED_ARCH_LIST] (line 25), the choices of [--decode-arch]. *)
Definition SUPPORTED_ARCH_LIST : list string := ["aarch64"; "x86_64"; "i386"; "i686"].

(** The tags the source names AT_PLATFORM, AT_BASE_PLATFORM and AT_EXECFN
    (lines 309 and 325). *)
Definition ptr_tags : list N := [16; 24; 31]%N.

(** The names printed in decimal (lines 331-341). *)
Definition decimal_names : list string :=
  ["AT_PHENT"; "AT_PHNUM"; "AT_PAGESZ"; "AT_CLKTCK"; "AT_UID"; "AT_EUID";
   "AT_GID"; "AT_EGID"; "AT_SECURE"].

(** [data.find(b"\x00")], with [None] for [-1]. *)
Fixpoint find_nul (data : list byte) : option nat :=
  match data with
  | [] => None
  | b :: rest => if Byte.eqb b x00 then Some 0 else option_map S (find_nul rest)
  end.

(** [str_cache[t] = s] on a dict with integer keys. *)
Fixpoint dict_set (k : N) (v : string) (d : list (N * string)) : list (N * string) :=
  match d with
  | [] => [(k, v)]
  | (k', v') :: d' => if N.eqb k k' then (k, v) :: d' else (k', v') :: dict_set k v d'
  end.

(** The double quote, written with its code. *)
Definition dq : string := String (ascii_of_nat 34) EmptyString.

(** [f"{name:<{w}}"]: [name] padded with spaces to width [w]. *)
Definition ljust (name : string) (w : nat) : string :=
  name ++ string_of_list_ascii (repeat " "%char (w - String.length name)).

(** [max(len(AT_NAMES.get(t, "AT_%d" % t)) for t, _ in entries)], or 15. *)
Definition name_width (entries : list (N * N)) : nat :=
  match entries with
  | [] => 15
  | _ => fold_right (fun e m => Nat.max (String.length (at_name (fst e))) m) 0 entries
  end.

(** [next((v for t, v in entries if t == tag), 0)]. *)
Definition first_value (tag : N) (entries : list (N * N)) : N :=
  match find (fun e => N.eqb (fst e) tag) entries with Some (_, v) => v | None => 0%N end.

(** One line of the table (lines 323-344). *)
Definition render_entry (name_w : nat) (str_cache : list (N * string)) (e : N * N) : string :=
  let '(t, v) := e in
  let name := at_name t in
  match (if existsb (N.eqb t) ptr_tags then assoc_get N.eqb t str_cache else None) with
  | Some s => ljust name name_w ++ " : " ++ hex_of_N v ++ "  " ++ dq ++ s ++ dq
  | None =>
      if N.eqb t 25 then ljust name name_w ++ " : " ++ hex_of_N v ++ "  (pointer to 16 random bytes)"
      else if existsb (String.eqb name) decimal_names then ljust name name_w ++ " : " ++ str_of_N v
      else ljust name name_w ++ " : " ++ hex_of_N v
  end.

(** The [--decode-hwcap] block (lines 346-356). *)
Definition hwcap_block (arch : string) (entries : list (N * N)) : list string :=
  let hw1 := first_value 17 entries in
  let hw2 := first_value 26 entries in
  match decode_hwcap arch hw1 hw2 with
  | [] => [String "010"%char ("Decoded HWCAP: (no known mapping for arch=" ++ arch ++ ")")]
  | lines => String "010"%char "Decoded HWCAP:" :: map (fun ln => "  " ++ ln) lines
  end.

(** An entry with the tag [tag] given the value [v]; other entries unchanged. *)
Definition set_value (tag v : N) (e : N * N) : N * N :=
  if N.eqb (fst e) tag then (tag, v) else e.

(** The command line after [parse_args()]. *)
Record args : Type := Args {
  decode_auxv : option string;
  decode_arch : option string;
  decode_hwcap_flag : bool;
  try_strings : bool
}.

(** The world [main] reads. *)
Record env : Type := Env {
  fs : string -> option (list byte);
  plat : platform;
  machine : string;
  pid : N
}.

(** [file_mode = args.decode_auxv is not None]. *)
Definition is_file_mode (a : args) : bool :=
  match decode_auxv a with Some _ => true | None => false end.

(** [args.decode_arch if args.decode_arch else platform.machine()] in
    file mode, [platform.machine()] in self mode. *)
Definition main_arch (a : args) (e : env) : string :=
  match decode_auxv a, decode_arch a with
  | Some _, Some x => if String.eqb x "" then machine e else x
  | _, _ => machine e
  end.

(** The file [parse_auxv] reads. *)
Definition main_src (a : args) : string :=
  match decode_auxv a with Some p => p | None => "/proc/self/auxv" end.

Section Main.
Context (mem_read : N -> N -> nat -> option (list byte)).
Context (decode : list byte -> string).

(** [read_string_from_maps(pid, addr, maxlen)]. *)
Definition read_string_from_maps (pid addr : N) (maxlen : nat) : option string :=
  match mem_read pid addr maxlen with
  | Some data =>
      match find_nul data with
      | Some e => Some (decode (firstn e data))
      | None => None
      end
  | None => None
  end.

(** Lines 307-314: the loop that fills [str_cache]. *)
Fixpoint build_str_cache (pid : N) (entries : list (N * N)) (str_cache : list (N * string))
  : list (N * string) :=
  match entries with
  | [] => str_cache
  | (t, v) :: rest =>
      let str_cache' :=
        if existsb (N.eqb t) ptr_tags && negb (N.eqb v 0) then
          match read_string_from_maps pid v 4096 with
          | Some s => if String.eqb s "" then str_cache else dict_set t s str_cache
          | None => str_cache
          end
        else str_cache in
      build_str_cache pid rest str_cache'
  end.

(** [main()]: the lines printed on stdout and on stderr. *)
Definition main (a : args) (e : env) : result (list string * list string) :=
  let file_mode := is_file_mode a in
  let arch := main_arch a e in
  let src := main_src a in
  entries <- parse_auxv (fs e) (plat e) (FromPath src) (Some arch) ;;
  let source_desc :=
    if file_mode then "File: " ++ src ++ " (arch=" ++ arch ++ ")"
    else "PID " ++ str_of_N (pid e) ++ " (arch=" ++ arch ++ ")" in
  let str_cache :=
    if file_mode then []
    else if try_strings a then build_str_cache (pid e) entries [] else [] in
  let warnings :=
    if file_mode && try_strings a then ["Warning: --try-strings ignored in file mode"] else [] in
  let name_w := name_width entries in
  let table := ("auxv from " ++ source_desc ++ ":") :: map (render_entry name_w str_cache) entries in
  let hw := if decode_hwcap_flag a then hwcap_block arch entries else [] in
  Ok (table ++ hw, warnings)%list.

End Main.

(** ** Lemmas *)

Lemma string_length_app s t : String.length (s ++ t) = String.length s + String.length t.
Proof. induction s as [|c s IH]; simpl; [reflexivity|now rewrite IH]. Qed.

Lemma length_string_of_list_ascii l : String.length (string_of_list_ascii l) = length l.
Proof. induction l as [|c l IH]; simpl; [reflexivity|now rewrite IH]. Qed.

(** Padding reaches the width when the name fits. *)
Lemma ljust_length name w : String.length name <= w -> String.length (ljust name w) = w.
Proof.
  intros H. unfold ljust. rewrite string_length_app, length_string_of_list_ascii, repeat_length.
  lia.
Qed.

(** The width is at least the length of every name. *)
Lemma name_width_ge entries en :
  In en entries -> String.length (at_name (fst en)) <= name_width entries.
Proof.
  intros Hin. destruct entries as [|e0 rest]; [destruct Hin|].
  unfold name_width. revert Hin. generalize (e0 :: rest). intros l.
  induction l as [|e l IH]; simpl; [intros []|].
  intros [->|Hin]; [lia|]. specialize (IH Hin). lia.
Qed.

(** Every line of the table starts with the padded name and [" : "]. *)
Lemma render_entry_shape w cache t v :
  exists rest, render_entry w cache (t, v) = ljust (at_name t) w ++ " : " ++ rest.
Proof.
  unfold render_entry.
  destruct (if existsb (N.eqb t) ptr_tags then assoc_get N.eqb t cache else None);
    [eexists; reflexivity|].
  destruct (N.eqb t 25); [eexists; reflexivity|].
  destruct (existsb _ decimal_names); eexists; reflexivity.
Qed.

Lemma Forall2_render w cache entries :
  Forall2 (fun en line => exists rest, line = ljust (at_name (fst en)) w ++ " : " ++ rest)
          entries (map (render_entry w cache) entries).
Proof.
  induction entries as [|[t v] entries IH]; simpl; constructor; [|exact IH].
  destruct (render_entry_shape w cache t v) as [rest E]. exists rest. exact E.
Qed.

Lemma firstn_map_app {A B} (f : A -> B) l m : firstn (length l) (map f l ++ m) = map f l.
Proof. rewrite <- (length_map f l). apply firstn_app_length. Qed.

(** A failing memory read leaves the string cache as it is. *)
Lemma build_str_cache_unreadable mem dec p entries cache :
  (forall p a n, mem p a n = None) -> build_str_cache mem dec p entries cache = cache.
Proof.
  intros Hm. revert cache. induction entries as [|[t v] entries IH]; intros cache; simpl;
    [reflexivity|].
  unfold read_string_from_maps. rewrite Hm, IH.
  now destruct (_ && _).
Qed.

(** ["%d" % n] is made of decimal digits. *)
Lemma str_of_N_digits n : Forall (fun c => is_digit c = true) (list_ascii_of_string (str_of_N n)).
Proof.
  unfold str_of_N, str_of_nat. generalize (Nat.to_uint (N.to_nat n)) as u.
  induction u; simpl; constructor; auto.
Qed.

(** A synthesized name ["AT_<n>"] is not one of the decimal names. *)
Lemma synthesized_not_decimal t :
  existsb (String.eqb ("AT_" ++ str_of_N t)) decimal_names = false.
Proof.
  apply not_true_iff_false. intros H. apply existsb_exists in H as (x & Hx & Heq).
  apply String.eqb_eq in Heq. pose proof (str_of_N_digits t) as Hd.
  simpl in Hx. repeat destruct Hx as [<-|Hx]; try destruct Hx;
    inv Heq; rewrite H0 in Hd; inv Hd; discriminate.
Qed.

(** ** The table *)

(** C34: [main] prints one line per decoded entry, in order, each starting
    with the entry's name padded to the common width and [" : "]: the
    values are aligned in one column. *)
Theorem main_table_aligned mem dec a e out err :
  main mem dec a e = Ok (out, err) ->
  exists entries,
    parse_auxv (fs e) (plat e) (FromPath (main_src a)) (Some (main_arch a e)) = Ok entries /\
    Forall2 (fun en line => exists rest,
               line = ljust (at_name (fst en)) (name_width entries) ++ " : " ++ rest)
            entries (firstn (length entries) (tl out)) /\
    Forall (fun en => String.length (ljust (at_name (fst en)) (name_width entries))
                      = name_width entries) entries.
Proof.
  unfold main. destruct (parse_auxv _ _ _ _) as [entries|ex]; cbn [bind]; [|discriminate].
  intros H. apply Ok_inj, pair_equal_spec in H as [<- _].
  exists entries. split; [reflexivity|]. split.
  - cbn [tl app]. rewrite firstn_map_app. apply Forall2_render.
  - apply Forall_forall. intros en Hin. apply ljust_length, name_width_ge, Hin.
Qed.

(** A tag missing from [AT_NAMES] is printed, under the synthesized
    name ["AT_<n>"], with its value in hexadecimal (spec, section 6). *)
Theorem render_unknown_tag w cache t v :
  ~ In t (map fst AT_NAMES) ->
  render_entry w cache (t, v) = ljust ("AT_" ++ str_of_N t) w ++ " : " ++ hex_of_N v.
Proof.
  intros Ht.
  assert (Hn : at_name t = "AT_" ++ str_of_N t).
  { unfold at_name. destruct (assoc_get N.eqb t AT_NAMES) eqn:E; [|reflexivity].
    exfalso. apply Ht. clear Ht. revert E. induction AT_NAMES as [|[k x] l IH]; simpl;
      [discriminate|]. destruct (N.eqb_spec t k); [intros _; left; congruence|auto]. }
  unfold render_entry. rewrite Hn.
  assert (Hp : existsb (N.eqb t) ptr_tags = false).
  { apply not_true_iff_false. intros Hp. apply existsb_exists in Hp as (x & Hx & Hxe).
    apply N.eqb_eq in Hxe. subst x. apply Ht.
    simpl in Hx. repeat destruct Hx as [<-|Hx]; try destruct Hx; simpl; tauto. }
  assert (H25 : N.eqb t 25 = false).
  { apply N.eqb_neq. intros ->. apply Ht. simpl. tauto. }
  rewrite Hp, H25, synthesized_not_decimal. reflexivity.
Qed.

(** ** The two modes *)

(** C37: file mode never reads process memory: its output does not depend on
    the memory or the decoder of [read_string_from_maps]. *)
Theorem file_mode_ignores_memory mem1 dec1 mem2 dec2 a e :
  is_file_mode a = true -> main mem1 dec1 a e = main mem2 dec2 a e.
Proof. intros H. unfold main. cbv zeta. now rewrite H. Qed.

(** C36: best-effort degradation (spec, section 7): in self mode, when no
    string can be read, [--try-strings] changes nothing; the pointer tags
    are printed as plain hexadecimal values. *)
Theorem self_mode_unreadable_memory mem dec a e :
  is_file_mode a = false -> (forall p addr n, mem p addr n = None) ->
  main mem dec a e =
  main mem dec (Args (decode_auxv a) (decode_arch a) (decode_hwcap_flag a) false) e.
Proof.
  intros Hf Hm. destruct a as [da darch hw ts]. unfold is_file_mode in Hf. simpl in Hf.
  destruct da; [discriminate|]. unfold main. cbv zeta. cbn [is_file_mode decode_auxv try_strings].
  destruct (parse_auxv _ _ _ _) as [entries|ex]; cbn [bind]; [|reflexivity].
  destruct ts; [|reflexivity]. now rewrite build_str_cache_unreadable.
Qed.

(** With [--decode-arch] one of [SUPPORTED_ARCH_LIST] and a readable
    file, file mode never raises. *)
Theorem main_supported_arch_ok mem dec a e path x data :
  decode_auxv a = Some path -> decode_arch a = Some x -> In x SUPPORTED_ARCH_LIST ->
  fs e path = Some data ->
  exists out err, main mem dec a e = Ok (out, err).
Proof.
  intros Hp Hx Hin Hfs. unfold main, main_arch, main_src. rewrite Hp, Hx.
  assert (Hne : String.eqb x "" = false).
  { apply String.eqb_neq. intros ->. simpl in Hin. intuition discriminate. }
  rewrite Hne.
  assert (Hs : exists f step, select_fmt (ul_size (Some x) (native_ulong_size (plat e)))
                               = Ok (f, step)).
  { simpl in Hin. repeat destruct Hin as [<-|Hin]; try destruct Hin; eexists _, _; reflexivity. }
  destruct Hs as (f & step & Hs).
  rewrite (parse_auxv_spec (fs e) (plat e) (FromPath path) (Some x) data f step)
    by first [exact Hs|simpl; rewrite Hfs; reflexivity].
  cbn [bind]. eexists _, _. reflexivity.
Qed.

(** ** A vector as the Linux kernel lays it out *)

(** In linux/auxvec.h, AT_PLATFORM is 15, AT_HWCAP 16 and AT_CLKTCK 17.
    This vector has AT_PAGESZ, AT_HWCAP with bits 1, 3 and 22 (ASIMD, AES,
    SVE), AT_CLKTCK = 100, AT_RANDOM, AT_HWCAP2 with bit 1, a tag unknown
    to [AT_NAMES], and AT_NULL. *)
Definition kernel_entries : list (N * N) :=
  [(6, 4096); (16, 4194314); (17, 100); (25, 4294955008); (26, 2); (99, 7)]%N.

Definition kernel_auxv : list byte := encode_auxv Little QQ (kernel_entries ++ [(0, 0)]%N).

Definition kernel_env : env :=
  Env (fun p => if String.eqb p "auxv.bin" then Some kernel_auxv else None)
      (Platform 8 Little) "x86_64" 1234.

Definition self_env : env :=
  Env (fun p => if String.eqb p "/proc/self/auxv" then Some kernel_auxv else None)
      (Platform 8 Little) "aarch64" 1234.

Definition decode_file_args : args := Args (Some "auxv.bin") (Some "aarch64") true true.

Definition no_memory : N -> N -> nat -> option (list byte) := fun _ _ _ => None.

Definition no_decode : list byte -> string := fun _ => "".

(** What [main] prints for it with [--decode-auxv auxv.bin --decode-arch
    aarch64 --decode-hwcap --try-strings].  [AT_NAMES] numbers AT_CLKTCK
    15, AT_PLATFORM 16 and AT_HWCAP 17, so the AT_HWCAP word is printed
    as AT_PLATFORM and [--decode-hwcap] expands AT_CLKTCK (100: bits 2,
    5 and 6) instead of the capabilities AES, ASIMD and SVE. *)
Theorem main_decodes_clktck_as_hwcap :
  main no_memory no_decode decode_file_args kernel_env =
  Ok (["auxv from File: auxv.bin (arch=aarch64):";
       "AT_PAGESZ   : 4096";
       "AT_PLATFORM : 0x40000a";
       "AT_HWCAP    : 0x64";
       "AT_RANDOM   : 0xffffd000  (pointer to 16 random bytes)";
       "AT_HWCAP2   : 0x2";
       "AT_99       : 0x7";
       String "010"%char "Decoded HWCAP:";
       "  HWCAP:  EVTSTRM, SHA1, SHA2";
       "  HWCAP2: SVE2"],
      ["Warning: --try-strings ignored in file mode"]) /\
  expand 4194314 AARCH64_HWCAP = ["AES"; "ASIMD"; "SVE"].
Proof. split; vm_compute; reflexivity. Qed.

Lemma first_value_set_other tag t v entries :
  tag <> t -> first_value tag (map (set_value t v) entries) = first_value tag entries.
Proof.
  intros Hne. unfold first_value. induction entries as [|[k x] entries IH]; [reflexivity|].
  cbn [map find]. change (set_value t v (k, x)) with (if N.eqb k t then (t, v) else (k, x)).
  destruct (N.eqb_spec k t) as [->|Hkt]; cbn [fst].
  - rewrite (proj2 (N.eqb_neq t tag)) by congruence. exact IH.
  - destruct (N.eqb k tag); [reflexivity|exact IH].
Qed.

(** C28: for any vector, [--decode-hwcap] never reads the entry tagged
    16: whatever value it holds, [main] prints the same lines.  In
    linux/auxvec.h 16 is AT_HWCAP, the capability word; [main] expands
    the first entry tagged 17 (lines 348-350), which [AT_NAMES] calls
    AT_HWCAP but is the kernel's AT_CLKTCK, the clock tick. *)
Theorem main_hwcap_ignores_tag16 mem dec a e entries v :
  decode_hwcap_flag a = true ->
  parse_auxv (fs e) (plat e) (FromPath (main_src a)) (Some (main_arch a e)) = Ok entries ->
  exists table warnings,
    main mem dec a e
    = Ok (table ++ hwcap_block (main_arch a e) (map (set_value 16 v) entries), warnings)%list.
Proof.
  intros Hd Hp. unfold main. rewrite Hp. cbn [bind]. rewrite Hd.
  unfold hwcap_block. rewrite !first_value_set_other by discriminate.
  eexists _, _. reflexivity.
Qed.

(** ** Witnesses *)

Lemma main_table_aligned_witness :
  exists entries,
    parse_auxv (fs kernel_env) (plat kernel_env) (FromPath (main_src decode_file_args))
               (Some (main_arch decode_file_args kernel_env)) = Ok entries /\
    Forall2 (fun en line => exists rest,
               line = ljust (at_name (fst en)) (name_width entries) ++ " : " ++ rest)
            entries
            (firstn (length entries)
               (tl ["auxv from File: auxv.bin (arch=aarch64):"; "AT_PAGESZ   : 4096";
                    "AT_PLATFORM : 0x40000a"; "AT_HWCAP    : 0x64";
                    "AT_RANDOM   : 0xffffd000  (pointer to 16 random bytes)";
                    "AT_HWCAP2   : 0x2"; "AT_99       : 0x7";
                    String "010"%char "Decoded HWCAP:";
                    "  HWCAP:  EVTSTRM, SHA1, SHA2"; "  HWCAP2: SVE2"])) /\
    Forall (fun en => String.length (ljust (at_name (fst en)) (name_width entries))
                      = name_width entries) entries.
Proof.
  apply (main_table_aligned no_memory no_decode decode_file_args kernel_env _
           ["Warning: --try-strings ignored in file mode"]).
  vm_compute. reflexivity.
Defined.

Lemma render_unknown_tag_witness :
  render_entry 11 [] (99, 7)%N = ljust ("AT_" ++ str_of_N 99) 11 ++ " : " ++ hex_of_N 7.
Proof.
  apply render_unknown_tag. vm_compute. intros H.
  repeat (destruct H as [H|H]; [discriminate|]). exact H.
Defined.

Lemma file_mode_ignores_memory_witness :
  main no_memory no_decode decode_file_args kernel_env =
  main (fun _ _ _ => Some [x41; x00]) (fun _ => "A") decode_file_args kernel_env.
Proof. apply file_mode_ignores_memory. reflexivity. Defined.

Lemma self_mode_unreadable_memory_witness :
  main no_memory no_decode (Args None None true true) self_env =
  main no_memory no_decode (Args None None true false) self_env.
Proof. apply (self_mode_unreadable_memory _ _ (Args None None true true)); reflexivity. Defined.

Lemma main_hwcap_ignores_tag16_witness :
  exists table warnings,
    main no_memory no_decode decode_file_args kernel_env
    = Ok (table ++ hwcap_block (main_arch decode_file_args kernel_env)
                     (map (set_value 16 0) kernel_entries), warnings)%list.
Proof. apply main_hwcap_ignores_tag16; vm_compute; reflexivity. Defined.

Lemma main_supported_arch_ok_witness :
  exists out err, main no_memory no_decode decode_file_args kernel_env = Ok (out, err).
Proof.
  apply (main_supported_arch_ok _ _ _ _ "auxv.bin" "aarch64" kernel_auxv);
    [reflexivity|reflexivity|simpl; auto|reflexivity].
Defined.
